(** * Verification of the npm module fetcher
      (packages/app/src/sandbox/eval/npm/fetch-npm-module.ts)

    The development is a shallow embedding of the fetcher: regular
    expressions become recursive string functions, the process-wide caches
    become finite maps of promise handles inside an explicit store, the
    asynchronous chains become tasks that the event loop settles, and time
    becomes a clock that every effect advances.

    Conventions.  A JavaScript string is a [string] of 8-bit characters; the
    line terminators a regular expression's [.] refuses are LF and CR (the two
    further ones, U+2028 and U+2029, are outside this alphabet). *)

From Stdlib Require Import ZArith Lia Bool Ascii String.
From stdpp Require Import base option list strings gmap fin_maps.

Set Warnings "-register-all".

Local Open Scope string_scope.

(** ** Characters and regular expressions *)

Module Regex.

Definition is_line_terminator (c : ascii) : bool :=
  (Ascii.eqb c "010" || Ascii.eqb c "013")%char.

(** [\d] *)
Definition is_digit (c : ascii) : bool :=
  let n := nat_of_ascii c in (48 <=? n)%nat && (n <=? 57)%nat.

(** [\w] is [A-Za-z0-9_] *)
Definition is_word (c : ascii) : bool :=
  let n := nat_of_ascii c in
  ((48 <=? n)%nat && (n <=? 57)%nat) || ((65 <=? n)%nat && (n <=? 90)%nat)
  || ((97 <=? n)%nat && (n <=? 122)%nat) || (n =? 95)%nat.

(** [s.startsWith(p)], also a regular expression [/^p/] for a literal [p]. *)
Fixpoint starts_with (p s : string) : bool :=
  match p, s with
  | EmptyString, _ => true
  | String a p', String b s' => Ascii.eqb a b && starts_with p' s'
  | String _ _, EmptyString => false
  end.

(** [/p/.test(s)] for a literal [p]: [p] occurs somewhere in [s]. *)
Fixpoint occurs (p s : string) : bool :=
  starts_with p s ||
  match s with
  | EmptyString => false
  | String _ s' => occurs p s'
  end.

Fixpoint drop (n : nat) (s : string) : string :=
  match n, s with
  | O, _ => s
  | S n', String _ s' => drop n' s'
  | S _, EmptyString => EmptyString
  end.

(** The longest prefix without a line terminator: what a greedy [.*] takes. *)
Fixpoint line_prefix (s : string) : string :=
  match s with
  | EmptyString => EmptyString
  | String c s' => if is_line_terminator c then EmptyString
                   else String c (line_prefix s')
  end.

(** [/^\d/.test(s)] *)
Definition starts_with_digit (s : string) : bool :=
  match s with
  | String c _ => is_digit c
  | EmptyString => false
  end.

(** [/^(\w|@\w|@-)/.test(s)] *)
Definition bare_specifier (s : string) : bool :=
  match s with
  | String c r =>
      is_word c ||
      (Ascii.eqb c "@" &&
       match r with
       | String d _ => is_word d || Ascii.eqb d "-"
       | EmptyString => false
       end)
  | EmptyString => false
  end.

(** [(.+)@(.+)] matched at the start of [s], without the condition that the
    first group is not empty: the greedy first group runs to the last [@] of
    the first line that a character of that line follows; the second group
    is the rest of the line.  [None] when there is no such [@]. *)
Fixpoint split_last_at (s : string) : option (string * string) :=
  match s with
  | EmptyString => None
  | String c r =>
      if is_line_terminator c then None
      else match split_last_at r with
           | Some (a, b) => Some (String c a, b)
           | None =>
               if Ascii.eqb c "@" then
                 match line_prefix r with
                 | EmptyString => None
                 | b => Some (EmptyString, b)
                 end
               else None
           end
  end.

(** [s.match(/^npm:(.+)@(.+)/)]: the two groups, or [None] for [null]. *)
Definition match_alias (s : string) : option (string * string) :=
  if starts_with "npm:" s then
    match split_last_at (drop 4 s) with
    | Some (String c a, b) => Some (String c a, b)
    | _ => None
    end
  else None.

(** The text behind the last [/node_modules/] that starts in the first line
    of [s]. *)
Fixpoint after_last_node_modules (s : string) : option string :=
  match s with
  | EmptyString => None
  | String c r =>
      if is_line_terminator c then None
      else match after_last_node_modules r with
           | Some t => Some t
           | None => if starts_with "/node_modules/" s
                     then Some (drop 14 s) else None
           end
  end.

(** [s.replace(/.*\/node_modules\//, '')]: the leftmost match is cut out. *)
Fixpoint strip_node_modules (s : string) : string :=
  match after_last_node_modules s with
  | Some t => t
  | None => match s with
            | EmptyString => EmptyString
            | String c r => String c (strip_node_modules r)
            end
  end.

(** [\d*] *)
Fixpoint skip_digits (s : string) : string :=
  match s with
  | String c r => if is_digit c then skip_digits r else s
  | EmptyString => s
  end.

Definition skip_dot (s : string) : option string :=
  match s with
  | String c r => if Ascii.eqb c "." then Some r else None
  | EmptyString => None
  end.

(** The lazy [.*?(\/|$)]: up to and with the next [/], or up to the end of
    the text; no line terminator may be passed.  Returns what is left. *)
Fixpoint skip_to_slash_or_end (s : string) : option string :=
  match s with
  | EmptyString => Some EmptyString
  | String c r =>
      if Ascii.eqb c "/" then Some r
      else if is_line_terminator c then None
      else skip_to_slash_or_end r
  end.

(** [ALIAS_REGEX] matched at the start of [s]: what is left behind the
    match. *)
Definition match_alias_version (s : string) : option string :=
  match s with
  | String c r =>
      if Ascii.eqb c "/" then
        match skip_dot (skip_digits r) with
        | Some r1 =>
            match skip_dot (skip_digits r1) with
            | Some r2 => skip_to_slash_or_end (skip_digits r2)
            | None => None
            end
        | None => None
        end
      else None
  | EmptyString => None
  end.

(** [s.replace(ALIAS_REGEX, '')] with
    [ALIAS_REGEX = /\/\d*\.\d*\.\d*.*?(\/|$)/]. *)
Fixpoint strip_alias_version (s : string) : string :=
  match match_alias_version s with
  | Some rest => rest
  | None => match s with
            | EmptyString => EmptyString
            | String c r => String c (strip_alias_version r)
            end
  end.

End Regex.

(** ** Results of fallible code *)

Inductive error :=
  | TypeError (msg : string)
  | SyntaxError
  | NetworkError (msg : string)
  | ENOENT (path : string)
  | ModuleNotFound (path : string)
  | DependencyNotFoundError (path : string)
  | OtherError (msg : string).

Inductive result (A : Type) :=
  | Ok (a : A)
  | Throw (e : error).
Arguments Ok {A} a.
Arguments Throw {A} e.

(** ** Backend protocols (urlProtocols) *)

Inductive protocol := csbGH | unpkg | jsDelivrNPM | jsDelivrGH.

Global Instance protocol_eq_dec : EqDecision protocol.
Proof. solve_decision. Defined.

Inductive normalizer := UseNormalize | UseNormalizeJSDelivr.

(** The [normalizeMeta] field of each entry of [urlProtocols]. *)
Definition normalizeMeta (p : protocol) : normalizer :=
  match p with
  | csbGH | unpkg => UseNormalize
  | jsDelivrNPM | jsDelivrGH => UseNormalizeJSDelivr
  end.

Section FetchProtocol.

(** [CSB_PKG_PROTOCOL.test]: the pattern is imported from
    [@codesandbox/common/es/utils/ci] and is a parameter here. *)
Variable CSB_PKG_PROTOCOL : string -> bool.

Definition getFetchProtocol (depVersion : string) (useFallback : bool)
  : protocol :=
  let isDraftProtocol := CSB_PKG_PROTOCOL depVersion in
  if isDraftProtocol then csbGH
  else
    let isGitHub := Regex.occurs "/" depVersion in
    if isGitHub then jsDelivrGH
    else if useFallback then unpkg else jsDelivrNPM.

End FetchProtocol.

(** A version made of digits and dots only, such as [1.2.3]. *)
Definition numeric_semver (v : string) : bool :=
  forallb (fun c => Regex.is_digit c || Ascii.eqb c ".")
          (list_ascii_of_string v).

(** ** npm aliases *)

(** [resolveNPMAlias]: [parts[1]] on a [null] match is a TypeError. *)
Definition resolveNPMAlias (name version : string) : result (string * string) :=
  if negb (Regex.starts_with "npm:" version) then Ok (name, version)
  else match Regex.match_alias version with
       | Some (a, b) => Ok (a, b)
       | None => Throw (TypeError "Cannot read property '1' of null")
       end.

(** ** Paths

    Modelled from the spec: [pathUtils.join] and [pathUtils.dirname] of
    [@codesandbox/common/es/utils/path] are imported, not part of these
    sources.  They are the POSIX functions of Node's [path] module: [join]
    puts its non-empty arguments together with [/] and normalises the result
    (empty and [.] segments dropped, [..] resolved, a trailing slash kept);
    [dirname] is the path in front of its last segment, slashes at the end
    of the path not counted.  The fetcher's own
    definitions below take them as parameters; this model instantiates
    them. *)

Module Posix.

(** [s.split('/')] *)
Fixpoint split (s : string) : list string :=
  match s with
  | EmptyString => [EmptyString]
  | String c r =>
      if Ascii.eqb c "/" then EmptyString :: split r
      else match split r with
           | seg :: segs => String c seg :: segs
           | [] => [String c EmptyString]
           end
  end.

(** [parts.join('/')] *)
Fixpoint unsplit (parts : list string) : string :=
  match parts with
  | [] => EmptyString
  | [p] => p
  | p :: ps => p ++ "/" ++ unsplit ps
  end.

Definition nonempty (s : string) : bool :=
  match s with EmptyString => false | _ => true end.

(** [normalizeArray], from the last part to the first: [up] counts the
    [..] parts that still have to remove a directory. *)
Fixpoint normalizeArray_rev (rev_parts : list string) (up : nat)
  : list string * nat :=
  match rev_parts with
  | [] => ([], up)
  | p :: ps =>
      if String.eqb p "." then normalizeArray_rev ps up
      else if String.eqb p ".." then normalizeArray_rev ps (S up)
      else match up with
           | S up' => normalizeArray_rev ps up'
           | O => let '(kept, u) := normalizeArray_rev ps O in ((kept ++ [p])%list, u)
           end
  end.

Definition normalizeArray (parts : list string) (allowAboveRoot : bool)
  : list string :=
  let '(kept, up) := normalizeArray_rev (rev parts) O in
  if allowAboveRoot then (repeat ".." up ++ kept)%list else kept.

Definition isAbsolute (path : string) : bool := Regex.starts_with "/" path.

Fixpoint ends_with_slash (s : string) : bool :=
  match s with
  | EmptyString => false
  | String c EmptyString => Ascii.eqb c "/"
  | String _ r => ends_with_slash r
  end.

Definition normalize (path : string) : string :=
  let isAbs := isAbsolute path in
  let trailingSlash := ends_with_slash path in
  let p := unsplit (normalizeArray (filter (fun x => nonempty x = true)
                                           (split path)) (negb isAbs)) in
  let p := if negb (nonempty p) && negb isAbs then "." else p in
  let p := if nonempty p && trailingSlash then p ++ "/" else p in
  (if isAbs then "/" else "") ++ p.

Definition join (paths : list string) : string :=
  normalize (unsplit (filter (fun x => nonempty x = true) paths)).

Definition is_slash (c : ascii) : bool := Ascii.eqb c "/".

Fixpoint drop_while (f : ascii -> bool) (l : list ascii) : list ascii :=
  match l with
  | [] => []
  | c :: r => if f c then drop_while f r else l
  end.

(** [dirname]: the path is read from its end to its second character; the
    slashes at the end are passed over, then the characters of the last
    segment, and the path is cut in front of the slash that comes next.
    Without such a slash the result is [/] for an absolute path and [.]
    otherwise; an absolute path that is cut behind its first character
    gives [//]. *)
Definition dirname (path : string) : string :=
  match path with
  | EmptyString => "."
  | String first rest =>
      let hasRoot := is_slash first in
      let behind := drop_while is_slash (rev (list_ascii_of_string rest)) in
      match drop_while (fun c => negb (is_slash c)) behind with
      | [] => if hasRoot then "/" else "."
      | _ :: front =>
          match front with
          | [] => if hasRoot then "//" else String first EmptyString
          | _ => String first (string_of_list_ascii (rev front))
          end
      end
  end.

End Posix.

(** A path segment as [normalize] leaves it: not empty, without a
    separator, neither [.] nor [..]. *)
Definition clean_segment (s : string) : Prop :=
  Posix.nonempty s = true /\ Regex.occurs "/" s = false /\
  s <> "." /\ s <> "..".

(** A normalised absolute path that names something below the root: a
    slash in front of one or more clean segments that slashes separate. *)
Definition clean_path (p : string) : Prop :=
  exists segs : list string,
    segs <> [] /\ Forall clean_segment segs /\ p = "/" ++ Posix.unsplit segs.

(** ** Metadata and its normalisation *)

(** [Meta]: an object used as a set of paths, every stored value [true]. *)
Abbreviation Meta := (gmap string bool).

Inductive file_type := file | directory.

(** An element of [MetaFiles]; [files] is optional. *)
Inductive MetaFile :=
  mkMetaFile (path : string) (type : file_type) (files : option (list MetaFile)).

(** An element of the flat listing: only [name] is read. *)
Record FlatFile := mkFlatFile { entry_name : string }.

(** [normalize]: the loop over [files], the object [fileObject] threaded
    through it and through the recursive calls. *)
Fixpoint normalize_file (rootPath : string) (f : MetaFile) (fileObject : Meta)
  : Meta :=
  match f with
  | mkMetaFile path type files =>
      let fileObject :=
        match type with
        | file => let absolutePath := rootPath ++ path in
                  <[absolutePath := true]> fileObject
        | directory => fileObject
        end in
      match files with
      | Some sub =>
          (fix loop (l : list MetaFile) (acc : Meta) : Meta :=
             match l with
             | [] => acc
             | g :: l' => loop l' (normalize_file rootPath g acc)
             end) sub fileObject
      | None => fileObject
      end
  end.

Fixpoint normalize (files : list MetaFile) (fileObject : Meta)
  (rootPath : string) : Meta :=
  match files with
  | [] => fileObject
  | f :: rest => normalize rest (normalize_file rootPath f fileObject) rootPath
  end.

Section NormalizeJSDelivr.

Variable join : list string -> string.

Fixpoint normalizeJSDelivr (files : list FlatFile) (fileObject : Meta)
  (rootPath : string) : Meta :=
  match files with
  | [] => fileObject
  | f :: rest =>
      let absolutePath := join [rootPath; entry_name f] in
      normalizeJSDelivr rest (<[absolutePath := true]> fileObject) rootPath
  end.

End NormalizeJSDelivr.

(** The paths of the entries of type [file] of a nested listing, in the
    order [normalize] visits them. *)
Fixpoint file_paths_of (f : MetaFile) : list string :=
  match f with
  | mkMetaFile path type files =>
      (match type with file => [path] | directory => [] end ++
       match files with
       | Some sub =>
           (fix loop (l : list MetaFile) : list string :=
              match l with
              | [] => []
              | g :: l' => file_paths_of g ++ loop l'
              end) sub
       | None => []
       end)%list
  end.

Definition file_paths (files : list MetaFile) : list string :=
  concat (map file_paths_of files).

Definition flat_names (files : list FlatFile) : list string :=
  map entry_name files.

(** One step of either normaliser: the path [prefix p] is entered. *)
Definition add_path (prefix : string -> string) (acc : Meta) (p : string)
  : Meta := <[prefix p := true]> acc.

(** A nested and a flat listing that describe the same set of files. *)
Definition same_files (tree : list MetaFile) (flat : list FlatFile) : Prop :=
  forall p : string, p ∈ file_paths tree <-> p ∈ flat_names flat.

(** ** Resilient fetch (fetchWithRetries)

    Time is a clock in milliseconds.  Synchronous code may take time too, so
    every reading of [Date.now()] can be later than the one before; what the
    surroundings decide for one turn of the loop is collected in a
    [turn]. *)

Module Retry.

Local Open Scope Z_scope.

Record Response := mkResponse { ok : bool; body : string }.

(** [doFetch], given what [window.fetch(url)] settles with: a response that
    is not [ok] becomes the error [Could not fetch <url>]. *)
Definition doFetch (url : string) (fetched : result Response)
  : result Response :=
  match fetched with
  | Ok x => if ok x then Ok x else Throw (NetworkError ("Could not fetch " ++ url))
  | Throw e => Throw e
  end.

(** What the surroundings do during one turn of the loop: the time that
    passes between two readings of the clock, how late the timer fires, how
    long the request takes (up to the next test of the loop) and what
    [window.fetch] settles with. *)
Record turn := mkTurn {
  before_delay : Z;   (* between the test and the argument of delay *)
  timer_late : Z;     (* delay(ms) resumes after ms + timer_late *)
  before_try : Z;     (* up to the reading stored in lastTryTime *)
  fetch_takes : Z;    (* duration of doFetch *)
  fetched : result Response
}.

Definition turn_ok (t : turn) : Prop :=
  0 <= before_delay t /\ 0 <= timer_late t /\ 0 <= before_try t /\
  0 <= fetch_takes t.

(** What one turn did: the delay it asked for, if it waited, and the
    reading of the clock when its attempt started and ended. *)
Record attempt := mkAttempt {
  waited : option Z;
  started : Z;
  ended : Z
}.

(** Modelled from the spec: [delay] of [sandbox/utils/delay] is imported; it
    resumes the caller once at least [ms] milliseconds have passed (at once
    for [ms <= 0]). *)
Definition delay (ms late now : Z) : Z := now + Z.max ms 0 + late.

Definition default_retries : Z := 6.

(** The [for] loop from turn [i] on; [n] bounds the turns that are left.
    Returns the outcome, the attempts made and the final clock. *)
Fixpoint loop (url : string) (env : nat -> turn) (retries : Z) (n : nat) (i : nat)
  (lastTryTime now : Z) : result Response * list attempt * Z :=
  match n with
  | O => (Throw (OtherError "Could not fetch"), [], now)
  | S n' =>
      let t := env i in
      let '(w, now) :=
        if now - lastTryTime <? 3000 then
          let now2 := now + before_delay t in
          let ms := 3000 - (now2 - lastTryTime) in
          (Some ms, delay ms (timer_late t) now2)
        else (None, now) in
      let now := now + before_try t in
      let lastTryTime := now in
      let now := now + fetch_takes t in
      let a := mkAttempt w lastTryTime now in
      match doFetch url (fetched t) with
      | Ok x => (Ok x, [a], now)
      | Throw e =>
          if Z.of_nat i =? retries - 1 then (Throw e, [a], now)
          else let '(r, l, now') := loop url env retries n' (S i) lastTryTime now in
               (r, a :: l, now')
      end
  end.

(** [fetchWithRetries(url, retries)], started when the clock reads [now]. *)
Definition fetchWithRetries (url : string) (env : nat -> turn) (retries : Z)
  (now : Z) : result Response * list attempt * Z :=
  loop url env retries (Z.to_nat retries) O 0 now.

(** An attempt of this turn fails. *)
Definition fails (url : string) (t : turn) : Prop :=
  exists e, doFetch url (fetched t) = Throw e.

(** The attempts of [l] follow a turn whose attempt started at [last] and
    whose request was over at [now]: each starts at least 3000 ms behind
    the one before, and has waited exactly when less than that had passed. *)
Fixpoint spaced (last now : Z) (l : list attempt) : Prop :=
  match l with
  | [] => True
  | a :: l' =>
      3000 <= started a - last /\
      (waited a = None <-> 3000 <= now - last) /\
      now <= started a <= ended a /\
      spaced (started a) (ended a) l'
  end.

End Retry.

(** ** The shared caches and the asynchronous chains

    A promise is an entry of a table, named by its index (its [handle]).  A
    pending promise carries the chain that will settle it; the event loop
    settles it when the awaited response arrives.  What is asked of the
    network is logged in [requests]: a request is named by the protocol and
    the name, version and path its URL is built from. *)

Abbreviation handle := nat.

Inductive promise (T A : Type) :=
  | Pending (t : T)
  | Fulfilled (a : A)
  | Rejected (e : error).
Arguments Pending {T A} t.
Arguments Fulfilled {T A} a.
Arguments Rejected {T A} e.

(** The [Module] objects this file builds. *)
Record SandboxModule := mkModule {
  m_path : string;
  m_code : string;
  m_requires : option (list string);
  m_stubbed : option bool;
  m_downloaded : option bool
}.

(** The raw metadata document [x.json()]; only its [files] field is read.
    [NoFiles] is a document without that field. *)
Inductive MetaDocument :=
  | TreeMeta (files : list MetaFile)
  | FlatMeta (files : list FlatFile)
  | NoFiles.

(** A request is named by the protocol and the arguments its URL is built
    from: those of [protocol.file] and of [protocol.meta]. *)
Inductive request :=
  | FileRequest (p : protocol) (name version relativePath : string)
  | MetaRequest (p : protocol) (depName depVersion : string)
      (resolved : option string)
  | ShaRequest (depVersion : string).

Inductive file_stage := Primary | Fallback.

(** What the chain of a download keeps: the arguments of [protocol.file]
    (the name without the alias version, the version, the relative path),
    the path of the module it returns, and the request it waits for. *)
Record file_task := mkFileTask {
  ft_name : string;
  ft_version : string;
  ft_relativePath : string;
  ft_path : string;
  ft_stage : file_stage
}.

Inductive meta_stage :=
  | AwaitPackageJson (download : result handle)
  | AwaitSha
  | AwaitDocument.

Record meta_task := mkMetaTask {
  mt_id : string;
  mt_protocol : protocol;
  mt_name : string;
  mt_version : string;
  mt_stage : meta_stage
}.

Record Store := mkStore {
  metas : gmap string handle;
  packages : gmap string handle;
  normalizedMetas : gmap string Meta;
  combinedMetas : Meta;
  meta_promises : list (promise meta_task MetaDocument);
  package_promises : list (promise file_task SandboxModule);
  requests : list request
}.

Definition empty_store : Store := mkStore ∅ ∅ ∅ ∅ [] [] [].

Definition set_metas (f : gmap string handle -> gmap string handle)
  (st : Store) : Store :=
  mkStore (f (metas st)) (packages st) (normalizedMetas st) (combinedMetas st)
          (meta_promises st) (package_promises st) (requests st).

Definition set_packages (f : gmap string handle -> gmap string handle)
  (st : Store) : Store :=
  mkStore (metas st) (f (packages st)) (normalizedMetas st) (combinedMetas st)
          (meta_promises st) (package_promises st) (requests st).

Definition set_meta_promises
  (f : list (promise meta_task MetaDocument) ->
       list (promise meta_task MetaDocument)) (st : Store) : Store :=
  mkStore (metas st) (packages st) (normalizedMetas st) (combinedMetas st)
          (f (meta_promises st)) (package_promises st) (requests st).

Definition set_package_promises
  (f : list (promise file_task SandboxModule) ->
       list (promise file_task SandboxModule)) (st : Store) : Store :=
  mkStore (metas st) (packages st) (normalizedMetas st) (combinedMetas st)
          (meta_promises st) (f (package_promises st)) (requests st).

Definition log_request (r : request) (st : Store) : Store :=
  mkStore (metas st) (packages st) (normalizedMetas st) (combinedMetas st)
          (meta_promises st) (package_promises st) (requests st ++ [r])%list.

(** [s.replace('/', '\\/')]: a backslash is put in front of the first
    slash. *)
Fixpoint escape_first_slash (s : string) : string :=
  match s with
  | EmptyString => EmptyString
  | String c r =>
      if Ascii.eqb c "/" then String "\" (String "/" r)
      else String c (escape_first_slash r)
  end.

(** [s.replace(/#/g, '%23')] *)
Fixpoint encode_hashes (s : string) : string :=
  match s with
  | EmptyString => EmptyString
  | String c r =>
      if Ascii.eqb c "#" then "%23" ++ encode_hashes r
      else String c (encode_hashes r)
  end.

Section Caches.

Variable CSB_PKG_PROTOCOL : string -> bool.

(** [JSON.parse(code).version] with the destructuring of its result:
    [Throw] when the text does not parse (or parses to [null]), [Ok None]
    when the object has no [version]. *)
Variable json_version : string -> result (option string).

(** [pathUtils.join] *)
Variable join : list string -> string.

(** [path.replace(new RegExp(source), '')] for the pattern text [source]
    and a path: the first match of the pattern is cut out of the path.
    [new RegExp] throws a SyntaxError when the text is no pattern; that is
    [Throw]. *)
Variable RegExp_replace : string -> string -> result string.

(** The relative path of [downloadDependency]: the pattern is built from
    the name as it is, without escaping. *)
Definition relativePath (depName path : string) : result string :=
  let source :=
    escape_first_slash (".*" ++ join ["/node_modules"; depName]) in
  match RegExp_replace source path with
  | Ok cut => Ok (encode_hashes cut)
  | Throw e => Throw e
  end.

(** A template literal prints an undefined value as [undefined]. *)
Definition template (v : option string) : option string :=
  Some (default "undefined" v).

(** [packageJSONPath || depName]: [null] and the empty string are falsy. *)
Definition path_or_name (packageJSONPath : option string) (depName : string)
  : string :=
  match packageJSONPath with
  | Some (String c r) => String c r
  | _ => depName
  end.

Definition meta_id (packageJSONPath : option string)
  (depName depVersion : string) : string :=
  path_or_name packageJSONPath depName ++ "@" ++ depVersion.

Definition package_id (depName depVersion path : string) : string :=
  depName ++ depVersion ++ path.

(** [downloadDependency] up to its [return]: the handle of the promise the
    caller receives (the promise an [async] function returns follows it),
    or the error the call is rejected with at once. *)
Definition downloadDependency (name version path : string) (st : Store)
  : result handle * Store :=
  match resolveNPMAlias name version with
  | Throw e => (Throw e, st)
  | Ok (depName, depVersion) =>
      let id := package_id depName depVersion path in
      match packages st !! id with
      | Some h => (Ok h, st)
      | None =>
          match relativePath depName path with
          | Throw e => (Throw e, st)
          | Ok relativePath =>
              let nameWithoutAlias := Regex.strip_alias_version depName in
              let protocol :=
                getFetchProtocol CSB_PKG_PROTOCOL depVersion false in
              let h := length (package_promises st) in
              let st := log_request
                          (FileRequest protocol nameWithoutAlias depVersion
                                       relativePath) st in
              let st := set_package_promises
                          (fun l => (l ++ [Pending
                                             (mkFileTask nameWithoutAlias
                                                depVersion relativePath path
                                                Primary)])%list) st in
              (Ok h, set_packages <[id := h]> st)
          end
      end
  end.

(** [protocol.meta(name, version)] up to its first [await]. *)
Definition start_meta (p : protocol) (name version : string) (st : Store)
  : meta_stage * Store :=
  match p with
  | csbGH | unpkg =>
      (AwaitDocument, log_request (MetaRequest p name version None) st)
  | jsDelivrNPM =>
      if Regex.starts_with_digit version then
        (AwaitDocument,
         log_request (MetaRequest p name version (Some version)) st)
      else
        let '(r, st) := downloadDependency name version "/package.json" st in
        (AwaitPackageJson r, st)
  | jsDelivrGH =>
      (AwaitSha, log_request (ShaRequest version) st)
  end.

(** [getMeta] up to its [return]. *)
Definition getMeta (name : string) (packageJSONPath : option string)
  (version : string) (useFallback : bool) (st : Store)
  : result handle * Store :=
  match resolveNPMAlias name version with
  | Throw e => (Throw e, st)
  | Ok (depName, depVersion) =>
      let nameWithoutAlias := Regex.strip_alias_version depName in
      let id := meta_id packageJSONPath depName depVersion in
      match metas st !! id with
      | Some h => (Ok h, st)
      | None =>
          let protocol :=
            getFetchProtocol CSB_PKG_PROTOCOL depVersion useFallback in
          let '(stage, st) := start_meta protocol nameWithoutAlias depVersion st in
          let h := length (meta_promises st) in
          let st := set_meta_promises
                      (fun l => (l ++ [Pending (mkMetaTask id protocol
                                  nameWithoutAlias depVersion stage)])%list) st in
          (Ok h, set_metas <[id := h]> st)
      end
  end.

(** *** Settling the chains *)

(** The content chain of [downloadDependency] receives the outcome of the
    request it waits for: [fetchWithRetries(url).then(x => x.text())]. *)
Definition settle_file (h : handle) (r : result string) (st : Store) : Store :=
  match package_promises st !! h with
  | Some (Pending t) =>
      match r, ft_stage t with
      | Ok x, _ =>
          set_package_promises
            <[h := Fulfilled (mkModule (ft_path t) x None None (Some true))]> st
      | Throw _, Primary =>
          let fallbackProtocol :=
            getFetchProtocol CSB_PKG_PROTOCOL (ft_version t) true in
          let st := log_request
                      (FileRequest fallbackProtocol (ft_name t) (ft_version t)
                                   (ft_relativePath t)) st in
          set_package_promises
            <[h := Pending (mkFileTask (ft_name t) (ft_version t)
                                       (ft_relativePath t) (ft_path t)
                                       Fallback)]> st
      | Throw e, Fallback =>
          set_package_promises <[h := Rejected e]> st
      end
  | _ => st
  end.

(** The [catch] of [getMeta]: [delete metas[id]; throw e]. *)
Definition fail_meta (h : handle) (t : meta_task) (e : error) (st : Store)
  : Store :=
  set_meta_promises <[h := Rejected e]> (set_metas (delete (mt_id t)) st).

Definition advance_meta (h : handle) (t : meta_task) (stage : meta_stage)
  (st : Store) : Store :=
  set_meta_promises
    <[h := Pending (mkMetaTask (mt_id t) (mt_protocol t) (mt_name t)
                               (mt_version t) stage)]> st.

(** The metadata chain resumes behind the [await] of the manifest download
    of [jsDelivrNPM.meta], once that promise is settled. *)
Definition resume_meta (h : handle) (st : Store) : Store :=
  match meta_promises st !! h with
  | Some (Pending t) =>
      match mt_stage t with
      | AwaitPackageJson (Throw e) => fail_meta h t e st
      | AwaitPackageJson (Ok d) =>
          match package_promises st !! d with
          | Some (Fulfilled m) =>
              match json_version (m_code m) with
              | Ok latestVersion =>
                  advance_meta h t AwaitDocument
                    (log_request (MetaRequest (mt_protocol t) (mt_name t)
                                    (mt_version t) (template latestVersion)) st)
              | Throw e => fail_meta h t e st
              end
          | Some (Rejected e) => fail_meta h t e st
          | _ => st
          end
      | _ => st
      end
  | _ => st
  end.

(** The answer of the GitHub API: [x.json()] and its [sha] field. *)
Definition settle_sha (h : handle) (r : result (option string)) (st : Store)
  : Store :=
  match meta_promises st !! h with
  | Some (Pending t) =>
      match mt_stage t, r with
      | AwaitSha, Ok sha =>
          advance_meta h t AwaitDocument
            (log_request (MetaRequest (mt_protocol t) (mt_name t)
                                      (mt_version t) (template sha)) st)
      | AwaitSha, Throw e => fail_meta h t e st
      | _, _ => st
      end
  | _ => st
  end.

(** The outcome of [fetchWithRetries(url).then(x => x.json())]. *)
Definition settle_meta (h : handle) (r : result MetaDocument) (st : Store)
  : Store :=
  match meta_promises st !! h with
  | Some (Pending t) =>
      match mt_stage t, r with
      | AwaitDocument, Ok doc => set_meta_promises <[h := Fulfilled doc]> st
      | AwaitDocument, Throw e => fail_meta h t e st
      | _, _ => st
      end
  | _ => st
  end.

(** What can happen to the caches: a call of one of the two functions from
    anywhere, or the event loop resuming one of the chains. *)
Inductive event :=
  | CallGetMeta (name : string) (packageJSONPath : option string)
      (version : string) (useFallback : bool)
  | CallDownloadDependency (name version path : string)
  | FileSettled (h : handle) (r : result string)
  | ManifestAwaited (h : handle)
  | ShaSettled (h : handle) (r : result (option string))
  | MetaSettled (h : handle) (r : result MetaDocument).

Definition step (ev : event) (st : Store) : Store :=
  match ev with
  | CallGetMeta name packageJSONPath version useFallback =>
      snd (getMeta name packageJSONPath version useFallback st)
  | CallDownloadDependency name version path =>
      snd (downloadDependency name version path st)
  | FileSettled h r => settle_file h r st
  | ManifestAwaited h => resume_meta h st
  | ShaSettled h r => settle_sha h r st
  | MetaSettled h r => settle_meta h r st
  end.

Definition run (evs : list event) (st : Store) : Store :=
  fold_left (fun st ev => step ev st) evs st.

End Caches.


(** ** The module graph and the manifest *)

Record Dependency := mkDependency { dep_name : string; dep_version : string }.

Record LockRecord := mkLockRecord { semver : string; resolved : string }.

Record Manifest := mkManifest {
  dependencies : list Dependency;
  dependencyDependencies : gmap string LockRecord
}.

(** [manifest.dependencyDependencies] is an object, read with
    [object[name]]: a name that is no property of its own is looked up in
    [Object.prototype].  These are the properties of [Object.prototype];
    their values are functions, and [Object.prototype] itself for
    [__proto__], all of them truthy and without a [semver] or a
    [resolved]. *)
Definition Object_prototype : list string :=
  ["constructor"; "hasOwnProperty"; "isPrototypeOf"; "propertyIsEnumerable";
   "toLocaleString"; "toString"; "valueOf"; "__proto__";
   "__defineGetter__"; "__defineSetter__"; "__lookupGetter__";
   "__lookupSetter__"].

Inductive property (A : Type) :=
  | Own (a : A)
  | Inherited
  | Undefined.
Arguments Own {A} a.
Arguments Inherited {A}.
Arguments Undefined {A}.

(** [object[name]] *)
Definition get_property {A : Type} (object : gmap string A) (name : string)
  : property A :=
  match object !! name with
  | Some a => Own a
  | None =>
      if existsb (String.eqb name) Object_prototype then Inherited
      else Undefined
  end.

(** A node of the graph; the two sets of edges name nodes by their path. *)
Record TranspiledModule := mkTranspiledModule {
  tm_module : SandboxModule;
  tm_initiators : gset string;
  tm_dependencies : gset string
}.

Record Manager := mkManager {
  transpiledModules : gmap string TranspiledModule;
  manifest : Manifest;
  NODE_PATH : option string
}.

Definition set_transpiledModules
  (f : gmap string TranspiledModule -> gmap string TranspiledModule)
  (m : Manager) : Manager :=
  mkManager (f (transpiledModules m)) (manifest m) (NODE_PATH m).

(** Modelled from the spec: [Manager.resolveTranspiledModule] is not part
    of these sources.  A content read against a path already in the module
    graph returns that node; the call throws for a path that is no node. *)
Definition resolveTranspiledModule (m : Manager) (p : string)
  : option TranspiledModule :=
  transpiledModules m !! p.

(** Modelled from the spec: [Manager.addModule] and
    [Manager.addTranspiledModule] are not part of these sources.  They
    register the downloaded content as a new graph node, without edges; a
    node that exists stays. *)
Definition addTranspiledModule (module : SandboxModule) (m : Manager)
  : Manager :=
  match transpiledModules m !! m_path module with
  | Some _ => m
  | None =>
      set_transpiledModules
        <[m_path module := mkTranspiledModule module ∅ ∅]> m
  end.

(** [tModule.initiators.add(currentTModule)] and
    [currentTModule.dependencies.add(tModule)], for the nodes at [target]
    and at [current]. *)
Definition add_edge (current target : string) (m : Manager) : Manager :=
  set_transpiledModules
    (fun g =>
       alter (fun n => mkTranspiledModule (tm_module n) (tm_initiators n)
                         ({[target]} ∪ tm_dependencies n)) current
         (alter (fun n => mkTranspiledModule (tm_module n)
                            ({[current]} ∪ tm_initiators n)
                            (tm_dependencies n)) target g)) m.

(** ** The resolver as a strategy

    [browser-resolve] is a library: it receives the callbacks [isFile] and
    [readFile] and probes candidates with them.  A run of it is a finite
    tree of questions that ends in the resolved path or in an error. *)

Inductive resolution :=
  | Resolved (r : result string)
  | AskIsFile (p : string) (k : bool -> resolution)
  | AskReadFile (p : string) (k : result string -> resolution).

(** ** Computations over the caches and the graph

    [None] is a computation that does not come to an end: it ran out of
    fuel (the recursion between the path resolver and the version resolver
    is not bounded by the code), or it waits for a callback that is never
    called. *)

Record World := mkWorld { store : Store; manager : Manager }.

Definition M (A : Type) : Type := World -> option (A * World).

Definition ret {A} (a : A) : M A := fun w => Some (a, w).

Definition bind {A B} (c : M A) (f : A -> M B) : M B :=
  fun w => match c w with
           | Some (a, w') => f a w'
           | None => None
           end.

Notation "'let*' x ':=' c 'in' k" := (bind c (fun x => k))
  (at level 10, x name, c at level 100, k at level 200).

Definition with_store {A} (f : Store -> A * Store) : M A :=
  fun w => let '(a, st) := f (store w) in Some (a, mkWorld st (manager w)).

Definition modify_manager (f : Manager -> Manager) : M unit :=
  fun w => Some (tt, mkWorld (store w) (f (manager w))).

Definition get_manager : M Manager := fun w => Some (manager w, w).

Definition out_of_fuel {A} : M A := fun _ => None.

(** A promise that is never settled. *)
Definition never_settles {A} : M A := fun _ => None.

(** ** Path resolution, version resolution and the orchestrator *)

Record DependencyVersionResult := mkVersionResult {
  version : option string;
  packageJSONPath : option string
}.

(** What the network answers to the request a chain waits for: the chain is
    named by its handle, a content chain also by its stage. *)
Record Network := mkNetwork {
  file_response : handle -> file_stage -> result string;
  sha_response : handle -> result (option string);
  meta_response : handle -> result MetaDocument
}.

Section Resolution.

Variable CSB_PKG_PROTOCOL : string -> bool.
Variable json_version : string -> result (option string).

(** [pathUtils.join] and [pathUtils.dirname]. *)
Variable join : list string -> string.
Variable dirname : string -> string.

(** [path.replace(new RegExp(source), '')], as for the caches. *)
Variable RegExp_replace : string -> string -> result string.

(** [getDependencyName] of [../utils/get-dependency-name]. *)
Variable getDependencyName : string -> string.

(** [resolve(id, opts, cb)] of [browser-resolve], for the options
    [filename], [extensions] and [moduleDirectory]; the option
    [packageFilter] is built from [isFile] and belongs to the strategy. *)
Variable resolve :
  string -> string -> list string -> list string -> resolution.

Variable network : Network.

Definition settle_file_from_network (h : handle) (st : Store) : Store :=
  match package_promises st !! h with
  | Some (Pending t) =>
      settle_file CSB_PKG_PROTOCOL h (file_response network h (ft_stage t)) st
  | _ => st
  end.

(** [await] on a promise of [packages]: the chain is run to its end, then
    the promise is read. *)
Definition await_package (h : handle) (st : Store)
  : result SandboxModule * Store :=
  let st := settle_file_from_network h (settle_file_from_network h st) in
  match package_promises st !! h with
  | Some (Fulfilled m) => (Ok m, st)
  | Some (Rejected e) => (Throw e, st)
  | _ => (Throw (OtherError "promise is not settled"), st)
  end.

Definition await_manifest_of (h : handle) (st : Store) : Store :=
  match meta_promises st !! h with
  | Some (Pending t) =>
      match mt_stage t with
      | AwaitPackageJson (Ok d) =>
          resume_meta json_version h (snd (await_package d st))
      | AwaitPackageJson (Throw _) => resume_meta json_version h st
      | AwaitSha => settle_sha h (sha_response network h) st
      | AwaitDocument => st
      end
  | _ => st
  end.

(** [await] on a promise of [metas]. *)
Definition await_meta (h : handle) (st : Store)
  : result MetaDocument * Store :=
  let st := await_manifest_of h st in
  let st := settle_meta h (meta_response network h) st in
  match meta_promises st !! h with
  | Some (Fulfilled doc) => (Ok doc, st)
  | Some (Rejected e) => (Throw e, st)
  | _ => (Throw (OtherError "promise is not settled"), st)
  end.

(** [isFile] of [resolvePath]. *)
Definition isFile (meta : Meta) (p : string) (w : World) : bool :=
  bool_decide (is_Some (transpiledModules (manager w) !! p))
  || default false (meta !! p).

(** A call with a version that may be [undefined]: [version.match] of
    [resolveNPMAlias] throws on it. *)
Definition with_version {A} (v : option string)
  (f : string -> Store -> result A * Store) (st : Store)
  : result A * Store :=
  match v with
  | Some s => f s st
  | None => (Throw (TypeError "Cannot read property 'match' of undefined"), st)
  end.

(** [await downloadDependency(name, version, path)] *)
Definition download (name : string) (v : option string) (path : string)
  : M (result SandboxModule) :=
  with_store (fun st =>
    match with_version v
            (fun s => downloadDependency CSB_PKG_PROTOCOL join RegExp_replace
              name s path) st with
    | (Ok h, st) => await_package h st
    | (Throw e, st) => (Throw e, st)
    end).

(** [readFile] of [resolvePath]; [getVersion] is [getDependencyVersion]
    for the requesting module and the extensions of this resolution.  When
    [getDependencyVersion] throws, the promise of [readFile] is rejected
    and the callback of the resolver is never called. *)
Definition readFile
  (getVersion : string -> M (result (option DependencyVersionResult)))
  (currentPath : string) (meta : Meta) (p : string) : M (result string) :=
  let* m := get_manager in
  match resolveTranspiledModule m p with
  | Some tModule =>
      let* _ := modify_manager (add_edge currentPath p) in
      ret (Ok (m_code (tm_module tModule)))
  | None =>
      let e := ModuleNotFound p in
      let depPath := Regex.strip_node_modules p in
      let depName := getDependencyName depPath in
      if negb (bool_decide (is_Some (transpiledModules m !! p)))
         && negb (default false (meta !! p))
      then ret (Throw (ENOENT ("Could not find " ++ p)))
      else
        let* subDepVersionVersionInfo := getVersion depName in
        match subDepVersionVersionInfo with
        | Throw _ => never_settles
        | Ok (Some info) =>
            let* r := download depName (version info) p in
            match r with
            | Ok module =>
                let* _ := modify_manager (addTranspiledModule module) in
                let* _ := modify_manager (add_edge currentPath (m_path module)) in
                ret (Ok (m_code module))
            | Throw _ => ret (Throw e)
            end
        | Ok None => ret (Throw e)
        end
  end.

(** The callbacks answer the questions of the strategy. *)
Fixpoint answer (isFile : string -> World -> bool)
  (readFile : string -> M (result string)) (r : resolution)
  : M (result string) :=
  match r with
  | Resolved x => ret x
  | AskIsFile p k => fun w => answer isFile readFile (k (isFile p w)) w
  | AskReadFile p k =>
      let* x := readFile p in answer isFile readFile (k x)
  end.

(** [['node_modules', NODE_PATH].filter(Boolean)] *)
Definition moduleDirectory (m : Manager) : list string :=
  "node_modules" ::
  match NODE_PATH m with
  | Some (String c r) => [String c r]
  | _ => []
  end.

(** The end of [getDependencyVersion]: the lock record, then the root
    manifest; an empty version is no version.  For a name that the object
    of the lock records inherits, [.semver] is undefined and
    [.semver.startsWith] throws. *)
Definition version_from_manifest (manifest : Manifest)
  (dependencyName : string) : result (option DependencyVersionResult) :=
  let version :=
    match get_property (dependencyDependencies manifest) dependencyName with
    | Own lock =>
        if Regex.starts_with "https://" (semver lock)
        then Ok (Some (semver lock))
        else Ok (Some (resolved lock))
    | Inherited =>
        Throw (TypeError "Cannot read property 'startsWith' of undefined")
    | Undefined =>
        match find (fun dep => String.eqb (dep_name dep) dependencyName)
                   (dependencies manifest) with
        | Some dep => Ok (Some (dep_version dep))
        | None => Ok None
        end
    end in
  match version with
  | Throw e => Throw e
  | Ok (Some (String c r)) =>
      Ok (Some (mkVersionResult (Some (String c r)) None))
  | Ok _ => Ok None
  end.

(** The [try] block of [getDependencyVersion] behind its [await], for the
    manifest path [foundPackageJSONPath] the resolver has found; [m] is the
    manager as the resolution has left it.  [None] when the block throws
    ([JSON.parse] of a text that is no JSON, or of [undefined] when the
    path is no node; [.semver.startsWith] on an inherited property, whose
    [resolved] is undefined as the version is) or ends without a
    [return]. *)
Definition version_from_found (m : Manager) (manifest : Manifest)
  (dependencyName : string) (foundPackageJSONPath : string)
  : option DependencyVersionResult :=
  let rootDependency :=
    if String.eqb foundPackageJSONPath
         (join ["/node_modules"; dependencyName; "package.json"])
    then find (fun dep => String.eqb (dep_name dep) dependencyName)
              (dependencies manifest)
    else None in
  match rootDependency with
  | Some dep =>
      Some (mkVersionResult (Some (dep_version dep)) (Some foundPackageJSONPath))
  | None =>
      match transpiledModules m !! foundPackageJSONPath with
      | None => None
      | Some node =>
          let packageJSON := m_code (tm_module node) in
          match json_version packageJSON with
          | Throw _ => None
          | Ok version =>
              let savedDepDep :=
                get_property (dependencyDependencies manifest)
                             dependencyName in
              let locked :=
                match savedDepDep with
                | Own lock =>
                    if bool_decide (Some (resolved lock) = version)
                       && Regex.starts_with "https://" (semver lock)
                    then Ok (Some (semver lock)) else Ok None
                | Inherited =>
                    match version with
                    | None =>
                        Throw (TypeError
                          "Cannot read property 'startsWith' of undefined")
                    | Some _ => Ok None
                    end
                | Undefined => Ok None
                end in
              match locked with
              | Throw _ => None
              | Ok (Some url) =>
                  Some (mkVersionResult (Some url) (Some foundPackageJSONPath))
              | Ok None =>
                  if negb (String.eqb packageJSON "//empty.js")
                  then Some (mkVersionResult version (Some foundPackageJSONPath))
                  else None
              end
          end
      end
  end.

(** [getDependencyVersion], given [resolvePath]. *)
Definition getDependencyVersion_with
  (resolvePath : string -> string -> list string -> Meta -> M (result string))
  (currentPath : string) (defaultExtensions : list string)
  (dependencyName : string) : M (result (option DependencyVersionResult)) :=
  let* m0 := get_manager in
  let manifest := manifest m0 in
  let* r := resolvePath (join [dependencyName; "package.json"]) currentPath
                        defaultExtensions ∅ in
  let* m := get_manager in
  match r with
  | Ok foundPackageJSONPath =>
      match version_from_found m manifest dependencyName
                               foundPackageJSONPath with
      | Some info => ret (Ok (Some info))
      | None => ret (version_from_manifest manifest dependencyName)
      end
  | Throw _ => ret (version_from_manifest manifest dependencyName)
  end.

(** [resolvePath]: the promise settles with what the strategy ends in. *)
Fixpoint resolvePath (fuel : nat) (path currentPath : string)
  (defaultExtensions : list string) (meta : Meta) : M (result string) :=
  match fuel with
  | O => out_of_fuel
  | S n =>
      let* m := get_manager in
      answer (isFile meta)
        (readFile (getDependencyVersion_with (resolvePath n) currentPath
                     defaultExtensions) currentPath meta)
        (resolve path currentPath
           (map (fun ext => "." ++ ext) defaultExtensions) (moduleDirectory m))
  end.

Definition getDependencyVersion (fuel : nat) :=
  getDependencyVersion_with (resolvePath fuel).

Definition defaultExtensions : list string := ["js"; "jsx"; "json"; "mjs"].

(** What [normalizeJSDelivr] makes of a nested listing: its entries have no
    [name], and [pathUtils.join] decides what becomes of an undefined
    argument. *)
Variable normalizeJSDelivr_of_tree :
  list MetaFile -> string -> result Meta.

(** [normalizeFunction(meta.files, {}, rootPath)]; reading [length] of a
    missing [files] throws.  The entries of a flat listing have neither
    [type] nor [files], so [normalize] adds nothing for them. *)
Definition apply_normalizer (n : normalizer) (doc : MetaDocument)
  (rootPath : string) : result Meta :=
  match n, doc with
  | _, NoFiles => Throw (TypeError "Cannot read property 'length' of undefined")
  | UseNormalize, TreeMeta files => Ok (normalize files ∅ rootPath)
  | UseNormalize, FlatMeta _ => Ok ∅
  | UseNormalizeJSDelivr, FlatMeta files =>
      Ok (normalizeJSDelivr join files ∅ rootPath)
  | UseNormalizeJSDelivr, TreeMeta [] => Ok ∅
  | UseNormalizeJSDelivr, TreeMeta files => normalizeJSDelivr_of_tree files rootPath
  end.

(** [await getMeta(dependencyName, packageJSONPath, version, useFallback)] *)
Definition fetch_meta (dependencyName : string)
  (packageJSONPath version : option string) (useFallback : bool)
  : M (result MetaDocument) :=
  with_store (fun st =>
    match with_version version
            (fun s => getMeta CSB_PKG_PROTOCOL join RegExp_replace
              dependencyName packageJSONPath
                              s useFallback) st with
    | (Ok h, st) => await_meta h st
    | (Throw e, st) => (Throw e, st)
    end).

(** The [try] and [catch] of [fetchModule]: the metadata and the
    normaliser that goes with the protocol it came from. *)
Definition fetch_meta_with_fallback (dependencyName : string)
  (packageJSONPath version : option string)
  : M (result (MetaDocument * normalizer)) :=
  let v := default "undefined" version in
  let* primary :=
    if String.eqb dependencyName "d3-interpolate"
    then ret (Throw (OtherError "Doesn't work on jsdelivr yet"))
    else fetch_meta dependencyName packageJSONPath version false in
  match primary with
  | Ok meta =>
      ret (Ok (meta, normalizeMeta (getFetchProtocol CSB_PKG_PROTOCOL v false)))
  | Throw _ =>
      let* fallback := fetch_meta dependencyName packageJSONPath version true in
      match fallback with
      | Ok meta =>
          ret (Ok (meta, normalizeMeta (getFetchProtocol CSB_PKG_PROTOCOL v true)))
      | Throw e => ret (Throw e)
      end
  end.

(** The normalised listing of the package root, from [normalizedMetas] when
    it is there; it is stored and merged into [combinedMetas]. *)
Definition normalized_meta (dependencyName rootPath : string)
  (meta : MetaDocument) (normalizeFunction : normalizer) (st : Store)
  : result Meta * Store :=
  let normalizedCacheKey := dependencyName ++ rootPath in
  let computed :=
    match normalizedMetas st !! normalizedCacheKey with
    | Some cached => Ok cached
    | None => apply_normalizer normalizeFunction meta rootPath
    end in
  match computed with
  | Ok normalizedMeta =>
      (Ok normalizedMeta,
       mkStore (metas st) (packages st)
               (<[normalizedCacheKey := normalizedMeta]> (normalizedMetas st))
               (normalizedMeta ∪ combinedMetas st)
               (meta_promises st) (package_promises st) (requests st))
  | Throw e => (Throw e, st)
  end.

(** The module [fetchModule] makes up for the sentinel path. *)
Definition stub_module (path currentPath : string) : SandboxModule :=
  let isDependency := Regex.bare_specifier path in
  mkModule (if isDependency then join ["/node_modules"; path]
            else join [currentPath; path])
           "module.exports = {};" (Some []) (Some true) None.

(** [fetchModule] from the path the resolver has found on. *)
Definition fetchModule_found (path currentPath dependencyName : string)
  (version : option string) (foundPath : string) : M (result SandboxModule) :=
  if String.eqb foundPath "//empty.js"
  then ret (Ok (stub_module path currentPath))
  else download dependencyName version foundPath.

(** [fetchModule] up to the path the resolver finds: the dependency name,
    its version and that path. *)
Definition fetchModule_resolve (fuel : nat) (path currentPath : string)
  (defaultExtensions : list string)
  : M (result (string * option string * string)) :=
  let dependencyName :=
    getDependencyName (Regex.strip_node_modules path) in
  let* versionInfo :=
    getDependencyVersion fuel currentPath defaultExtensions dependencyName in
  match versionInfo with
  | Throw e => ret (Throw e)
  | Ok None => ret (Throw (DependencyNotFoundError path))
  | Ok (Some info) =>
      let packageJSONPath := packageJSONPath info in
      let version := version info in
      let* fetched :=
        fetch_meta_with_fallback dependencyName packageJSONPath version in
      match fetched with
      | Throw e => ret (Throw e)
      | Ok (meta, normalizeFunction) =>
          let rootPath :=
            match packageJSONPath with
            | Some (String c r) => dirname (String c r)
            | _ => join ["/node_modules"; dependencyName]
            end in
          let* normalized :=
            with_store (normalized_meta dependencyName rootPath meta
                                        normalizeFunction) in
          match normalized with
          | Throw e => ret (Throw e)
          | Ok normalizedMeta =>
              let* found := resolvePath fuel path currentPath
                                        defaultExtensions normalizedMeta in
              match found with
              | Throw e => ret (Throw e)
              | Ok foundPath => ret (Ok (dependencyName, version, foundPath))
              end
          end
      end
  end.

Definition fetchModule (fuel : nat) (path currentPath : string)
  (defaultExtensions : list string) : M (result SandboxModule) :=
  let* resolution := fetchModule_resolve fuel path currentPath
                                         defaultExtensions in
  match resolution with
  | Throw e => ret (Throw e)
  | Ok (dependencyName, version, foundPath) =>
      fetchModule_found path currentPath dependencyName version foundPath
  end.

End Resolution.


(** ** A resolver strategy

    Modelled from the spec: [browser-resolve] is a library the fetcher
    imports, not part of these sources.  The strategy below is the
    hierarchical module resolution the path resolver is specified with:
    extension probing over the ordered list of extensions, the entry-point
    field of a package manifest, the directory-index fallback, and the
    ascent through the directory hierarchy for every module-lookup directory
    name.  A candidate the callbacks refuse is passed over and the next one
    is probed; the resolution fails when no candidate is left. *)

Module NodeResolve.

Section Strategy.

(** The entry point a manifest text names (the field [packageFilter] has
    chosen), if it names one. *)
Variable entry_point : string -> option string.

(** Whether the browser-targeting metadata of a manifest text maps a
    request to the no-op module. *)
Variable browser_ignores : string -> string -> bool.

Fixpoint probe (candidates : list string) (otherwise : resolution)
  : resolution :=
  match candidates with
  | [] => otherwise
  | c :: rest =>
      AskIsFile c (fun found =>
        if found then Resolved (Ok c) else probe rest otherwise)
  end.

(** The path itself, then the path with each extension. *)
Definition as_file (x : string) (extensions : list string)
  (otherwise : resolution) : resolution :=
  probe (x :: map (fun ext => x ++ ext) extensions) otherwise.

(** The entry point of the manifest of directory [x], then its index. *)
Definition as_directory (x : string) (extensions : list string)
  (otherwise : resolution) : resolution :=
  AskReadFile (x ++ "/package.json") (fun manifest =>
    let index := as_file (x ++ "/index") extensions otherwise in
    match manifest with
    | Ok text =>
        match entry_point text with
        | Some main =>
            let m := Posix.join [x; main] in
            as_file m extensions (as_file (m ++ "/index") extensions index)
        | None => index
        end
    | Throw _ => index
    end).

(** The directories from [segments] up to the root, the deepest first;
    [rev_segments] is the list of path segments, the last one first. *)
Fixpoint ancestors (rev_segments : list string) : list string :=
  match rev_segments with
  | [] => ["/"]
  | _ :: up => ("/" ++ Posix.unsplit (rev rev_segments)) :: ancestors up
  end.

(** Directory [start] and the directories above it. *)
Definition directories_above (start : string) : list string :=
  ancestors (rev (filter (fun x => Posix.nonempty x = true)
                         (Posix.split start))).

(** The lookup directories for a module required from directory [start]. *)
Definition lookup_directories (start : string) (moduleDirectory : list string)
  : list string :=
  flat_map (fun dir => map (fun md => Posix.join [dir; md]) moduleDirectory)
           (directories_above start).

Fixpoint in_directories (x : string) (dirs : list string)
  (extensions : list string) (otherwise : resolution) : resolution :=
  match dirs with
  | [] => otherwise
  | dir :: rest =>
      let candidate := Posix.join [dir; x] in
      as_file candidate extensions
        (as_directory candidate extensions
           (in_directories x rest extensions otherwise))
  end.

(** The manifest of the requesting package: the nearest readable manifest
    above the requesting file. *)
Fixpoint nearest_manifest (dirs : list string)
  (k : option string -> resolution) : resolution :=
  match dirs with
  | [] => k None
  | dir :: up =>
      AskReadFile (Posix.join [dir; "package.json"]) (fun manifest =>
        match manifest with
        | Ok text => k (Some text)
        | Throw _ => nearest_manifest up k
        end)
  end.

(** A request that names a path, not a package. *)
Definition is_path (id : string) : bool :=
  Regex.starts_with "/" id || Regex.starts_with "./" id
  || Regex.starts_with "../" id || String.eqb id "." || String.eqb id "..".

Definition resolve_plain (id basedir : string) (extensions : list string)
  (moduleDirectory : list string) : resolution :=
  let failure := Resolved (Throw (ModuleNotFound id)) in
  if is_path id then
    let x := if Regex.starts_with "/" id then Posix.normalize id
             else Posix.join [basedir; id] in
    as_file x extensions (as_directory x extensions failure)
  else
    in_directories id (lookup_directories basedir moduleDirectory)
                   extensions failure.

(** A request the requesting package maps to the no-op module resolves to
    the sentinel path; every other request is resolved as above. *)
Definition resolve (id filename : string) (extensions : list string)
  (moduleDirectory : list string) : resolution :=
  let basedir := Posix.dirname filename in
  nearest_manifest (directories_above basedir) (fun manifest =>
    match manifest with
    | Some text =>
        if browser_ignores text id then Resolved (Ok "//empty.js")
        else resolve_plain id basedir extensions moduleDirectory
    | None => resolve_plain id basedir extensions moduleDirectory
    end).

End Strategy.

End NodeResolve.

(** ** Sample surroundings

    Instances of the parameters, for the scenarios the properties are
    evaluated on. *)

(** Modelled from the spec: the draft protocol's distinguishing pattern
    [CSB_PKG_PROTOCOL] is imported, not part of these sources.  The draft
    backend is addressed by the URL of a pre-built archive; the pattern is
    [/https:\/\/pkg(-staging)?\.csb.dev/]. *)
Definition draft_pattern_tail (s : string) : bool :=
  Regex.starts_with ".csb" s &&
  match Regex.drop 4 s with
  | String c r => negb (Regex.is_line_terminator c) && Regex.starts_with "dev" r
  | EmptyString => false
  end.

Definition draft_pattern_here (s : string) : bool :=
  Regex.starts_with "https://pkg" s &&
  let r := Regex.drop 11 s in
  ((Regex.starts_with "-staging" r && draft_pattern_tail (Regex.drop 8 r))
   || draft_pattern_tail r).

Fixpoint draft_pattern (s : string) : bool :=
  draft_pattern_here s ||
  match s with
  | EmptyString => false
  | String _ r => draft_pattern r
  end.

(** A [JSON.parse] that knows one manifest text only. *)
Definition quote : string := String (ascii_of_nat 34) EmptyString.

Definition manifest_16 : string :=
  "{" ++ quote ++ "version" ++ quote ++ ":" ++ quote ++ "16.8.0" ++ quote ++ "}".

Definition sample_json_version (text : string) : result (option string) :=
  if String.eqb text manifest_16 then Ok (Some "16.8.0") else Throw SyntaxError.

(** The characters of the names of the scenarios that stand for themselves
    in a pattern. *)
Definition literal_in_pattern (c : ascii) : bool :=
  Regex.is_word c || Ascii.eqb c "/" || Ascii.eqb c "@" || Ascii.eqb c "-".

(** The text behind the last place in the first line of [s] where the
    text [literal] starts; [literal] starts with a slash. *)
Fixpoint after_last (literal s : string) : option string :=
  match s with
  | EmptyString => None
  | String c r =>
      if Regex.is_line_terminator c then None
      else match after_last literal r with
           | Some t => Some t
           | None => if Regex.starts_with literal s
                     then Some (Regex.drop (String.length literal) s)
                     else None
           end
  end.

(** [s.replace(/.*<literal>/, '')]: the leftmost match is cut out. *)
Fixpoint cut_to_last (literal s : string) : string :=
  match after_last literal s with
  | Some t => t
  | None => match s with
            | EmptyString => EmptyString
            | String c r => String c (cut_to_last literal r)
            end
  end.

(** [path.replace(new RegExp(source), '')] on the patterns of the
    scenarios.  These have the form [.*\/<text>], an escaped slash behind
    [.*]: when the text is made of characters that stand for themselves,
    the path is cut up to and with the last [/<text>] of its first line,
    and left as it is when there is none.  A text with any other
    character is taken for no pattern; the one such text of the scenarios
    ends in [++], a quantifier with nothing to repeat. *)
Definition sample_RegExp_replace (source path : string) : result string :=
  if Regex.starts_with ".*\/" source then
    let text := Regex.drop 4 source in
    if forallb literal_in_pattern (list_ascii_of_string text)
    then Ok (cut_to_last ("/" ++ text) path)
    else Throw SyntaxError
  else Throw SyntaxError.

(** Modelled from the spec: [getDependencyName] is imported, not part of
    these sources.  The dependency name is the first segment of the path,
    the first two for a scoped package. *)
Definition sample_getDependencyName (path : string) : string :=
  match Posix.split path with
  | scope :: pkg :: _ =>
      if Regex.starts_with "@" scope then scope ++ "/" ++ pkg else scope
  | [pkg] => pkg
  | [] => ""
  end.

(** A network on which every request fails. *)
Definition offline : Network :=
  mkNetwork (fun _ _ => Throw (NetworkError "Could not fetch"))
            (fun _ => Throw (NetworkError "Could not fetch"))
            (fun _ => Throw (NetworkError "Could not fetch")).

Definition no_entry_point (text : string) : option string := None.

(** A manifest that maps the module [fs] to the no-op module. *)
Definition manifest_without_fs : string :=
  "{" ++ quote ++ "browser" ++ quote ++ ":{" ++ quote ++ "fs" ++ quote
  ++ ":false}}".

Definition sample_browser_ignores (text id : string) : bool :=
  String.eqb text manifest_without_fs && String.eqb id "fs".

(** A network that answers every metadata request with a flat listing of
    one file, and fails every other request. *)
Definition listing_only : Network :=
  mkNetwork (fun _ _ => Throw (NetworkError "Could not fetch"))
            (fun _ => Throw (NetworkError "Could not fetch"))
            (fun _ => Ok (FlatMeta [mkFlatFile "/index.js"])).

Definition no_foreign_listing (files : list MetaFile) (rootPath : string)
  : result Meta :=
  Throw (TypeError "Arguments to path.join must be strings").

(** The graph of the scenarios: the requesting module [/src/index.js], and
    the nodes a scenario adds. *)
Definition plain_module (path code : string) : TranspiledModule :=
  mkTranspiledModule (mkModule path code None None None) ∅ ∅.

Definition scenario_world (extra : list (string * string))
  (declared : list Dependency) (st : Store) : World :=
  mkWorld st
    (mkManager
       (list_to_map
          (map (fun pc => (fst pc, plain_module (fst pc) (snd pc)))
               (("/src/index.js", "") :: extra)))
       (mkManifest declared ∅) None).

(** C1 as the specification states it: the entry of every failed metadata
    or content fetch is removed from its cache. *)
Definition failed_fetch_entry_removed (CSB_PKG_PROTOCOL : string -> bool)
  (json_version : string -> result (option string))
  (join : list string -> string)
  (RegExp_replace : string -> string -> result string) : Prop :=
  forall (evs : list event) (ev : event),
    let st := run CSB_PKG_PROTOCOL json_version join RegExp_replace
                  evs empty_store in
    let st' := step CSB_PKG_PROTOCOL json_version join RegExp_replace
                    ev st in
    (forall (h : handle) (t : meta_task) (e : error),
       meta_promises st !! h = Some (Pending t) ->
       meta_promises st' !! h = Some (Rejected e) ->
       metas st' !! mt_id t = None) /\
    (forall (h : handle) (t : file_task) (e : error) (id : string),
       package_promises st !! h = Some (Pending t) ->
       package_promises st' !! h = Some (Rejected e) ->
       packages st !! id = Some h ->
       packages st' !! id = None).

(** The request [protocol.meta] sends before its first [await]: the
    metadata request, or the request for the latest commit of a GitHub
    version.  For a tag of the registry there is none: the chain first
    awaits [downloadDependency] of the manifest. *)
Definition first_request (p : protocol) (name version : string)
  : option request :=
  match p with
  | csbGH | unpkg => Some (MetaRequest p name version None)
  | jsDelivrNPM =>
      if Regex.starts_with_digit version
      then Some (MetaRequest p name version (Some version))
      else None
  | jsDelivrGH => Some (ShaRequest version)
  end.



(** An endpoint that answers every attempt after 100 ms with a response
    that is not [ok]. *)
Definition failing_endpoint (i : nat) : Retry.turn :=
  Retry.mkTurn 0 0 0 100 (Ok (Retry.mkResponse false "")).

(** What [JSON.parse] reads as the version of the manifest file of [react]
    in a scenario. *)
Definition json_version_of_node (w : World) : result (option string) :=
  match transpiledModules (manager w) !! "/node_modules/react/package.json" with
  | Some node => sample_json_version (m_code (tm_module node))
  | None => Throw SyntaxError
  end.

(** ** URLs of the backends *)

Module Url.

Fixpoint no_line_terminator (s : string) : bool :=
  match s with
  | EmptyString => true
  | String c r => negb (Regex.is_line_terminator c) && no_line_terminator r
  end.

(** [version.match(...)] for the pattern [https://github.com/] followed by
    a group of any characters up to the end: the group of the leftmost
    match, the text behind the first [https://github.com/] from which no
    line terminator follows up to the end. *)
Fixpoint match_github (s : string) : option string :=
  if Regex.starts_with "https://github.com/" s
     && no_line_terminator (Regex.drop 19 s)
  then Some (Regex.drop 19 s)
  else match s with
       | EmptyString => None
       | String _ r => match_github r
       end.

(** [repo.replace(/\.git$/, '')] *)
Fixpoint strip_git (s : string) : string :=
  if String.eqb s ".git" then EmptyString
  else match s with
       | EmptyString => EmptyString
       | String c r => String c (strip_git r)
       end.

(** [convertGitHubURLToVersion]; an empty group is falsy. *)
Definition convertGitHubURLToVersion (version : string) : string :=
  match match_github version with
  | Some (String c r) => let repo := String c r in strip_git repo
  | _ => version
  end.

(** A text that [/\/<lead>pkg.tgz$/] matches from its first character to
    its end; the dot of the pattern stands for any character of a line. *)
Definition is_pkg_tgz (lead : ascii) (s : string) : bool :=
  match s with
  | String a (String b (String c (String d (String e (String f
      (String g (String h (String i EmptyString)))))))) =>
      Ascii.eqb a "/" && Ascii.eqb b lead && Ascii.eqb c "p"
      && Ascii.eqb d "k" && Ascii.eqb e "g"
      && negb (Regex.is_line_terminator f)
      && Ascii.eqb g "t" && Ascii.eqb h "g" && Ascii.eqb i "z"
  | _ => false
  end.

(** [version.replace(/\/<lead>pkg.tgz$/, '')] *)
Fixpoint strip_pkg_tgz (lead : ascii) (s : string) : string :=
  if is_pkg_tgz lead s then EmptyString
  else match s with
       | EmptyString => EmptyString
       | String c r => String c (strip_pkg_tgz lead r)
       end.

(** The [file] function of each protocol. *)
Definition file (p : protocol) (name version path : string) : string :=
  match p with
  | csbGH => strip_pkg_tgz "_" version ++ path
  | unpkg => "https://unpkg.com/" ++ name ++ "@" ++ version ++ path
  | jsDelivrNPM =>
      "https://cdn.jsdelivr.net/npm/" ++ name ++ "@" ++ version ++ path
  | jsDelivrGH =>
      "https://cdn.jsdelivr.net/gh/" ++ convertGitHubURLToVersion version
      ++ path
  end.

(** The request [jsDelivrGH.meta] starts with, for the latest commit. *)
Definition commits (version : string) : string :=
  "https://api.github.com/repos/" ++ convertGitHubURLToVersion version
  ++ "/commits/master".

(** The URL the [meta] function of each protocol ends in; [resolved] is
    what [jsDelivrNPM.meta] has found as the latest version, or the commit
    hash [jsDelivrGH.meta] has received, as the template prints it. *)
Definition meta (p : protocol) (name version : string) (resolved : string)
  : string :=
  match p with
  | csbGH => strip_pkg_tgz "." version ++ "/_csb-meta.json"
  | unpkg => "https://unpkg.com/" ++ name ++ "@" ++ version ++ "/?meta"
  | jsDelivrNPM =>
      "https://data.jsdelivr.com/v1/package/npm/" ++ name ++ "@" ++ resolved
      ++ "/flat"
  | jsDelivrGH =>
      "https://data.jsdelivr.com/v1/package/gh/"
      ++ convertGitHubURLToVersion version ++ "@" ++ resolved ++ "/flat"
  end.

(** The URL of a logged request. *)
Definition of_request (r : request) : option string :=
  match r with
  | MetaRequest p name version resolved =>
      Some (meta p name version (default "" resolved))
  | ShaRequest version => Some (commits version)
  | FileRequest p name version relativePath =>
      Some (file p name version relativePath)
  end.

End Url.

(** ** Shapes of texts used in the statements *)

(** A text of digits. *)
Fixpoint all_digits (s : string) : bool :=
  match s with
  | EmptyString => true
  | String c r => Regex.is_digit c && all_digits r
  end.

(** A text that [.*?] can pass to its end without meeting a [/]. *)
Fixpoint plain_tail (s : string) : bool :=
  match s with
  | EmptyString => true
  | String c r =>
      negb (Ascii.eqb c "/") && negb (Regex.is_line_terminator c)
      && plain_tail r
  end.


(** ** What the metadata cache holds *)

(** Every entry of [metas] names the running chain of its key or a promise
    that is fulfilled. *)
Definition metas_live (st : Store) : Prop :=
  forall (id : string) (h : handle),
    metas st !! id = Some h ->
    (exists t, meta_promises st !! h = Some (Pending t) /\ mt_id t = id) \/
    (exists doc, meta_promises st !! h = Some (Fulfilled doc)).




(** ** Further scenarios *)

(** A network on which the first metadata request fails and every later
    one is answered with a nested listing of one file; every other request
    fails. *)
Definition first_listing_fails : Network :=
  mkNetwork (fun _ _ => Throw (NetworkError "Could not fetch"))
            (fun _ => Throw (NetworkError "Could not fetch"))
            (fun h => match h with
                      | O => Throw (NetworkError "Could not fetch")
                      | S _ => Ok (TreeMeta [mkMetaFile "/index.js" file None])
                      end).

(** [JSON.parse(text).version] for the scenarios, with the empty object,
    which has no version. *)
Definition json_version_or_none (text : string) : result (option string) :=
  if String.eqb text "{}" then Ok None else sample_json_version text.

(** The world of a scenario whose lock records hold [locked]. *)
Definition locked_world (extra : list (string * string))
  (declared : list Dependency) (locked : list (string * LockRecord))
  : World :=
  mkWorld empty_store
    (mkManager
       (list_to_map
          (map (fun pc => (fst pc, plain_module (fst pc) (snd pc)))
               (("/src/index.js", "") :: extra)))
       (mkManifest declared (list_to_map locked)) None).

(** A network that answers every metadata request with a flat listing of
    one file and every content request with the text of a module. *)
Definition serving : Network :=
  mkNetwork (fun _ _ => Ok "module.exports = 1;")
            (fun _ => Throw (NetworkError "Could not fetch"))
            (fun _ => Ok (FlatMeta [mkFlatFile "/index.js"])).
(** * Properties *)

#[local] Arguments Ascii.eqb : simpl never.
#[local] Arguments String.eqb : simpl never.

(** ** Strings *)

Example resolveNPMAlias_alias :
  resolveNPMAlias "my-react" "npm:react@16.0.0" = Ok ("react", "16.0.0").
Proof. reflexivity. Qed.

Example resolveNPMAlias_scoped :
  resolveNPMAlias "ui" "npm:@scope/ui@1.0.0" = Ok ("@scope/ui", "1.0.0").
Proof. reflexivity. Qed.

Example resolveNPMAlias_plain :
  resolveNPMAlias "react" "16.0.0" = Ok ("react", "16.0.0").
Proof. reflexivity. Qed.

Example strip_alias_version_example :
  Regex.strip_alias_version "test/1.3.0" = "test".
Proof. reflexivity. Qed.

Example strip_node_modules_example :
  Regex.strip_node_modules "instantsearch.js/node_modules/lodash/sum.js"
  = "lodash/sum.js".
Proof. reflexivity. Qed.

Example join_examples :
  Posix.join ["/node_modules"; "react"; "package.json"]
  = "/node_modules/react/package.json" /\
  Posix.join ["/src/components"; "../utils/fs"] = "/src/utils/fs" /\
  Posix.dirname "/node_modules/react/package.json" = "/node_modules/react".
Proof. repeat split; reflexivity. Qed.

Lemma starts_with_app (p s : string) : Regex.starts_with p (p ++ s) = true.
Proof.
  induction p as [|c p IH]; simpl; [done|].
  by rewrite Ascii.eqb_refl, IH.
Qed.

Lemma occurs_app_r (p a s : string) :
  Regex.occurs p s = true -> Regex.occurs p (a ++ s) = true.
Proof.
  intros H. induction a as [|c a IH]; simpl; [done|].
  rewrite IH. apply orb_true_r.
Qed.

Lemma occurs_middle (p a b : string) : Regex.occurs p (a ++ p ++ b) = true.
Proof.
  apply occurs_app_r. destruct (p ++ b) eqn:E; simpl.
  - destruct p; [done | discriminate].
  - rewrite <- E, starts_with_app. done.
Qed.

Lemma numeric_semver_no_slash (v : string) :
  numeric_semver v = true -> Regex.occurs "/" v = false.
Proof.
  unfold numeric_semver. induction v as [|c v IH]; simpl; [done|].
  intros [Hc Hv]%andb_true_iff. rewrite (IH Hv), orb_false_r, andb_true_r.
  destruct (Ascii.eqb_spec "/" c) as [<-|]; [|done].
  by vm_compute in Hc.
Qed.

Lemma split_last_at_without_at (s : string) :
  Regex.occurs "@" s = false -> Regex.split_last_at s = None.
Proof.
  induction s as [|c s IH]; simpl; [done|].
  intros [Hc Hs]%orb_false_iff. rewrite (IH Hs).
  rewrite andb_true_r in Hc. rewrite Ascii.eqb_sym in Hc. rewrite Hc.
  by destruct (Regex.is_line_terminator c).
Qed.

Lemma match_alias_without_at (text : string) :
  Regex.occurs "@" text = false -> Regex.match_alias ("npm:" ++ text) = None.
Proof.
  intros H. unfold Regex.match_alias.
  rewrite (starts_with_app "npm:" text).
  change (Regex.drop 4 ("npm:" ++ text)) with text.
  by rewrite (split_last_at_without_at _ H).
Qed.

Lemma resolveNPMAlias_without_at (name text : string) :
  Regex.occurs "@" text = false ->
  resolveNPMAlias name ("npm:" ++ text)
  = Throw (TypeError "Cannot read property '1' of null").
Proof.
  intros H. unfold resolveNPMAlias.
  rewrite (starts_with_app "npm:" text).
  by rewrite (match_alias_without_at _ H).
Qed.

Lemma starts_with_inv (p s : string) :
  Regex.starts_with p s = true -> exists rest, s = p ++ rest.
Proof.
  revert s. induction p as [|c p IH]; intros s; [by exists s|].
  destruct s as [|d s]; [done|]. cbn [Regex.starts_with].
  intros [Hc Hs]%andb_true_iff. apply Ascii.eqb_eq in Hc as ->.
  destruct (IH s Hs) as [rest ->]. by exists rest.
Qed.

Lemma occurs_longer (p q s : string) :
  Regex.occurs (p ++ q) s = true -> Regex.occurs p s = true.
Proof.
  induction s as [|c s IH].
  - cbn [Regex.occurs]. rewrite !orb_false_r. intros H.
    destruct (starts_with_inv _ _ H) as [rest Hrest]. by destruct p.
  - cbn [Regex.occurs]. intros [H|H]%orb_true_iff.
    + destruct (starts_with_inv _ _ H) as [rest ->].
      rewrite <- (starts_with_app p (q ++ rest)).
      assert (Heq : (p ++ q) ++ rest = p ++ q ++ rest).
      { clear. induction p as [|x p IHp]; [done|].
        change (String x ((p ++ q) ++ rest) = String x (p ++ q ++ rest)).
        by f_equal. }
      rewrite Heq. rewrite starts_with_app. done.
    + rewrite (IH H). apply orb_true_r.
Qed.

(** The draft pattern of the scenarios matches only versions with [//]. *)
Lemma draft_pattern_double_slash (s : string) :
  draft_pattern s = true -> Regex.occurs "//" s = true.
Proof.
  induction s as [|c s IH]; [done|].
  cbn [draft_pattern]. intros [H|H]%orb_true_iff.
  - unfold draft_pattern_here in H. apply andb_true_iff in H as [H _].
    destruct (starts_with_inv _ _ H) as [rest ->].
    exact (occurs_middle "//" "https:" ("pkg" ++ rest)).
  - cbn [Regex.occurs]. rewrite (IH H). apply orb_true_r.
Qed.

(** A slug [user/repo] has no [//]. *)
Lemma slug_single_slash (user repo : string) :
  Regex.occurs "/" user = false -> Regex.occurs "/" repo = false ->
  Regex.occurs "//" (user ++ "/" ++ repo) = false.
Proof.
  intros Hu Hr. induction user as [|c user IH].
  - change ("" ++ "/" ++ repo) with (String "/" repo).
    cbn [Regex.occurs Regex.starts_with].
    destruct (Regex.occurs "//" repo) eqn:E.
    { apply (occurs_longer "/" "/") in E. congruence. }
    rewrite orb_false_r, Ascii.eqb_refl. cbn [andb].
    destruct repo as [|d repo]; [done|].
    cbn [Regex.occurs Regex.starts_with] in Hr.
    apply orb_false_iff in Hr as [Hd _]. rewrite andb_true_r in Hd.
    by rewrite Hd.
  - cbn [Regex.occurs Regex.starts_with] in Hu.
    apply orb_false_iff in Hu as [Hc Hu]. rewrite andb_true_r in Hc.
    change (String c user ++ "/" ++ repo) with (String c (user ++ "/" ++ repo)).
    cbn [Regex.occurs Regex.starts_with]. rewrite Hc, (IH Hu). done.
Qed.

(** ** Paths *)

Module PosixFacts.
Import Posix.

Lemma append_assoc (a b c : string) : (a ++ b) ++ c = a ++ b ++ c.
Proof.
  induction a as [|x a IH]; [done|].
  change (String x ((a ++ b) ++ c) = String x (a ++ b ++ c)). by f_equal.
Qed.

Lemma append_nonempty_r (a b : string) :
  nonempty b = true -> nonempty (a ++ b) = true.
Proof. by destruct a. Qed.

Lemma split_segment (s : string) :
  Regex.occurs "/" s = false -> split s = [s].
Proof.
  induction s as [|c s IH]; [done|]. cbn [Regex.occurs Regex.starts_with split].
  intros [Hc Hs]%orb_false_iff. rewrite andb_true_r, Ascii.eqb_sym in Hc.
  by rewrite Hc, (IH Hs).
Qed.

Lemma split_cons (s t : string) :
  Regex.occurs "/" s = false -> split (s ++ "/" ++ t) = s :: split t.
Proof.
  induction s as [|c s IH]; [done|]. cbn [Regex.occurs Regex.starts_with].
  intros [Hc Hs]%orb_false_iff. rewrite andb_true_r, Ascii.eqb_sym in Hc.
  change (String c s ++ "/" ++ t) with (String c (s ++ "/" ++ t)).
  cbn [split]. by rewrite Hc, (IH Hs).
Qed.

Lemma split_unsplit_app (segs : list string) (t : string) :
  segs <> [] -> Forall clean_segment segs ->
  split (unsplit segs ++ "/" ++ t) = (segs ++ split t)%list.
Proof.
  intros Hne H. induction H as [|s segs Hs Hsegs IH]; [done|].
  destruct Hs as (_ & Hslash & _).
  destruct segs as [|s' segs].
  - by apply split_cons.
  - change (unsplit (s :: s' :: segs)) with (s ++ "/" ++ unsplit (s' :: segs)).
    rewrite append_assoc. change (("/" ++ unsplit (s' :: segs)) ++ "/" ++ t)
      with ("/" ++ (unsplit (s' :: segs) ++ "/" ++ t)).
    by rewrite (split_cons _ _ Hslash), IH.
Qed.

Lemma split_unsplit (segs : list string) :
  segs <> [] -> Forall clean_segment segs -> split (unsplit segs) = segs.
Proof.
  intros Hne H. induction H as [|s segs Hs Hsegs IH]; [done|].
  destruct Hs as (_ & Hslash & _).
  destruct segs as [|s' segs]; [by apply split_segment|].
  change (unsplit (s :: s' :: segs)) with (s ++ "/" ++ unsplit (s' :: segs)).
  by rewrite (split_cons _ _ Hslash), IH.
Qed.

Lemma unsplit_app (a b : list string) :
  a <> [] -> b <> [] -> unsplit (a ++ b) = unsplit a ++ "/" ++ unsplit b.
Proof.
  intros Ha Hb. induction a as [|x a IH]; [done|].
  destruct a as [|y a].
  - destruct b; done.
  - change (unsplit ((x :: y :: a) ++ b))
      with (x ++ "/" ++ unsplit ((y :: a) ++ b)).
    rewrite IH by done.
    change (unsplit (x :: y :: a)) with (x ++ "/" ++ unsplit (y :: a)).
    by rewrite !append_assoc.
Qed.

Lemma filter_clean (segs : list string) :
  Forall clean_segment segs ->
  filter (fun x => nonempty x = true) segs = segs.
Proof.
  induction 1 as [|s segs Hs Hsegs IH]; [done|].
  destruct Hs as (Hn & _). rewrite filter_cons, decide_True by done.
  by rewrite IH.
Qed.

Lemma normalizeArray_rev_clean (segs : list string) :
  Forall clean_segment segs -> normalizeArray_rev segs 0 = (rev segs, 0).
Proof.
  induction 1 as [|s segs Hs Hsegs IH]; [done|].
  destruct Hs as (_ & _ & Hdot & Hdots). cbn [normalizeArray_rev].
  apply String.eqb_neq in Hdot, Hdots. by rewrite Hdot, Hdots, IH.
Qed.

Lemma normalizeArray_clean (segs : list string) (above : bool) :
  Forall clean_segment segs -> normalizeArray segs above = segs.
Proof.
  intros H. unfold normalizeArray.
  rewrite normalizeArray_rev_clean by (by apply Forall_rev).
  rewrite rev_involutive. by destruct above.
Qed.

Lemma ends_with_slash_app (a b : string) :
  nonempty b = true -> ends_with_slash (a ++ b) = ends_with_slash b.
Proof.
  intros Hb. induction a as [|c a IH]; [done|].
  change (String c a ++ b) with (String c (a ++ b)). cbn [ends_with_slash].
  pose proof (append_nonempty_r a b Hb) as Hab.
  by destruct (a ++ b).
Qed.

Lemma ends_with_slash_segment (s : string) :
  Regex.occurs "/" s = false -> ends_with_slash s = false.
Proof.
  induction s as [|c s IH]; [done|]. cbn [Regex.occurs Regex.starts_with].
  intros [Hc Hs]%orb_false_iff. rewrite andb_true_r, Ascii.eqb_sym in Hc.
  cbn [ends_with_slash]. destruct s; [done | by apply IH].
Qed.

Lemma unsplit_clean (segs : list string) :
  segs <> [] -> Forall clean_segment segs ->
  nonempty (unsplit segs) = true /\ ends_with_slash (unsplit segs) = false.
Proof.
  intros Hne H. induction H as [|s segs Hs Hsegs IH]; [done|].
  destruct Hs as (Hn & Hslash & _).
  destruct segs as [|s' segs].
  - split; [done | by apply ends_with_slash_segment].
  - destruct IH as [IH1 IH2]; [done|].
    change (unsplit (s :: s' :: segs)) with (s ++ "/" ++ unsplit (s' :: segs)).
    split; [by apply append_nonempty_r|].
    rewrite ends_with_slash_app by done.
    change ("/" ++ unsplit (s' :: segs))
      with (String "/" (unsplit (s' :: segs))).
    cbn [ends_with_slash]. by destruct (unsplit (s' :: segs)).
Qed.

(** [join] of two clean paths puts them together as they are. *)
Lemma join_clean (root name : string) :
  clean_path root -> clean_path name -> join [root; name] = root ++ name.
Proof.
  intros (a & Ha & Hca & ->) (b & Hb & Hcb & ->).
  destruct (unsplit_clean a Ha Hca) as [Hna _].
  destruct (unsplit_clean b Hb Hcb) as [Hnb Heb].
  unfold join. rewrite !filter_cons, !decide_True, filter_nil by done.
  change (unsplit ["/" ++ unsplit a; "/" ++ unsplit b])
    with (("/" ++ unsplit a) ++ "/" ++ "/" ++ unsplit b).
  unfold normalize.
  change (isAbsolute (("/" ++ unsplit a) ++ "/" ++ "/" ++ unsplit b)) with true.
  rewrite ends_with_slash_app by done.
  change (ends_with_slash ("/" ++ "/" ++ unsplit b))
    with (ends_with_slash (String "/" (String "/" (unsplit b)))).
  assert (Hends : ends_with_slash (String "/" (String "/" (unsplit b))) = false).
  { cbn [ends_with_slash]. by destruct (unsplit b). }
  rewrite Hends.
  change (split (("/" ++ unsplit a) ++ "/" ++ "/" ++ unsplit b))
    with (EmptyString :: split (unsplit a ++ "/" ++ "/" ++ unsplit b)).
  rewrite split_unsplit_app by done.
  change (split ("/" ++ unsplit b)) with (EmptyString :: split (unsplit b)).
  rewrite split_unsplit by done.
  rewrite filter_cons, decide_False by done.
  rewrite filter_app, filter_cons, decide_False by done.
  rewrite !filter_clean by done.
  rewrite normalizeArray_clean by (by apply Forall_app).
  rewrite unsplit_app by done.
  cbn [negb]. rewrite !andb_false_r. by rewrite append_assoc.
Qed.

End PosixFacts.

(** ** Resilient fetch *)

Module RetryFacts.
Import Retry.
Local Open Scope Z_scope.

Lemma spaced_consecutive (last now : Z) (l : list attempt) :
  spaced last now l ->
  forall (i : nat) (a b : attempt),
    l !! i = Some a -> l !! S i = Some b ->
    3000 <= started b - started a /\
    (waited b = None <-> 3000 <= ended a - started a).
Proof.
  revert last now. induction l as [|x l IH]; intros last now Hs i a b Ha Hb.
  - done.
  - destruct Hs as (_ & _ & _ & Hs). destruct i as [|i].
    + injection Ha as ->. destruct l as [|y l]; [done|].
      injection Hb as ->. destruct Hs as (H1 & H2 & _). done.
    + exact (IH _ _ Hs i a b Ha Hb).
Qed.

Section Loop.

Variable url : string.
Variable env : nat -> turn.
Variable retries : Z.

Hypothesis env_ok : forall j, turn_ok (env j).

Lemma loop_all_fail (n i : nat) (last now : Z) :
  (0 < n)%nat ->
  Z.of_nat i + Z.of_nat n = retries ->
  (forall j, (i <= j < i + n)%nat -> fails url (env j)) ->
  exists l now',
    loop url env retries n i last now
    = (doFetch url (fetched (env (i + n - 1)%nat)), l, now') /\
    length l = n /\ spaced last now l.
Proof.
  revert i last now. induction n as [|n IH]; intros i last now Hn Hi Hf; [lia|].
  destruct (env_ok i) as (Hbd & Hlate & Hbt & Hft).
  destruct (Hf i ltac:(lia)) as [e He].
  cbn [loop]. rewrite He.
  set (wn := if now - last <? 3000 then _ else _).
  assert (Hwn : 3000 <= snd wn + before_try (env i) - last /\
                (fst wn = None <-> 3000 <= now - last) /\
                now <= snd wn).
  { subst wn. unfold delay. destruct (Z.ltb_spec (now - last) 3000); simpl.
    - split; [lia|]. split; [|lia]. split; [done | lia].
    - split; [lia|]. split; [|lia]. done. }
  destruct wn as [w now1]. simpl in Hwn. destruct Hwn as (H1 & H2 & H3).
  destruct n as [|n].
  - assert (Hlast : (Z.of_nat i =? retries - 1) = true) by (apply Z.eqb_eq; lia).
    rewrite Hlast. replace (i + 1 - 1)%nat with i by lia.
    eexists _, _. split; [by rewrite He|]. split; [done|].
    simpl. split_and!; try done; lia.
  - assert (Hlast : (Z.of_nat i =? retries - 1) = false) by (apply Z.eqb_neq; lia).
    rewrite Hlast.
    destruct (IH (S i) (now1 + before_try (env i))
                 (now1 + before_try (env i) + fetch_takes (env i))
                 ltac:(lia) ltac:(lia)) as (l & now' & Hl & Hlen & Hsp).
    { intros j Hj. apply Hf. lia. }
    rewrite Hl. replace (i + S (S n) - 1)%nat with (S i + S n - 1)%nat by lia.
    eexists _, _. split; [done|]. split; [simpl; by rewrite Hlen|].
    simpl. split_and!; try done; lia.
Qed.

End Loop.

End RetryFacts.

(** C6 — [fetchWithRetries] with the default number of retries, on an
    endpoint that fails every time: it makes exactly six attempts;
    consecutive attempts start at least 3000 ms apart, and a turn asks for a
    delay exactly when the attempt before it started less than 3000 ms ago;
    the error raised is the one of the sixth attempt. *)
Theorem fetchWithRetries_all_attempts_fail
  (url : string) (env : nat -> Retry.turn) (now : Z) :
  (forall j, Retry.turn_ok (env j)) ->
  (forall j, (j < 6)%nat -> Retry.fails url (env j)) ->
  exists (e : error) (attempts : list Retry.attempt) (now' : Z),
    Retry.fetchWithRetries url env Retry.default_retries now
    = (Throw e, attempts, now') /\
    Retry.doFetch url (Retry.fetched (env 5%nat)) = Throw e /\
    length attempts = 6%nat /\
    forall (i : nat) (a b : Retry.attempt),
      attempts !! i = Some a -> attempts !! S i = Some b ->
      (3000 <= Retry.started b - Retry.started a)%Z /\
      (Retry.waited b = None <->
       (3000 <= Retry.ended a - Retry.started a)%Z).
Proof.
  intros Hok Hfail.
  destruct (RetryFacts.loop_all_fail url env Retry.default_retries Hok
              6 0 0%Z now) as (l & now' & Hl & Hlen & Hsp); [lia | done | |].
  { intros j Hj. apply Hfail. lia. }
  destruct (Hfail 5%nat ltac:(lia)) as [e He].
  exists e, l, now'. unfold Retry.fetchWithRetries.
  change (Z.to_nat Retry.default_retries) with 6%nat.
  rewrite Hl. change (0 + 6 - 1)%nat with 5%nat. rewrite He.
  split_and!; try done.
  exact (RetryFacts.spaced_consecutive _ _ _ Hsp).
Qed.

(** ** The caches *)

Section CacheFacts.

Variable CSB_PKG_PROTOCOL : string -> bool.
Variable json_version : string -> result (option string).
Variable join : list string -> string.
Variable RegExp_replace : string -> string -> result string.

#[local] Abbreviation downloadDependency' :=
  (downloadDependency CSB_PKG_PROTOCOL join RegExp_replace).
#[local] Abbreviation getMeta' :=
  (getMeta CSB_PKG_PROTOCOL join RegExp_replace).
#[local] Abbreviation start_meta' :=
  (start_meta CSB_PKG_PROTOCOL join RegExp_replace).
#[local] Abbreviation step' :=
  (step CSB_PKG_PROTOCOL json_version join RegExp_replace).
#[local] Abbreviation run' :=
  (run CSB_PKG_PROTOCOL json_version join RegExp_replace).

Lemma run_app (evs evs' : list event) (st : Store) :
  run' (evs ++ evs') st = run' evs' (run' evs st).
Proof. apply fold_left_app. Qed.

Lemma run_snoc (evs : list event) (ev : event) (st : Store) :
  run' (evs ++ [ev]) st = step' ev (run' evs st).
Proof. by rewrite run_app. Qed.

(** *** What the content side leaves alone *)

Lemma downloadDependency_metas name version path st :
  metas (snd (downloadDependency' name version path st)) = metas st /\
  meta_promises (snd (downloadDependency' name version path st))
  = meta_promises st.
Proof.
  unfold downloadDependency; cbv zeta.
  destruct (resolveNPMAlias name version) as [[depName depVersion]|]; [|done].
  destruct (packages st !! _); [done|].
  by destruct (relativePath _ _ _ _).
Qed.

Lemma start_meta_metas p name version st :
  metas (snd (start_meta' p name version st)) = metas st /\
  meta_promises (snd (start_meta' p name version st))
  = meta_promises st.
Proof.
  unfold start_meta. destruct p; try done.
  destruct (Regex.starts_with_digit version); [done|].
  pose proof (downloadDependency_metas name version "/package.json" st) as H.
  by destruct (downloadDependency' name version "/package.json" st).
Qed.

Lemma settle_file_metas h r st :
  metas (settle_file CSB_PKG_PROTOCOL h r st) = metas st /\
  meta_promises (settle_file CSB_PKG_PROTOCOL h r st) = meta_promises st.
Proof.
  unfold settle_file. destruct (package_promises st !! h) as [[t| |]|]; try done.
  by destruct r, (ft_stage t).
Qed.

(** *** Entries of [packages] are never removed or replaced *)

Lemma downloadDependency_packages name version path st id h :
  packages st !! id = Some h ->
  packages (snd (downloadDependency' name version path st)) !! id = Some h.
Proof.
  intros H. unfold downloadDependency; cbv zeta.
  destruct (resolveNPMAlias name version) as [[depName depVersion]|]; [|done].
  destruct (packages st !! package_id _ _ _) eqn:E; [done|].
  destruct (relativePath _ _ _ _); [|done]. simpl.
  rewrite lookup_insert_ne; [done|]. intros Heq. rewrite Heq in E. congruence.
Qed.

Lemma start_meta_packages p name version st id h :
  packages st !! id = Some h ->
  packages (snd (start_meta' p name version st)) !! id = Some h.
Proof.
  intros H. unfold start_meta. destruct p; try done.
  destruct (Regex.starts_with_digit version); [done|].
  pose proof (downloadDependency_packages name version "/package.json" st _ _ H).
  by destruct (downloadDependency' name version "/package.json" st).
Qed.

Lemma getMeta_packages name pj version fb st id h :
  packages st !! id = Some h ->
  packages (snd (getMeta' name pj version fb st)) !! id = Some h.
Proof.
  intros H. unfold getMeta; cbv zeta.
  destruct (resolveNPMAlias name version) as [[depName depVersion]|]; [|done].
  destruct (metas st !! _); [done|].
  pose proof (start_meta_packages
                (getFetchProtocol CSB_PKG_PROTOCOL depVersion fb)
                (Regex.strip_alias_version depName) depVersion st _ _ H).
  by destruct (start_meta _ _ _ _ _).
Qed.

Lemma step_packages ev st id h :
  packages st !! id = Some h -> packages (step' ev st) !! id = Some h.
Proof.
  intros H. destruct ev as [n pj v fb|n v p|h0 r|h0|h0 r|h0 r]; simpl.
  - by apply getMeta_packages.
  - by apply downloadDependency_packages.
  - unfold settle_file. destruct (package_promises st !! h0) as [[t| |]|]; try done.
    by destruct r, (ft_stage t).
  - unfold resume_meta. destruct (meta_promises st !! h0) as [[t| |]|]; try done.
    destruct (mt_stage t) as [[d|e]| |]; try done.
    destruct (package_promises st !! d) as [[?|m|?]|]; try done.
    by destruct (json_version (m_code m)).
  - unfold settle_sha. destruct (meta_promises st !! h0) as [[t| |]|]; try done.
    by destruct (mt_stage t), r.
  - unfold settle_meta. destruct (meta_promises st !! h0) as [[t| |]|]; try done.
    by destruct (mt_stage t), r.
Qed.


(** *** One pending chain for each key of [metas] *)






(** A call of [getMeta] for a key that is absent: a new chain is stored. *)
Lemma getMeta_miss name pj version fb st depName depVersion :
  resolveNPMAlias name version = Ok (depName, depVersion) ->
  metas st !! meta_id pj depName depVersion = None ->
  exists (st' : Store) (t : meta_task),
    getMeta' name pj version fb st = (Ok (length (meta_promises st)), st') /\
    metas st' = <[meta_id pj depName depVersion := length (meta_promises st)]>
                  (metas st) /\
    meta_promises st' = (meta_promises st ++ [Pending t])%list /\
    mt_id t = meta_id pj depName depVersion.
Proof.
  intros Ha Hm. unfold getMeta; cbv zeta. rewrite Ha, Hm.
  pose proof (start_meta_metas
                (getFetchProtocol CSB_PKG_PROTOCOL depVersion fb)
                (Regex.strip_alias_version depName) depVersion st) as [H1 H2].
  destruct (start_meta _ _ _ _ _) as [stage st1]. simpl in H1, H2.
  eexists _, _. split; [by rewrite H2|]. simpl. rewrite H1, H2. done.
Qed.

(** A call of [getMeta] for a key that is present changes nothing. *)
Lemma getMeta_hit name pj version fb st depName depVersion h :
  resolveNPMAlias name version = Ok (depName, depVersion) ->
  metas st !! meta_id pj depName depVersion = Some h ->
  getMeta' name pj version fb st = (Ok h, st).
Proof. intros Ha Hm. unfold getMeta; cbv zeta. by rewrite Ha, Hm. Qed.





(** *** Settled promises stay as they are *)




Lemma downloadDependency_hit name version path st depName depVersion h :
  resolveNPMAlias name version = Ok (depName, depVersion) ->
  packages st !! package_id depName depVersion path = Some h ->
  downloadDependency' name version path st = (Ok h, st).
Proof. intros Ha Hp. unfold downloadDependency; cbv zeta. by rewrite Ha, Hp. Qed.

(** Reading a promise table behind an update of entry [h0]: the entry
    itself, or an entry the update has left alone. *)
Ltac lookup_updated h h0 :=
  destruct (decide (h = h0)) as [->|?];
  [rewrite list_lookup_insert_eq by done
  |rewrite list_lookup_insert_ne by done];
  congruence.

(** A metadata promise is rejected only by the [catch] of its own chain. *)
Lemma step_rejects_meta ev st h t e :
  meta_promises st !! h = Some (Pending t) ->
  meta_promises (step' ev st) !! h = Some (Rejected e) ->
  step' ev st = fail_meta h t e st.
Proof.
  intros Hp. assert (Hlt : h < length (meta_promises st))
    by (by eapply lookup_lt_Some).
  assert (Hfail : forall h0 t0 e0,
    meta_promises st !! h0 = Some (Pending t0) ->
    meta_promises (fail_meta h0 t0 e0 st) !! h = Some (Rejected e) ->
    fail_meta h0 t0 e0 st = fail_meta h t e st).
  { intros h0 t0 e0 Hh. unfold fail_meta at 1; simpl. lookup_updated h h0. }
  assert (Hadv : forall h0 t0 stage st1,
    meta_promises st !! h0 = Some (Pending t0) ->
    meta_promises st1 = meta_promises st ->
    meta_promises (advance_meta h0 t0 stage st1) !! h = Some (Rejected e) ->
    advance_meta h0 t0 stage st1 = fail_meta h t e st).
  { intros h0 t0 stage st1 Hh Hst1. unfold advance_meta; simpl. rewrite Hst1.
    lookup_updated h h0. }
  destruct ev as [n pj v fb|n v p|h0 r|h0|h0 r|h0 r]; simpl.
  - destruct (resolveNPMAlias n v) as [[depName depVersion]|e'] eqn:Ha;
      [|unfold getMeta; rewrite Ha; simpl; congruence].
    destruct (metas st !! meta_id pj depName depVersion) as [h'|] eqn:Hm.
    + rewrite (getMeta_hit _ _ _ _ _ _ _ _ Ha Hm). simpl. congruence.
    + destruct (getMeta_miss _ _ _ fb _ _ _ Ha Hm) as (st' & t' & -> & _ & Hps & _).
      simpl. rewrite Hps, lookup_app_l by done. congruence.
  - destruct (downloadDependency_metas n v p st) as [_ ->]. congruence.
  - destruct (settle_file_metas h0 r st) as [_ ->]. congruence.
  - unfold resume_meta.
    destruct (meta_promises st !! h0) as [[t0| |]|] eqn:Hh; try congruence.
    destruct (mt_stage t0) as [[d|e0]| |]; try congruence; [|by apply Hfail].
    destruct (package_promises st !! d) as [[?|m|?]|]; try congruence;
      [|by apply Hfail].
    destruct (json_version (m_code m)); [by apply Hadv | by apply Hfail].
  - unfold settle_sha.
    destruct (meta_promises st !! h0) as [[t0| |]|] eqn:Hh; try congruence.
    destruct (mt_stage t0), r; try congruence;
      [by apply Hadv | by apply Hfail].
  - unfold settle_meta.
    destruct (meta_promises st !! h0) as [[t0| |]|] eqn:Hh; try congruence.
    destruct (mt_stage t0), r; try congruence; [|by apply Hfail].
    simpl. lookup_updated h h0.
Qed.

(** A failed content fetch keeps its entry: when the promise of a download
    is rejected (primary and fallback request have failed), [packages]
    still names it, and the next call for the key receives it. *)
Lemma failed_download_keeps_entry (evs : list event) (ev : event)
  (h : handle) (e : error) (name version path depName depVersion : string) :
  let st := run' evs empty_store in
  let st' := step' ev st in
  package_promises st' !! h = Some (Rejected e) ->
  resolveNPMAlias name version = Ok (depName, depVersion) ->
  packages st !! package_id depName depVersion path = Some h ->
  packages st' !! package_id depName depVersion path = Some h /\
  downloadDependency' name version path st' = (Ok h, st').
Proof.
  intros st st' _ Ha Hpk.
  assert (Hkept : packages st' !! package_id depName depVersion path = Some h)
    by (by apply step_packages).
  split; [done|]. by apply downloadDependency_hit with depName depVersion.
Qed.

(** C1 (as amended) — when a metadata fetch fails, its entry is removed
    from [metas]; the next call of [getMeta] for that key does not receive
    the rejected promise: it starts a new chain under a new promise, stores
    it under the key, and sends a fresh request at once, the metadata
    request or, for a GitHub version, the request for the latest commit.
    The one exception is a tag of the registry: there the new chain first
    awaits [downloadDependency] of the manifest, which sends a request
    only when the manifest is not in [packages]; the entries of [packages]
    are never removed, so after a failed manifest download the new chain
    sends no request and is rejected with the rejection that [packages]
    holds. *)
Theorem failed_fetch_cache_entry (evs : list event) (ev : event)
  (h : handle) (t : meta_task) (e : error) :
  let st := run' evs empty_store in
  let st' := step' ev st in
  meta_promises st !! h = Some (Pending t) ->
  meta_promises st' !! h = Some (Rejected e) ->
  metas st' !! mt_id t = None /\
  forall name pj version fb depName depVersion,
    resolveNPMAlias name version = Ok (depName, depVersion) ->
    meta_id pj depName depVersion = mt_id t ->
    let protocol := getFetchProtocol CSB_PKG_PROTOCOL depVersion fb in
    let name' := Regex.strip_alias_version depName in
    let manifest := downloadDependency' name' depVersion "/package.json" st' in
    exists (h' : handle) (st'' : Store) (t' : meta_task),
      getMeta' name pj version fb st' = (Ok h', st'') /\
      h' <> h /\
      meta_promises st' !! h' = None /\
      meta_promises st'' !! h' = Some (Pending t') /\
      metas st'' !! mt_id t = Some h' /\
      match first_request protocol name' depVersion with
      | Some r => requests st'' = (requests st' ++ [r])%list
      | None =>
          requests st'' = requests (snd manifest) /\
          forall (d : handle) (e' : error),
            fst manifest = Ok d ->
            package_promises st' !! d = Some (Rejected e') ->
            let st3 := step' (ManifestAwaited h') st'' in
            requests st'' = requests st' /\
            requests st3 = requests st' /\
            meta_promises st3 !! h' = Some (Rejected e') /\
            metas st3 !! mt_id t = None
      end.
Proof.
  intros st st' Hp Hr.
  assert (Hgone : metas st' !! mt_id t = None).
  { subst st'. rewrite (step_rejects_meta _ _ _ _ _ Hp Hr).
    unfold fail_meta; simpl. apply lookup_delete_eq. }
  split; [done|].
  intros name pj version fb depName depVersion Ha Hid protocol name' manifest.
  rewrite <- Hid in Hgone. rewrite <- Hid.
  unfold getMeta; cbv zeta. rewrite Ha, Hgone. fold protocol name'.
  pose proof (start_meta_metas protocol name' depVersion st') as [Hm0 Hp0].
  destruct (start_meta' protocol name' depVersion st') as [stage st0] eqn:Hstart.
  simpl in Hm0, Hp0.
  eexists _, _, _. split; [reflexivity|].
  assert (Hlt : h < length (meta_promises st'))
    by (by eapply lookup_lt_Some).
  rewrite Hp0. split; [lia|]. split; [by apply lookup_ge_None|].
  cbn [meta_promises metas requests set_metas set_meta_promises].
  rewrite Hp0. split; [by apply list_lookup_middle|].
  split; [apply lookup_insert_eq|].
  unfold start_meta in Hstart.
  destruct protocol eqn:Hprot; cbn [first_request].
  - by injection Hstart as <- <-.
  - by injection Hstart as <- <-.
  - destruct (Regex.starts_with_digit depVersion);
      [by injection Hstart as <- <-|].
    fold manifest in Hstart.
    destruct manifest as [r s0] eqn:Hdl. injection Hstart as <- <-.
    split; [done|]. intros d e' Hd Hrej. simpl in Hd. subst r.
    assert (Hs0 : s0 = st').
    { subst manifest. unfold downloadDependency in Hdl; cbv zeta in Hdl.
      destruct (resolveNPMAlias name' depVersion) as [[n2 v2]|]; [|done].
      destruct (packages st' !! _); [by injection Hdl as _ <-|].
      destruct (relativePath _ _ _ _); [|done].
      injection Hdl as <- _. apply lookup_lt_Some in Hrej. lia. }
    subst s0. split; [done|]. cbn [step]. unfold resume_meta.
    cbn [meta_promises package_promises set_metas set_meta_promises].
    rewrite list_lookup_middle by done. cbn [mt_stage]. rewrite Hrej.
    unfold fail_meta.
    cbn [meta_promises metas requests set_metas set_meta_promises mt_id].
    split; [done|]. split.
    + rewrite list_lookup_insert_eq; [done|]. rewrite length_app. simpl. lia.
    + apply lookup_delete_eq.
  - by injection Hstart as <- <-.
Qed.


(** *** Entries of [packages] name promises of the table *)








(** The three ways a call of [downloadDependency] with a well-formed
    version goes: the key is cached; a download is started; [new RegExp]
    throws. *)
Lemma downloadDependency_outcome name version path st depName depVersion :
  resolveNPMAlias name version = Ok (depName, depVersion) ->
  match packages st !! package_id depName depVersion path,
        relativePath join RegExp_replace depName path with
  | Some h, _ => downloadDependency' name version path st = (Ok h, st)
  | None, Ok relativePath =>
      exists st1,
        downloadDependency' name version path st
        = (Ok (length (package_promises st)), st1) /\
        packages st1
        = <[package_id depName depVersion path := length (package_promises st)]>
            (packages st) /\
        package_promises st1
        = (package_promises st
           ++ [Pending (mkFileTask (Regex.strip_alias_version depName)
                          depVersion relativePath path Primary)])%list /\
        requests st1
        = (requests st
           ++ [FileRequest (getFetchProtocol CSB_PKG_PROTOCOL depVersion false)
                 (Regex.strip_alias_version depName) depVersion
                 relativePath])%list /\
        metas st1 = metas st /\ meta_promises st1 = meta_promises st
  | None, Throw e => downloadDependency' name version path st = (Throw e, st)
  end.
Proof.
  intros Ha. unfold downloadDependency; cbv zeta. rewrite Ha.
  destruct (packages st !! _); [done|].
  destruct (relativePath _ _ _ _); [|done]. by eexists.
Qed.


End CacheFacts.

(** ** Backend selection *)

(** C2 — the backend is chosen in a fixed order: the draft backend for a
    version the draft pattern matches; otherwise the GitHub backend for a
    version with a [/]; otherwise the CDN-NPM backend, or the fallback
    backend when the fallback is asked for.  A version [user/repo] that the
    draft pattern does not match selects the GitHub backend, and the pattern
    of the draft archive host matches no [user/repo]; a version of digits
    and dots never selects the GitHub backend. *)
Theorem getFetchProtocol_selection
  (CSB_PKG_PROTOCOL : string -> bool) (v : string) (useFallback : bool) :
  (CSB_PKG_PROTOCOL v = true ->
   getFetchProtocol CSB_PKG_PROTOCOL v useFallback = csbGH) /\
  (CSB_PKG_PROTOCOL v = false -> Regex.occurs "/" v = true ->
   getFetchProtocol CSB_PKG_PROTOCOL v useFallback = jsDelivrGH) /\
  (CSB_PKG_PROTOCOL v = false -> Regex.occurs "/" v = false ->
   getFetchProtocol CSB_PKG_PROTOCOL v useFallback
   = if useFallback then unpkg else jsDelivrNPM) /\
  (forall user repo : string,
     v = user ++ "/" ++ repo -> CSB_PKG_PROTOCOL v = false ->
     getFetchProtocol CSB_PKG_PROTOCOL v useFallback = jsDelivrGH) /\
  (forall user repo : string,
     v = user ++ "/" ++ repo ->
     Regex.occurs "/" user = false -> Regex.occurs "/" repo = false ->
     getFetchProtocol draft_pattern v useFallback = jsDelivrGH) /\
  (numeric_semver v = true ->
   getFetchProtocol CSB_PKG_PROTOCOL v useFallback <> jsDelivrGH).
Proof.
  unfold getFetchProtocol. split_and!.
  - by intros ->.
  - by intros -> ->.
  - by intros -> ->.
  - intros user repo -> ->. by rewrite (occurs_middle "/" user repo).
  - intros user repo -> Hu Hr. rewrite (occurs_middle "/" user repo).
    destruct (draft_pattern (user ++ "/" ++ repo)) eqn:E; [|done].
    apply draft_pattern_double_slash in E.
    by rewrite (slug_single_slash user repo Hu Hr) in E.
  - intros Hn. rewrite (numeric_semver_no_slash _ Hn).
    by destruct (CSB_PKG_PROTOCOL v), useFallback.
Qed.

Lemma getFetchProtocol_selection_witness :
  getFetchProtocol draft_pattern "https://pkg.csb.dev/x/commit/0a1b/_pkg.tgz"
                   false = csbGH /\
  getFetchProtocol draft_pattern "https://github.com/user/repo" true
  = jsDelivrGH /\
  getFetchProtocol draft_pattern "latest" true = unpkg /\
  getFetchProtocol draft_pattern "user/repo" false = jsDelivrGH /\
  getFetchProtocol draft_pattern "1.2.3" false <> jsDelivrGH.
Proof.
  split_and!.
  - by apply (getFetchProtocol_selection draft_pattern).
  - by apply (getFetchProtocol_selection draft_pattern).
  - by apply (getFetchProtocol_selection draft_pattern "latest" true).
  - by apply (getFetchProtocol_selection draft_pattern "user/repo" false)
      with "user" "repo".
  - by apply (getFetchProtocol_selection draft_pattern "1.2.3" false).
Defined.

(** ** Normalisation of metadata *)

Lemma normalize_file_fold (rootPath : string) (f : MetaFile) (acc : Meta) :
  normalize_file rootPath f acc
  = fold_left (add_path (String.append rootPath)) (file_paths_of f) acc.
Proof.
  revert f acc. fix IH 1. intros [path type files] acc.
  cbn [normalize_file file_paths_of]. rewrite fold_left_app.
  set (acc1 := fold_left _ (match type with file => _ | directory => _ end) acc).
  assert (Hacc1 : match type with
                  | file => <[rootPath ++ path := true]> acc
                  | directory => acc
                  end = acc1) by (subst acc1; by destruct type).
  rewrite Hacc1. clear Hacc1. generalize acc1. clear acc1 acc.
  destruct files as [sub|]; [|done].
  induction sub as [|g sub IHsub]; intros acc; [done|].
  rewrite fold_left_app, <- IH. apply IHsub.
Qed.

Lemma normalize_fold (files : list MetaFile) (acc : Meta) (rootPath : string) :
  normalize files acc rootPath
  = fold_left (add_path (String.append rootPath)) (file_paths files) acc.
Proof.
  revert acc. unfold file_paths.
  induction files as [|f files IH]; intros acc; [done|].
  cbn [normalize map concat]. rewrite fold_left_app, IH.
  by rewrite normalize_file_fold.
Qed.

Lemma normalizeJSDelivr_fold (join : list string -> string)
  (files : list FlatFile) (acc : Meta) (rootPath : string) :
  normalizeJSDelivr join files acc rootPath
  = fold_left (add_path (fun p => join [rootPath; p])) (flat_names files) acc.
Proof.
  revert acc. induction files as [|f files IH]; intros acc; [done|].
  cbn [normalizeJSDelivr flat_names map fold_left]. by rewrite IH.
Qed.

Lemma add_paths_lookup (prefix : string -> string) (l : list string)
  (acc : Meta) (k : string) :
  fold_left (add_path prefix) l acc !! k
  = if decide (k ∈ map prefix l) then Some true else acc !! k.
Proof.
  revert acc. induction l as [|p l IH]; intros acc.
  - cbn. by rewrite decide_False by apply not_elem_of_nil.
  - cbn [fold_left map]. rewrite IH. unfold add_path.
    destruct (decide (k ∈ map prefix l)) as [Hin|Hnin].
    + by rewrite decide_True by (rewrite elem_of_cons; tauto).
    + destruct (decide (k = prefix p)) as [->|Hne].
      * rewrite decide_True by (rewrite elem_of_cons; tauto).
        apply lookup_insert_eq.
      * rewrite decide_False by (rewrite elem_of_cons; tauto).
        by rewrite lookup_insert_ne.
Qed.

Lemma normalizers_agree_when_join_appends (join : list string -> string)
  (rootPath : string) (tree : list MetaFile) (flat : list FlatFile) :
  same_files tree flat ->
  (forall p : string, p ∈ flat_names flat -> join [rootPath; p] = rootPath ++ p) ->
  normalize tree ∅ rootPath = normalizeJSDelivr join flat ∅ rootPath.
Proof.
  intros Hsame Hjoin. apply map_eq. intros k.
  rewrite normalize_fold, normalizeJSDelivr_fold, !add_paths_lookup.
  assert (Hiff : k ∈ map (String.append rootPath) (file_paths tree)
                 <-> k ∈ map (fun p => join [rootPath; p]) (flat_names flat)).
  { rewrite !list_elem_of_fmap. split.
    - intros (p & -> & Hp). exists p. split; [|by apply Hsame].
      symmetry. apply Hjoin. by apply Hsame.
    - intros (p & -> & Hp). exists p. split; [by apply Hjoin | by apply Hsame]. }
  destruct (decide (k ∈ map (String.append rootPath) (file_paths tree)));
    [rewrite decide_True | rewrite decide_False]; tauto.
Qed.

(** C8 (as amended) — for a nested and a flat listing of the same set of
    files, [normalize] and [normalizeJSDelivr] give the same set of paths
    whenever [join] of the root path and each listed name is the root path
    followed by that name; with the POSIX [join] this is so for every root
    path and all names that are normalised absolute paths (a slash in front
    of each segment, none at the end). *)
Theorem normalizers_agree
  (rootPath : string) (tree : list MetaFile) (flat : list FlatFile) :
  same_files tree flat ->
  (forall join : list string -> string,
     (forall p : string,
        p ∈ flat_names flat -> join [rootPath; p] = rootPath ++ p) ->
     normalize tree ∅ rootPath = normalizeJSDelivr join flat ∅ rootPath) /\
  (clean_path rootPath -> Forall clean_path (flat_names flat) ->
   normalize tree ∅ rootPath = normalizeJSDelivr Posix.join flat ∅ rootPath).
Proof.
  intros Hsame. split.
  - intros join Hjoin. by apply normalizers_agree_when_join_appends.
  - intros Hroot Hnames. apply normalizers_agree_when_join_appends; [done|].
    intros p Hp. apply PosixFacts.join_clean; [done|].
    by apply (proj1 (Forall_forall _ _) Hnames).
Qed.

Lemma normalizers_agree_witness :
  let tree := [mkMetaFile "/lib" directory
                 (Some [mkMetaFile "/lib/x.js" file None]);
               mkMetaFile "/index.js" file None] in
  let flat := [mkFlatFile "/index.js"; mkFlatFile "/lib/x.js"] in
  same_files tree flat /\
  clean_path "/node_modules/pkg" /\
  Forall clean_path (flat_names flat) /\
  normalize tree ∅ "/node_modules/pkg"
  = normalizeJSDelivr Posix.join flat ∅ "/node_modules/pkg".
Proof.
  intros tree flat.
  assert (Hsame : same_files tree flat).
  { intros p. cbn. rewrite !elem_of_cons, !elem_of_nil. tauto. }
  assert (Hseg : forall s, In s ["node_modules"; "pkg"; "index.js"; "lib"; "x.js"] ->
                           clean_segment s).
  { intros s Hs. cbn in Hs.
    repeat (destruct Hs as [<-|Hs]; [by split_and!|]). done. }
  assert (Hroot : clean_path "/node_modules/pkg").
  { exists ["node_modules"; "pkg"]. split; [done|]. split; [|done].
    repeat constructor; apply Hseg; cbn; tauto. }
  assert (Hnames : Forall clean_path (flat_names flat)).
  { repeat constructor.
    - exists ["index.js"]. split; [done|]. split; [|done].
      repeat constructor; apply Hseg; cbn; tauto.
    - exists ["lib"; "x.js"]. split; [done|]. split; [|done].
      repeat constructor; apply Hseg; cbn; tauto. }
  split; [exact Hsame|]. split; [exact Hroot|]. split; [exact Hnames|].
  exact (proj2 (normalizers_agree "/node_modules/pkg" tree flat Hsame)
               Hroot Hnames).
Defined.

(** C8 as stated fails on a root path with a trailing slash: [normalize]
    puts the root and the path together as they are, [normalizeJSDelivr]
    joins them. *)
Lemma normalizers_differ_on_trailing_slash :
  ~ (forall (rootPath : string) (tree : list MetaFile) (flat : list FlatFile),
       same_files tree flat ->
       normalize tree ∅ rootPath = normalizeJSDelivr Posix.join flat ∅ rootPath).
Proof.
  intros H.
  specialize (H "/node_modules/pkg/" [mkMetaFile "/index.js" file None]
                [mkFlatFile "/index.js"]).
  assert (Hsame : same_files [mkMetaFile "/index.js" file None]
                             [mkFlatFile "/index.js"]) by (intros p; by cbn).
  apply H in Hsame.
  apply (f_equal (fun m : Meta => m !! "/node_modules/pkg//index.js")) in Hsame.
  vm_compute in Hsame. discriminate.
Qed.

(** ** Resolution *)

Section ResolutionFacts.

Variable CSB_PKG_PROTOCOL : string -> bool.
Variable json_version : string -> result (option string).
Variable join : list string -> string.
Variable dirname : string -> string.
Variable RegExp_replace : string -> string -> result string.
Variable getDependencyName : string -> string.
Variable resolve :
  string -> string -> list string -> list string -> resolution.
Variable network : Network.
Variable normalizeJSDelivr_of_tree :
  list MetaFile -> string -> result Meta.

#[local] Abbreviation resolvePath' :=
  (resolvePath CSB_PKG_PROTOCOL json_version join RegExp_replace
    getDependencyName resolve
               network).
#[local] Abbreviation getDependencyVersion' :=
  (getDependencyVersion CSB_PKG_PROTOCOL json_version join RegExp_replace
    getDependencyName
                        resolve network).
#[local] Abbreviation fetchModule' :=
  (fetchModule CSB_PKG_PROTOCOL json_version join dirname RegExp_replace
    getDependencyName
               resolve network normalizeJSDelivr_of_tree).
#[local] Abbreviation fetchModule_resolve' :=
  (fetchModule_resolve CSB_PKG_PROTOCOL json_version join dirname RegExp_replace
     getDependencyName resolve network normalizeJSDelivr_of_tree).

(** C3 — when the manifest path the resolver finds for the dependency is
    its root manifest path [/node_modules/<name>/package.json] and the root
    manifest declares the dependency, [getDependencyVersion] returns the
    declared version with that path, whatever the manifest file says. *)
Theorem getDependencyVersion_prefers_root_manifest
  (fuel : nat) (currentPath : string) (extensions : list string)
  (dependencyName : string) (w w' : World) (dep : Dependency) :
  join ["/node_modules"; dependencyName; "package.json"]
  = "/node_modules/" ++ dependencyName ++ "/package.json" ->
  resolvePath' fuel (join [dependencyName; "package.json"]) currentPath
               extensions ∅ w
  = Some (Ok ("/node_modules/" ++ dependencyName ++ "/package.json"), w') ->
  find (fun d => String.eqb (dep_name d) dependencyName)
       (dependencies (manifest (manager w))) = Some dep ->
  getDependencyVersion' fuel currentPath extensions dependencyName w
  = Some (Ok (Some (mkVersionResult
                      (Some (dep_version dep))
                      (Some ("/node_modules/" ++ dependencyName
                             ++ "/package.json")))),
          w').
Proof.
  intros Hjoin Hfound Hdep.
  unfold getDependencyVersion, getDependencyVersion_with, bind, get_manager.
  rewrite Hfound. unfold version_from_found.
  by rewrite Hjoin, String.eqb_refl, Hdep.
Qed.

Lemma fetchModule_found_sentinel
  (path currentPath dependencyName : string) (version : option string)
  (w : World) :
  fetchModule_found CSB_PKG_PROTOCOL join RegExp_replace network path
                    currentPath dependencyName version "//empty.js" w
  = Some (Ok (stub_module join path currentPath), w).
Proof. reflexivity. Qed.

(** C7 — when the path resolution of [fetchModule] ends in [//empty.js],
    [fetchModule] returns the module [module.exports = {};] without
    requirements, marked as stubbed, and leaves the caches as the
    resolution left them: no content is downloaded.  Its path is the join of
    [/node_modules] and the requested path for a bare package specifier, of
    the requesting module's path and the requested path otherwise. *)
Theorem fetchModule_sentinel_is_stubbed
  (fuel : nat) (path currentPath : string) (extensions : list string)
  (dependencyName : string) (version : option string) (w w' : World) :
  fetchModule_resolve' fuel path currentPath extensions w
  = Some (Ok (dependencyName, version, "//empty.js"), w') ->
  fetchModule' fuel path currentPath extensions w
  = Some (Ok (mkModule
                (if Regex.bare_specifier path
                 then join ["/node_modules"; path]
                 else join [currentPath; path])
                "module.exports = {};" (Some []) (Some true) None),
          w').
Proof.
  intros Hres. unfold fetchModule, bind. rewrite Hres.
  by rewrite fetchModule_found_sentinel.
Qed.

(** A path that is neither a node of the graph nor in the
    metadata is no file, and reading it answers the resolver with the
    error [ENOENT] and changes nothing. *)
Lemma absent_candidate_is_ENOENT
  (getVersion : string -> M (result (option DependencyVersionResult)))
  (currentPath : string) (meta : Meta) (p : string) (w : World) :
  transpiledModules (manager w) !! p = None ->
  meta !! p = None ->
  isFile meta p w = false /\
  readFile CSB_PKG_PROTOCOL join RegExp_replace getDependencyName network
           getVersion currentPath
           meta p w
  = Some (Throw (ENOENT ("Could not find " ++ p)), w).
Proof.
  intros Hg Hm. split.
  - unfold isFile. rewrite Hg, Hm. done.
  - unfold readFile, bind, get_manager, resolveTranspiledModule.
    rewrite Hg, Hm. done.
Qed.

(** A malformed alias makes [getMeta] and [downloadDependency] throw
    before they look at a cache. *)
Lemma malformed_alias_rejects_calls (name text path : string)
  (pj : option string) (fb : bool) (st : Store) :
  Regex.occurs "@" text = false ->
  downloadDependency CSB_PKG_PROTOCOL join RegExp_replace name ("npm:" ++ text)
    path st
  = (Throw (TypeError "Cannot read property '1' of null"), st) /\
  getMeta CSB_PKG_PROTOCOL join RegExp_replace name pj ("npm:" ++ text) fb st
  = (Throw (TypeError "Cannot read property '1' of null"), st).
Proof.
  intros H. unfold downloadDependency, getMeta.
  by rewrite (resolveNPMAlias_without_at name text H).
Qed.

(** C10 — for a version [npm:<text>] whose text has no [@],
    [resolveNPMAlias] throws; [downloadDependency] and [getMeta] are
    rejected with that error and leave the caches alone; and [fetchModule]
    is rejected with it whenever the version resolver comes up with such a
    version. *)
Theorem malformed_alias_throws (name text : string) :
  Regex.occurs "@" text = false ->
  resolveNPMAlias name ("npm:" ++ text)
  = Throw (TypeError "Cannot read property '1' of null") /\
  (forall (path : string) (st : Store),
     downloadDependency CSB_PKG_PROTOCOL join RegExp_replace name
       ("npm:" ++ text) path st
     = (Throw (TypeError "Cannot read property '1' of null"), st)) /\
  (forall (fuel : nat) (path currentPath : string) (extensions : list string)
          (w w' : World) (info : DependencyVersionResult),
     getDependencyVersion' fuel currentPath extensions
       (getDependencyName (Regex.strip_node_modules path)) w
     = Some (Ok (Some info), w') ->
     version info = Some ("npm:" ++ text) ->
     fetchModule' fuel path currentPath extensions w
     = Some (Throw (TypeError "Cannot read property '1' of null"), w')).
Proof.
  intros H. split; [by apply resolveNPMAlias_without_at|].
  split.
  { intros path st.
    exact (proj1 (malformed_alias_rejects_calls name text path None false st H)). }
  intros fuel path currentPath extensions w w' info Hinfo Hv.
  unfold fetchModule, fetchModule_resolve, bind. rewrite Hinfo.
  unfold fetch_meta_with_fallback, fetch_meta, bind, with_store, with_version, ret.
  rewrite Hv.
  set (dn := getDependencyName (Regex.strip_node_modules path)).
  pose proof (fun fb => proj2 (malformed_alias_rejects_calls dn text ""
                (packageJSONPath info) fb (store w') H)) as Hmeta.
  destruct w' as [st' m']. simpl in *.
  destruct (String.eqb dn "d3-interpolate"); simpl;
    rewrite Hmeta; simpl; rewrite ?Hmeta; reflexivity.
Qed.

End ResolutionFacts.

(** C9 — a candidate that is neither in the graph nor in the metadata is
    refused for that candidate alone: it is no file, and reading it answers
    [ENOENT].  With the metadata [/node_modules/pkg/index.js] and the
    resolver strategy of the specification, [pkg/lib/x] is not found, and
    [pkg] resolves to [/node_modules/pkg/index.js] after its other
    candidates have been refused. *)
Theorem resolution_miss_is_per_candidate
  (CSB_PKG_PROTOCOL : string -> bool)
  (json_version : string -> result (option string))
  (join : list string -> string)
  (RegExp_replace : string -> string -> result string)
  (getDependencyName : string -> string) (network : Network) :
  (forall (getVersion : string -> M (result (option DependencyVersionResult)))
          (currentPath : string) (meta : Meta) (p : string) (w : World),
     transpiledModules (manager w) !! p = None ->
     meta !! p = None ->
     isFile meta p w = false /\
     readFile CSB_PKG_PROTOCOL join RegExp_replace getDependencyName network
              getVersion currentPath meta p w
     = Some (Throw (ENOENT ("Could not find " ++ p)), w)) /\
  (forall (entry_point : string -> option string)
          (browser_ignores : string -> string -> bool)
          (fuel : nat) (declared : list Dependency) (st : Store),
     let w := scenario_world [] declared st in
     let meta : Meta := {[ "/node_modules/pkg/index.js" := true ]} in
     let resolvePath' :=
       resolvePath CSB_PKG_PROTOCOL json_version Posix.join RegExp_replace
         getDependencyName (NodeResolve.resolve entry_point browser_ignores)
         network in
     resolvePath' (S fuel) "pkg/lib/x" "/src/index.js" defaultExtensions meta w
     = Some (Throw (ModuleNotFound "pkg/lib/x"), w) /\
     resolvePath' (S fuel) "pkg" "/src/index.js" defaultExtensions meta w
     = Some (Ok "/node_modules/pkg/index.js", w)).
Proof.
  split.
  - intros getVersion currentPath meta p w.
    apply absent_candidate_is_ENOENT.
  - intros entry_point browser_ignores fuel declared st. cbv zeta.
    split; vm_compute; reflexivity.
Qed.

Lemma resolution_miss_is_per_candidate_witness :
  transpiledModules (manager (scenario_world [] [] empty_store))
    !! "/node_modules/pkg/lib/x.js" = None /\
  ({[ "/node_modules/pkg/index.js" := true ]} : Meta)
    !! "/node_modules/pkg/lib/x.js" = None /\
  isFile {[ "/node_modules/pkg/index.js" := true ]}
         "/node_modules/pkg/lib/x.js" (scenario_world [] [] empty_store)
  = false.
Proof.
  split; [reflexivity|]. split; [reflexivity|].
  apply (proj1 (resolution_miss_is_per_candidate draft_pattern
                  sample_json_version Posix.join sample_RegExp_replace
                  sample_getDependencyName offline)
           (fun _ => ret (Ok None)) "/src/index.js"
           {[ "/node_modules/pkg/index.js" := true ]}
           "/node_modules/pkg/lib/x.js" (scenario_world [] [] empty_store));
    reflexivity.
Defined.

(** ** The properties on concrete runs *)

Lemma fetchWithRetries_all_attempts_fail_witness :
  (forall j, Retry.turn_ok (failing_endpoint j)) /\
  (forall j, (j < 6)%nat ->
     Retry.fails "https://unpkg.com/react@16.8.0/index.js" (failing_endpoint j)) /\
  exists (e : error) (attempts : list Retry.attempt) (now' : Z),
    Retry.fetchWithRetries "https://unpkg.com/react@16.8.0/index.js"
      failing_endpoint Retry.default_retries 1600000000000
    = (Throw e, attempts, now') /\
    length attempts = 6%nat.
Proof.
  assert (Hok : forall j, Retry.turn_ok (failing_endpoint j))
    by (intros j; unfold Retry.turn_ok; simpl; lia).
  assert (Hfail : forall j, (j < 6)%nat ->
            Retry.fails "https://unpkg.com/react@16.8.0/index.js"
                        (failing_endpoint j))
    by (intros j _; eexists; reflexivity).
  split; [exact Hok|]. split; [exact Hfail|].
  destruct (fetchWithRetries_all_attempts_fail
              "https://unpkg.com/react@16.8.0/index.js" failing_endpoint
              1600000000000%Z Hok Hfail) as (e & l & now' & Hrun & _ & Hlen & _).
  exists e, l, now'. split; assumption.
Defined.




Lemma failed_fetch_cache_entry_witness :
  let failure := NetworkError "Could not fetch" in
  let st := run draft_pattern sample_json_version Posix.join
                sample_RegExp_replace
                [CallGetMeta "react" None "latest" false;
                 FileSettled 0 (Throw failure);
                 FileSettled 0 (Throw failure)] empty_store in
  let st' := step draft_pattern sample_json_version Posix.join
                  sample_RegExp_replace (ManifestAwaited 0) st in
  meta_promises st !! 0%nat
  = Some (Pending (mkMetaTask "react@latest" jsDelivrNPM "react" "latest"
                              (AwaitPackageJson (Ok 0%nat)))) /\
  meta_promises st' !! 0%nat = Some (Rejected failure) /\
  metas st' !! "react@latest" = None /\
  exists (h' : handle) (st'' : Store),
    getMeta draft_pattern Posix.join sample_RegExp_replace
      "react" None "latest" false st' = (Ok h', st'') /\
    requests st'' = requests st' /\
    meta_promises
      (step draft_pattern sample_json_version Posix.join
         sample_RegExp_replace (ManifestAwaited h') st'') !! h'
    = Some (Rejected failure).
Proof.
  intros failure st st'. split; [reflexivity|]. split; [reflexivity|].
  destruct (failed_fetch_cache_entry draft_pattern sample_json_version
              Posix.join sample_RegExp_replace
              [CallGetMeta "react" None "latest" false;
               FileSettled 0 (Throw failure);
               FileSettled 0 (Throw failure)]
              (ManifestAwaited 0) 0%nat
              (mkMetaTask "react@latest" jsDelivrNPM "react" "latest"
                          (AwaitPackageJson (Ok 0%nat)))
              failure eq_refl eq_refl) as [Hgone Hnext].
  split; [exact Hgone|].
  pose proof (Hnext "react" None "latest" false "react" "latest"
                    eq_refl eq_refl) as Hcall.
  cbv zeta in Hcall.
  destruct Hcall as (h' & st'' & t' & Hcall & _ & _ & _ & _ & Hreq).
  change (first_request (getFetchProtocol draft_pattern "latest" false)
            (Regex.strip_alias_version "react") "latest")
    with (@None request) in Hreq.
  destruct Hreq as [_ Hstored].
  destruct (Hstored 0%nat failure eq_refl eq_refl) as (H1 & _ & H3 & _).
  exists h', st''. split; [exact Hcall|]. split; [exact H1 | exact H3].
Defined.

(** C1 as stated fails for the content cache: after the primary and the
    fallback request of a download have failed, the entry is still in
    [packages] and names the rejected promise. *)
Lemma failed_download_stays_cached :
  ~ failed_fetch_entry_removed draft_pattern sample_json_version Posix.join
      sample_RegExp_replace.
Proof.
  intros H.
  destruct (H [CallDownloadDependency "react" "16.8.0"
                 "/node_modules/react/index.js";
               FileSettled 0 (Throw (NetworkError "Could not fetch"))]
              (FileSettled 0 (Throw (NetworkError "Could not fetch"))))
    as [_ Hcontent].
  specialize (Hcontent 0%nat
                (mkFileTask "react" "16.8.0" "/index.js"
                            "/node_modules/react/index.js" Fallback)
                (NetworkError "Could not fetch")
                "react16.8.0/node_modules/react/index.js"
                eq_refl eq_refl eq_refl).
  vm_compute in Hcontent. discriminate.
Qed.

Lemma getDependencyVersion_prefers_root_manifest_witness :
  let url := "https://pkg.csb.dev/facebook/react/commit/0a1b2c3d/react" in
  let w := scenario_world [("/node_modules/react/package.json", manifest_16)]
                          [mkDependency "react" url] empty_store in
  Posix.join ["/node_modules"; "react"; "package.json"]
  = "/node_modules/react/package.json" /\
  json_version_of_node w = Ok (Some "16.8.0") /\
  getDependencyVersion draft_pattern sample_json_version Posix.join
    sample_RegExp_replace
    sample_getDependencyName
    (NodeResolve.resolve no_entry_point sample_browser_ignores) offline
    1 "/src/index.js" defaultExtensions "react" w
  = Some (Ok (Some (mkVersionResult (Some url)
                      (Some "/node_modules/react/package.json"))), w).
Proof.
  intros url w. split; [reflexivity|]. split; [reflexivity|].
  apply (getDependencyVersion_prefers_root_manifest draft_pattern
           sample_json_version Posix.join sample_RegExp_replace
             sample_getDependencyName
           (NodeResolve.resolve no_entry_point sample_browser_ignores) offline
           1 "/src/index.js" defaultExtensions "react" w w
           (mkDependency "react" url)); reflexivity.
Defined.

Lemma fetchModule_sentinel_is_stubbed_witness :
  let w := scenario_world [("/package.json", manifest_without_fs)]
                          [mkDependency "fs" "0.0.2"] empty_store in
  let resolve := NodeResolve.resolve no_entry_point sample_browser_ignores in
  exists w' : World,
    fetchModule_resolve draft_pattern sample_json_version Posix.join
      Posix.dirname sample_RegExp_replace sample_getDependencyName resolve
        listing_only
      no_foreign_listing 1 "fs" "/src/index.js" defaultExtensions w
    = Some (Ok ("fs", Some "0.0.2", "//empty.js"), w') /\
    fetchModule draft_pattern sample_json_version Posix.join Posix.dirname
      sample_RegExp_replace
      sample_getDependencyName resolve listing_only no_foreign_listing
      1 "fs" "/src/index.js" defaultExtensions w
    = Some (Ok (mkModule "/node_modules/fs" "module.exports = {};"
                         (Some []) (Some true) None), w') /\
    requests (store w') = [MetaRequest jsDelivrNPM "fs" "0.0.2" (Some "0.0.2")] /\
    packages (store w') = ∅.
Proof.
  intros w resolve. eexists.
  assert (Hres :
    fetchModule_resolve draft_pattern sample_json_version Posix.join
      Posix.dirname sample_RegExp_replace sample_getDependencyName resolve
        listing_only
      no_foreign_listing 1 "fs" "/src/index.js" defaultExtensions w
    = Some (Ok ("fs", Some "0.0.2", "//empty.js"), _))
    by (vm_compute; reflexivity).
  split; [exact Hres|]. split.
  - exact (fetchModule_sentinel_is_stubbed draft_pattern sample_json_version
             Posix.join Posix.dirname sample_RegExp_replace
               sample_getDependencyName resolve
             listing_only no_foreign_listing 1 "fs" "/src/index.js"
             defaultExtensions "fs" (Some "0.0.2") w _ Hres).
  - split; vm_compute; reflexivity.
Defined.

Lemma malformed_alias_throws_witness :
  let w := scenario_world [] [mkDependency "my-react" "npm:foo"] empty_store in
  Regex.occurs "@" "foo" = false /\
  resolveNPMAlias "my-react" "npm:foo"
  = Throw (TypeError "Cannot read property '1' of null") /\
  fetchModule draft_pattern sample_json_version Posix.join Posix.dirname
    sample_RegExp_replace
    sample_getDependencyName
    (NodeResolve.resolve no_entry_point sample_browser_ignores) offline
    no_foreign_listing 1 "my-react" "/src/index.js" defaultExtensions w
  = Some (Throw (TypeError "Cannot read property '1' of null"), w).
Proof.
  intros w. split; [reflexivity|].
  pose proof (malformed_alias_throws draft_pattern sample_json_version
                Posix.join Posix.dirname sample_RegExp_replace
                  sample_getDependencyName
                (NodeResolve.resolve no_entry_point sample_browser_ignores)
                offline no_foreign_listing "my-react" "foo" eq_refl)
    as (Halias & _ & Hfetch).
  split; [exact Halias|].
  apply (Hfetch 1%nat "my-react" "/src/index.js" defaultExtensions w w
                (mkVersionResult (Some "npm:foo") None));
    vm_compute; reflexivity.
Defined.

(** * Further properties *)

(** ** Resilient fetch, on any endpoint *)

Module RetryMore.
Import Retry.
Local Open Scope Z_scope.

Section Loop.

Variable url : string.
Variable env : nat -> turn.
Variable retries : Z.

Hypothesis env_ok : forall j, turn_ok (env j).

Lemma doFetch_ok (r : result Response) (x : Response) :
  doFetch url r = Ok x -> ok x = true.
Proof.
  unfold doFetch. destruct r as [y|e]; [|done].
  destruct (ok y) eqn:E; [|done]. by intros [= <-].
Qed.

Lemma loop_safe (n i : nat) (last now : Z) r l now' :
  loop url env retries n i last now = (r, l, now') ->
  (length l <= n)%nat /\ spaced last now l /\ now <= now' /\
  (forall x, r = Ok x -> ok x = true).
Proof.
  revert i last now r l now'.
  induction n as [|n IH]; intros i last now r l now'.
  - cbn [loop]. intros [= <- <- <-]. split_and!; try done; lia.
  - destruct (env_ok i) as (Hbd & Hlate & Hbt & Hft). cbn [loop].
    set (wn := if now - last <? 3000 then _ else _).
    assert (Hwn : 3000 <= snd wn + before_try (env i) - last /\
                  (fst wn = None <-> 3000 <= now - last) /\
                  now <= snd wn).
    { subst wn. unfold delay. destruct (Z.ltb_spec (now - last) 3000); simpl.
      - split; [lia|]. split; [|lia]. split; [done | lia].
      - split; [lia|]. split; [|lia]. done. }
    destruct wn as [w now1]. simpl in Hwn. destruct Hwn as (H1 & H2 & H3).
    destruct (doFetch url (fetched (env i))) as [x|e] eqn:Hf.
    + intros [= <- <- <-]. simpl. split_and!; try done; try lia.
      intros y [= <-]. by apply doFetch_ok in Hf.
    + destruct (Z.of_nat i =? retries - 1).
      * intros [= <- <- <-]. simpl. split_and!; try done; lia.
      * destruct (loop url env retries n (S i) _ _) as [[r1 l1] now1'] eqn:Hl.
        intros [= <- <- <-].
        destruct (IH _ _ _ _ _ _ Hl) as (Hlen & Hsp & Hnow & Hok).
        simpl. split_and!; try done; lia.
Qed.

Lemma loop_succeeds (k n i : nat) (last now : Z) (x : Response) :
  (k < n)%nat ->
  Z.of_nat i + Z.of_nat n = retries ->
  (forall j, (i <= j < i + k)%nat -> fails url (env j)) ->
  doFetch url (fetched (env (i + k)%nat)) = Ok x ->
  exists l now',
    loop url env retries n i last now = (Ok x, l, now') /\
    length l = S k.
Proof.
  revert n i last now. induction k as [|k IH]; intros n i last now Hk Hi Hf Hx.
  - destruct n as [|n]; [lia|]. cbn [loop].
    replace (i + 0)%nat with i in Hx by lia. rewrite Hx.
    destruct (if now - last <? 3000 then _ else _) as [w now1].
    by eexists _, _.
  - destruct n as [|n]; [lia|]. cbn [loop].
    destruct (Hf i ltac:(lia)) as [e He]. rewrite He.
    destruct (if now - last <? 3000 then _ else _) as [w now1].
    assert (Hlast : (Z.of_nat i =? retries - 1) = false)
      by (apply Z.eqb_neq; lia).
    rewrite Hlast.
    destruct (IH n (S i) (now1 + before_try (env i))
                 (now1 + before_try (env i) + fetch_takes (env i))
                 ltac:(lia) ltac:(lia)) as (l & now' & Hl & Hlen).
    { intros j Hj. apply Hf. lia. }
    { by replace (S i + k)%nat with (i + S k)%nat by lia. }
    rewrite Hl. eexists _, _. split; [done|]. simpl. by rewrite Hlen.
Qed.

End Loop.

End RetryMore.

(** X1 — whatever the endpoint does, [fetchWithRetries] makes at most
    [retries] attempts, consecutive attempts start at least 3000 ms apart,
    the first one waits exactly when the clock reads less than 3000, the
    clock never runs back, and a response that is returned is [ok]. *)
Theorem fetchWithRetries_is_bounded_and_spaced
  (url : string) (env : nat -> Retry.turn) (retries now : Z)
  (r : result Retry.Response) (attempts : list Retry.attempt) (now' : Z) :
  (forall j, Retry.turn_ok (env j)) ->
  Retry.fetchWithRetries url env retries now = (r, attempts, now') ->
  (length attempts <= Z.to_nat retries)%nat /\
  (forall (i : nat) (a b : Retry.attempt),
     attempts !! i = Some a -> attempts !! S i = Some b ->
     (3000 <= Retry.started b - Retry.started a)%Z) /\
  (forall a : Retry.attempt,
     attempts !! 0%nat = Some a ->
     (Retry.waited a = None <-> (3000 <= now)%Z)) /\
  (now <= now')%Z /\
  (forall x : Retry.Response, r = Ok x -> Retry.ok x = true).
Proof.
  intros Hok Hrun. unfold Retry.fetchWithRetries in Hrun.
  destruct (RetryMore.loop_safe url env retries Hok _ _ _ _ _ _ _ Hrun)
    as (Hlen & Hsp & Hnow & Hres).
  split_and!; try done.
  - intros i a b Ha Hb.
    by destruct (RetryFacts.spaced_consecutive _ _ _ Hsp i a b Ha Hb).
  - intros a Ha. destruct attempts as [|a0 l]; [done|].
    injection Ha as ->. destruct Hsp as (_ & Hw & _).
    rewrite Hw. lia.
Qed.

Lemma fetchWithRetries_is_bounded_and_spaced_witness :
  (forall j, Retry.turn_ok (failing_endpoint j)) /\
  exists r attempts now',
    Retry.fetchWithRetries "https://unpkg.com/react@16.8.0/?meta"
      failing_endpoint 2 1600000000000 = (r, attempts, now') /\
    (length attempts <= 2)%nat.
Proof.
  assert (Hok : forall j, Retry.turn_ok (failing_endpoint j))
    by (intros j; unfold Retry.turn_ok; simpl; lia).
  split; [exact Hok|].
  destruct (Retry.fetchWithRetries "https://unpkg.com/react@16.8.0/?meta"
              failing_endpoint 2 1600000000000) as [[r l] now'] eqn:E.
  exists r, l, now'. split; [reflexivity|].
  exact (proj1 (fetchWithRetries_is_bounded_and_spaced _ _ _ _ _ _ _ Hok E)).
Defined.

(** X2 — when the first [k] attempts fail and the next one is answered
    with a response that is [ok], with [k] below [retries],
    [fetchWithRetries] returns that response after exactly [k + 1]
    attempts: it does not try again. *)
Theorem fetchWithRetries_returns_first_success
  (url : string) (env : nat -> Retry.turn) (retries now : Z)
  (k : nat) (x : Retry.Response) :
  (Z.of_nat k < retries)%Z ->
  (forall j, (j < k)%nat -> Retry.fails url (env j)) ->
  Retry.fetched (env k) = Ok x -> Retry.ok x = true ->
  exists (attempts : list Retry.attempt) (now' : Z),
    Retry.fetchWithRetries url env retries now = (Ok x, attempts, now') /\
    length attempts = S k.
Proof.
  intros Hk Hfail Hx Hokx. unfold Retry.fetchWithRetries.
  apply (RetryMore.loop_succeeds url env retries k (Z.to_nat retries) 0);
    [lia | lia | intros j Hj; apply Hfail; lia |].
  change (0 + k)%nat with k. unfold Retry.doFetch. by rewrite Hx, Hokx.
Qed.

(** An endpoint that fails twice and then answers. *)
Lemma fetchWithRetries_returns_first_success_witness :
  let env := fun i : nat =>
    if (i <? 2)%nat then failing_endpoint i
    else Retry.mkTurn 0 0 0 100 (Ok (Retry.mkResponse true "{}")) in
  exists attempts now',
    Retry.fetchWithRetries "https://unpkg.com/react@16.8.0/?meta" env
      Retry.default_retries 1600000000000
    = (Ok (Retry.mkResponse true "{}"), attempts, now') /\
    length attempts = 3%nat.
Proof.
  intros env.
  apply (fetchWithRetries_returns_first_success
           "https://unpkg.com/react@16.8.0/?meta" env Retry.default_retries
           1600000000000%Z 2 (Retry.mkResponse true "{}")).
  - reflexivity.
  - intros j Hj. destruct j as [|[|j]]; [| |lia]; eexists; reflexivity.
  - reflexivity.
  - reflexivity.
Defined.

(** X3 — with [retries] at zero or below no attempt is made: the error
    [Could not fetch] is raised at once; with a positive [retries] there is
    always an attempt. *)
Theorem fetchWithRetries_without_retries
  (url : string) (env : nat -> Retry.turn) (retries now : Z) :
  ((retries <= 0)%Z ->
   Retry.fetchWithRetries url env retries now
   = (Throw (OtherError "Could not fetch"), [], now)) /\
  ((0 < retries)%Z ->
   snd (fst (Retry.fetchWithRetries url env retries now)) <> []).
Proof.
  unfold Retry.fetchWithRetries. split.
  - intros H. by replace (Z.to_nat retries) with 0%nat by lia.
  - intros H. destruct (Z.to_nat retries) as [|n] eqn:E; [lia|].
    cbn [Retry.loop].
    destruct (if (now - 0 <? 3000)%Z then _ else _) as [w now1].
    destruct (Retry.doFetch url (Retry.fetched (env 0%nat))); [done|].
    destruct (Z.of_nat 0 =? retries - 1)%Z; [done|].
    by destruct (Retry.loop url env retries n 1 _ _) as [[? ?] ?].
Qed.

Lemma fetchWithRetries_without_retries_witness :
  Retry.fetchWithRetries "https://unpkg.com/react@16.8.0/?meta"
    failing_endpoint 0 1600000000000
  = (Throw (OtherError "Could not fetch"), [], 1600000000000%Z).
Proof.
  apply (proj1 (fetchWithRetries_without_retries
                  "https://unpkg.com/react@16.8.0/?meta" failing_endpoint
                  0 1600000000000)). lia.
Defined.

(** ** Strings and URLs *)

Lemma length_append (a b : string) :
  String.length (a ++ b) = (String.length a + String.length b)%nat.
Proof.
  induction a as [|c a IH]; [done|].
  change (S (String.length (a ++ b)) = S (String.length a + String.length b)).
  by rewrite IH.
Qed.

Lemma no_line_terminator_app (a b : string) :
  Url.no_line_terminator (a ++ b)
  = Url.no_line_terminator a && Url.no_line_terminator b.
Proof.
  induction a as [|c a IH]; [done|].
  change (negb (Regex.is_line_terminator c) && Url.no_line_terminator (a ++ b)
          = negb (Regex.is_line_terminator c) && Url.no_line_terminator a
            && Url.no_line_terminator b).
  by rewrite IH, andb_assoc.
Qed.

Lemma line_prefix_whole (s : string) :
  Url.no_line_terminator s = true -> Regex.line_prefix s = s.
Proof.
  induction s as [|c s IH]; [done|]. cbn [Url.no_line_terminator Regex.line_prefix].
  intros [Hc Hs]%andb_true_iff. apply negb_true_iff in Hc.
  by rewrite Hc, (IH Hs).
Qed.

Lemma split_last_at_alias (a b : string) :
  Url.no_line_terminator a = true -> Url.no_line_terminator b = true ->
  b <> "" -> Regex.occurs "@" b = false ->
  Regex.split_last_at (a ++ "@" ++ b) = Some (a, b).
Proof.
  intros Ha Hb Hne Hat. induction a as [|c a IH].
  - change ("" ++ "@" ++ b) with (String "@" b). cbn [Regex.split_last_at].
    rewrite (split_last_at_without_at _ Hat), (line_prefix_whole _ Hb).
    change (Regex.is_line_terminator "@") with false.
    rewrite Ascii.eqb_refl. by destruct b.
  - cbn [Url.no_line_terminator] in Ha.
    apply andb_true_iff in Ha as [Hc Ha]. apply negb_true_iff in Hc.
    change (String c a ++ "@" ++ b) with (String c (a ++ "@" ++ b)).
    cbn [Regex.split_last_at]. by rewrite Hc, (IH Ha).
Qed.

(** X4 — an alias [npm:<name>@<version>] resolves to that name and
    version, whatever the alias is called: the name may contain [@] (a
    scoped package), the version may not; a version that does not start
    with [npm:] is returned with the name as they are. *)
Theorem resolveNPMAlias_splits_alias (name a b : string) :
  (a <> "" -> b <> "" ->
   Url.no_line_terminator a = true -> Url.no_line_terminator b = true ->
   Regex.occurs "@" b = false ->
   resolveNPMAlias name ("npm:" ++ a ++ "@" ++ b) = Ok (a, b)) /\
  (Regex.starts_with "npm:" b = false ->
   resolveNPMAlias name b = Ok (name, b)).
Proof.
  split.
  - intros Hna Hnb Ha Hb Hat. unfold resolveNPMAlias, Regex.match_alias.
    rewrite (starts_with_app "npm:" (a ++ "@" ++ b)).
    change (Regex.drop 4 ("npm:" ++ a ++ "@" ++ b)) with (a ++ "@" ++ b).
    rewrite (split_last_at_alias a b Ha Hb Hnb Hat). by destruct a.
  - intros H. unfold resolveNPMAlias. by rewrite H.
Qed.

Lemma resolveNPMAlias_splits_alias_witness :
  resolveNPMAlias "ui" "npm:@scope/ui@1.0.0" = Ok ("@scope/ui", "1.0.0") /\
  resolveNPMAlias "react" "^16.8.0" = Ok ("react", "^16.8.0").
Proof.
  split.
  - by apply (proj1 (resolveNPMAlias_splits_alias "ui" "@scope/ui" "1.0.0")).
  - by apply (proj2 (resolveNPMAlias_splits_alias "react" "" "^16.8.0")).
Defined.

(** *** GitHub versions *)

Lemma strip_git_suffix (repo : string) : Url.strip_git (repo ++ ".git") = repo.
Proof.
  induction repo as [|c repo IH]; [done|].
  change (String c repo ++ ".git") with (String c (repo ++ ".git")).
  cbn [Url.strip_git].
  destruct (String.eqb_spec (String c (repo ++ ".git")) ".git") as [E|_].
  - apply (f_equal String.length) in E.
    change (S (String.length (repo ++ ".git")) = 4%nat) in E.
    rewrite length_append in E. simpl in E. lia.
  - by rewrite IH.
Qed.

Lemma match_github_none (v : string) :
  Regex.occurs "https://github.com/" v = false -> Url.match_github v = None.
Proof.
  induction v as [|c v IH]; [done|]. cbn [Regex.occurs Url.match_github].
  intros [H1 H2]%orb_false_iff. by rewrite H1, (IH H2).
Qed.

Lemma match_github_front (rest : string) :
  Url.no_line_terminator rest = true ->
  Url.match_github ("https://github.com/" ++ rest) = Some rest.
Proof.
  intros H.
  change ("https://github.com/" ++ rest)
    with (String "h" ("ttps://github.com/" ++ rest)).
  cbn [Url.match_github].
  change (String "h" ("ttps://github.com/" ++ rest))
    with ("https://github.com/" ++ rest).
  rewrite starts_with_app.
  change (Regex.drop 19 ("https://github.com/" ++ rest)) with rest.
  by rewrite H.
Qed.

Lemma convertGitHubURLToVersion_git (repo : string) :
  Url.no_line_terminator repo = true ->
  Url.convertGitHubURLToVersion ("https://github.com/" ++ repo ++ ".git")
  = repo.
Proof.
  intros H. unfold Url.convertGitHubURLToVersion.
  rewrite match_github_front by (by rewrite no_line_terminator_app, H).
  destruct (repo ++ ".git") eqn:E; [by destruct repo|].
  rewrite <- E. apply strip_git_suffix.
Qed.

Lemma convertGitHubURLToVersion_other (v : string) :
  Regex.occurs "https://github.com/" v = false ->
  Url.convertGitHubURLToVersion v = v.
Proof.
  intros H. unfold Url.convertGitHubURLToVersion.
  by rewrite (match_github_none _ H).
Qed.

(** X5 — [convertGitHubURLToVersion] turns
    [https://github.com/<repo>.git] into [<repo>] when the text [<repo>]
    holds no line terminator (the [.] of the pattern does not pass one),
    and returns every version in which [https://github.com/] does not
    occur, such as a slug [user/repo], as it is. *)
Theorem convertGitHubURLToVersion_slug (repo v : string) :
  (Url.no_line_terminator repo = true ->
   Url.convertGitHubURLToVersion ("https://github.com/" ++ repo ++ ".git")
   = repo) /\
  (Regex.occurs "https://github.com/" v = false ->
   Url.convertGitHubURLToVersion v = v).
Proof.
  split; [apply convertGitHubURLToVersion_git
         | apply convertGitHubURLToVersion_other].
Qed.

Lemma convertGitHubURLToVersion_slug_witness :
  Url.convertGitHubURLToVersion "https://github.com/user/repo.git"
  = "user/repo" /\
  Url.convertGitHubURLToVersion "user/repo" = "user/repo".
Proof.
  split.
  - by apply (proj1 (convertGitHubURLToVersion_slug "user/repo" "")).
  - by apply (proj2 (convertGitHubURLToVersion_slug "" "user/repo")).
Defined.

(** X6 — a repository given by its URL and the same repository given as
    a slug are fetched from the same places: the file URL, the URL for the
    latest commit and the metadata URL of the GitHub backend coincide; the
    package name plays no part in them. *)
Theorem github_url_and_slug_coincide
  (repo name name' path sha : string) :
  Url.no_line_terminator repo = true ->
  Regex.occurs "https://github.com/" repo = false ->
  let url := "https://github.com/" ++ repo ++ ".git" in
  Url.file jsDelivrGH name url path = Url.file jsDelivrGH name' repo path /\
  Url.commits url = Url.commits repo /\
  Url.meta jsDelivrGH name url sha = Url.meta jsDelivrGH name' repo sha /\
  Url.file jsDelivrGH name repo path
  = "https://cdn.jsdelivr.net/gh/" ++ repo ++ path.
Proof.
  intros Hlt Hocc url. unfold Url.file, Url.commits, Url.meta. subst url.
  by rewrite (convertGitHubURLToVersion_git _ Hlt),
             (convertGitHubURLToVersion_other _ Hocc).
Qed.

Lemma github_url_and_slug_coincide_witness :
  Url.file jsDelivrGH "repo" "https://github.com/user/repo.git" "/index.js"
  = Url.file jsDelivrGH "other" "user/repo" "/index.js".
Proof.
  by apply (github_url_and_slug_coincide "user/repo" "repo" "other"
                                         "/index.js" "").
Defined.

(** *** Draft versions *)

Lemma is_pkg_tgz_length (lead : ascii) (s : string) :
  Url.is_pkg_tgz lead s = true -> String.length s = 9%nat.
Proof.
  unfold Url.is_pkg_tgz.
  do 9 (destruct s as [|? s]; [done|]). by destruct s.
Qed.

Lemma strip_pkg_tgz_other (lead : ascii) (base tail : string) :
  String.length tail = 9%nat -> Url.is_pkg_tgz lead tail = false ->
  Url.strip_pkg_tgz lead (base ++ tail) = base ++ tail.
Proof.
  intros Hlen Hno. induction base as [|c base IH].
  - change ("" ++ tail) with tail. destruct tail as [|c tail]; [done|].
    cbn [Url.strip_pkg_tgz]. rewrite Hno. f_equal.
    clear Hno. revert Hlen. simpl. intros [= Hlen].
    assert (Hshort : forall t, (String.length t < 9)%nat ->
                               Url.strip_pkg_tgz lead t = t).
    { clear. intros t. induction t as [|d t IHt]; [done|]. intros Hl.
      cbn [Url.strip_pkg_tgz].
      destruct (Url.is_pkg_tgz lead (String d t)) eqn:E.
      - apply is_pkg_tgz_length in E. lia.
      - rewrite IHt; [done|]. simpl in Hl. lia. }
    apply Hshort. lia.
  - change (String c base ++ tail) with (String c (base ++ tail)).
    cbn [Url.strip_pkg_tgz].
    destruct (Url.is_pkg_tgz lead (String c (base ++ tail))) eqn:E.
    + apply is_pkg_tgz_length in E. simpl in E. rewrite length_append in E. lia.
    + by rewrite IH.
Qed.

Lemma strip_pkg_tgz_suffix (lead : ascii) (base tail : string) :
  Url.is_pkg_tgz lead tail = true ->
  Url.strip_pkg_tgz lead (base ++ tail) = base.
Proof.
  intros Hyes. pose proof (is_pkg_tgz_length _ _ Hyes) as Hlen.
  induction base as [|c base IH].
  - change ("" ++ tail) with tail. destruct tail; [done|].
    cbn [Url.strip_pkg_tgz]. by rewrite Hyes.
  - change (String c base ++ tail) with (String c (base ++ tail)).
    cbn [Url.strip_pkg_tgz].
    destruct (Url.is_pkg_tgz lead (String c (base ++ tail))) eqn:E.
    + apply is_pkg_tgz_length in E. simpl in E. rewrite length_append in E. lia.
    + by rewrite IH.
Qed.

(** X7 — for a draft version that ends in [/_pkg.tgz], the file URL is
    built on the version without that ending, while the metadata URL keeps
    it: the pattern of [csbGH.meta] removes the ending [/.pkg.tgz]
    instead. *)
Theorem draft_urls_of_archive (name base path resolved : string) :
  Url.file csbGH name (base ++ "/_pkg.tgz") path = base ++ path /\
  Url.meta csbGH name (base ++ "/_pkg.tgz") resolved
  = base ++ "/_pkg.tgz/_csb-meta.json" /\
  Url.meta csbGH name (base ++ "/.pkg.tgz") resolved
  = base ++ "/_csb-meta.json".
Proof.
  unfold Url.file, Url.meta. split_and!.
  - by rewrite (strip_pkg_tgz_suffix "_" base "/_pkg.tgz").
  - rewrite (strip_pkg_tgz_other "." base "/_pkg.tgz") by done.
    induction base as [|c base IH]; [done|].
    change ((String c base ++ "/_pkg.tgz") ++ "/_csb-meta.json")
      with (String c ((base ++ "/_pkg.tgz") ++ "/_csb-meta.json")).
    by rewrite IH.
  - by rewrite (strip_pkg_tgz_suffix "." base "/.pkg.tgz").
Qed.

(** *** Paths of nested dependencies and aliased names *)

Lemma after_last_node_modules_none (s : string) :
  Regex.occurs "/node_modules/" s = false ->
  Regex.after_last_node_modules s = None.
Proof.
  induction s as [|c s IH]; [done|].
  cbn [Regex.occurs Regex.after_last_node_modules].
  intros [H1 H2]%orb_false_iff. rewrite (IH H2), H1.
  by destruct (Regex.is_line_terminator c).
Qed.

Lemma strip_node_modules_none (s : string) :
  Regex.occurs "/node_modules/" s = false -> Regex.strip_node_modules s = s.
Proof.
  induction s as [|c s IH]; [done|]. intros H.
  cbn [Regex.strip_node_modules].
  rewrite (after_last_node_modules_none _ H).
  cbn [Regex.occurs] in H. apply orb_false_iff in H as [_ H].
  by rewrite (IH H).
Qed.

Lemma after_last_node_modules_app (a b : string) :
  Url.no_line_terminator a = true ->
  Regex.occurs "/node_modules/" ("/" ++ b) = false ->
  Regex.after_last_node_modules (a ++ "/node_modules/" ++ b) = Some b.
Proof.
  intros Ha Hb. induction a as [|c a IH].
  - change ("" ++ "/node_modules/" ++ b)
      with (String "/" ("node_modules/" ++ b)).
    cbn [Regex.after_last_node_modules].
    change (Regex.is_line_terminator "/") with false. cbn iota.
    rewrite after_last_node_modules_none by exact Hb.
    change (String "/" ("node_modules/" ++ b)) with ("/node_modules/" ++ b).
    by rewrite starts_with_app.
  - cbn [Url.no_line_terminator] in Ha.
    apply andb_true_iff in Ha as [Hc Ha]. apply negb_true_iff in Hc.
    change (String c a ++ "/node_modules/" ++ b)
      with (String c (a ++ "/node_modules/" ++ b)).
    cbn [Regex.after_last_node_modules]. by rewrite Hc, (IH Ha).
Qed.

(** X8 — the path handed to [getDependencyName] is what follows the last
    [/node_modules/] of the request: of
    [<outer>/node_modules/<inner>] it is [<inner>], however many
    [/node_modules/] the outer part holds, when [<outer>] holds no line
    terminator (the [.] of the pattern does not pass one) and [<inner>]
    has no further [/node_modules/] (also not with the last slash of the
    cut: it does not start with [node_modules/]); a path without
    [/node_modules/] is kept as it is. *)
Theorem strip_node_modules_keeps_inner_path (outer inner : string) :
  (Url.no_line_terminator outer = true ->
   Regex.occurs "/node_modules/" ("/" ++ inner) = false ->
   Regex.strip_node_modules (outer ++ "/node_modules/" ++ inner) = inner) /\
  (Regex.occurs "/node_modules/" inner = false ->
   Regex.strip_node_modules inner = inner).
Proof.
  split; [|apply strip_node_modules_none].
  intros Ha Hb. pose proof (after_last_node_modules_app _ _ Ha Hb) as H.
  destruct (outer ++ "/node_modules/" ++ inner) eqn:E;
    [by destruct outer|].
  cbn [Regex.strip_node_modules]. by rewrite H.
Qed.

Lemma strip_node_modules_keeps_inner_path_witness :
  Regex.strip_node_modules
    "instantsearch.js/node_modules/lodash/sum.js" = "lodash/sum.js" /\
  Regex.strip_node_modules "lodash/sum.js" = "lodash/sum.js".
Proof.
  split.
  - by apply (proj1 (strip_node_modules_keeps_inner_path
                       "instantsearch.js" "lodash/sum.js")).
  - by apply (proj2 (strip_node_modules_keeps_inner_path "" "lodash/sum.js")).
Defined.

Lemma skip_digits_dot (d rest : string) :
  all_digits d = true ->
  Regex.skip_dot (Regex.skip_digits (d ++ "." ++ rest)) = Some rest.
Proof.
  induction d as [|c d IH]; [done|]. cbn [all_digits].
  intros [Hc Hd]%andb_true_iff.
  change (String c d ++ "." ++ rest) with (String c (d ++ "." ++ rest)).
  cbn [Regex.skip_digits]. rewrite Hc. by apply IH.
Qed.

Lemma skip_to_end (s : string) :
  plain_tail s = true ->
  Regex.skip_to_slash_or_end (Regex.skip_digits s) = Some "".
Proof.
  assert (H : forall t, plain_tail t = true ->
                        Regex.skip_to_slash_or_end t = Some "").
  { induction t as [|c t IH]; [done|]. cbn [plain_tail].
    intros [[H1 H2]%andb_true_iff H3]%andb_true_iff.
    apply negb_true_iff in H1, H2. cbn [Regex.skip_to_slash_or_end].
    by rewrite H1, H2, (IH H3). }
  induction s as [|c s IH]; [done|]. intros Hs. cbn [Regex.skip_digits].
  destruct (Regex.is_digit c); [|by apply H].
  apply IH. cbn [plain_tail] in Hs. by apply andb_true_iff in Hs as [_ ?].
Qed.

Lemma strip_alias_version_none (s : string) :
  Regex.occurs "/" s = false -> Regex.strip_alias_version s = s.
Proof.
  induction s as [|c s IH]; [done|]. cbn [Regex.occurs Regex.starts_with].
  intros [H1 H2]%orb_false_iff. rewrite andb_true_r in H1.
  cbn [Regex.strip_alias_version Regex.match_alias_version].
  rewrite Ascii.eqb_sym in H1. by rewrite H1, (IH H2).
Qed.

(** X9 — the name under which a request is sent is the alias without
    its version: of [<name>/<major>.<minor>.<rest>] it is [<name>], for a
    name without a slash, and a name without a slash is kept as it is. *)
Theorem strip_alias_version_keeps_name (name major minor rest : string) :
  Regex.occurs "/" name = false ->
  (all_digits major = true -> all_digits minor = true ->
   plain_tail rest = true ->
   Regex.strip_alias_version
     (name ++ "/" ++ major ++ "." ++ minor ++ "." ++ rest) = name) /\
  Regex.strip_alias_version name = name.
Proof.
  intros Hname. split; [|by apply strip_alias_version_none].
  intros H1 H2 H3. induction name as [|c name IH].
  - change ("" ++ "/" ++ major ++ "." ++ minor ++ "." ++ rest)
      with (String "/" (major ++ "." ++ minor ++ "." ++ rest)).
    cbn [Regex.strip_alias_version Regex.match_alias_version].
    rewrite Ascii.eqb_refl, (skip_digits_dot _ _ H1),
            (skip_digits_dot _ _ H2), (skip_to_end _ H3). done.
  - cbn [Regex.occurs Regex.starts_with] in Hname.
    apply orb_false_iff in Hname as [Hc Hname]. rewrite andb_true_r in Hc.
    rewrite Ascii.eqb_sym in Hc.
    change (String c name ++ "/" ++ major ++ "." ++ minor ++ "." ++ rest)
      with (String c (name ++ "/" ++ major ++ "."
                           ++ minor ++ "." ++ rest)).
    cbn [Regex.strip_alias_version Regex.match_alias_version].
    by rewrite Hc, (IH Hname).
Qed.

Lemma strip_alias_version_keeps_name_witness :
  Regex.strip_alias_version "test/1.3.0" = "test".
Proof.
  by apply (proj1 (strip_alias_version_keeps_name "test" "1" "3" "0" eq_refl)).
Defined.

(** ** More on the caches *)

Section CacheMore.

Variable CSB_PKG_PROTOCOL : string -> bool.
Variable json_version : string -> result (option string).
Variable join : list string -> string.
Variable RegExp_replace : string -> string -> result string.

#[local] Abbreviation downloadDependency' :=
  (downloadDependency CSB_PKG_PROTOCOL join RegExp_replace).
#[local] Abbreviation getMeta' :=
  (getMeta CSB_PKG_PROTOCOL join RegExp_replace).
#[local] Abbreviation start_meta' :=
  (start_meta CSB_PKG_PROTOCOL join RegExp_replace).
#[local] Abbreviation step' :=
  (step CSB_PKG_PROTOCOL json_version join RegExp_replace).
#[local] Abbreviation run' :=
  (run CSB_PKG_PROTOCOL json_version join RegExp_replace).

(** *** A rejected promise is never in [metas] *)

Lemma metas_live_ext (st st' : Store) :
  metas st' = metas st /\ meta_promises st' = meta_promises st ->
  metas_live st -> metas_live st'.
Proof. intros [Hm Hp] H id h. rewrite Hm, Hp. apply H. Qed.

Lemma metas_live_fail h t e st :
  meta_promises st !! h = Some (Pending t) ->
  metas_live st -> metas_live (fail_meta h t e st).
Proof.
  intros Hh H id h'. unfold fail_meta; simpl.
  destruct (decide (id = mt_id t)) as [->|Hne];
    [by rewrite lookup_delete_eq|].
  rewrite lookup_delete_ne by done. intros Hid.
  assert (h' <> h) as Hh'.
  { intros ->. destruct (H _ _ Hid) as [(t' & Ht' & <-)|(doc & Hdoc)];
      congruence. }
  rewrite list_lookup_insert_ne by done. by apply H.
Qed.

Lemma metas_live_advance h t stage st :
  meta_promises st !! h = Some (Pending t) ->
  metas_live st -> metas_live (advance_meta h t stage st).
Proof.
  intros Hh H id h' Hid. unfold advance_meta in *; simpl in *.
  destruct (decide (h' = h)) as [->|Hne].
  - rewrite list_lookup_insert_eq by (by eapply lookup_lt_Some).
    left. eexists. split; [done|]. simpl.
    destruct (H _ _ Hid) as [(t' & Ht' & <-)|(doc & Hdoc)]; congruence.
  - rewrite list_lookup_insert_ne by done. by apply H.
Qed.

Lemma metas_live_fulfil h t doc st :
  meta_promises st !! h = Some (Pending t) ->
  metas_live st -> metas_live (set_meta_promises <[h := Fulfilled doc]> st).
Proof.
  intros Hh H id h' Hid. simpl in *.
  destruct (decide (h' = h)) as [->|Hne].
  - rewrite list_lookup_insert_eq by (by eapply lookup_lt_Some).
    right. by eexists.
  - rewrite list_lookup_insert_ne by done. by apply H.
Qed.

Lemma metas_live_getMeta name pj version fb st :
  metas_live st -> metas_live (snd (getMeta' name pj version fb st)).
Proof.
  intros H.
  destruct (resolveNPMAlias name version) as [[depName depVersion]|e] eqn:Ha;
    [|by unfold getMeta; rewrite Ha].
  destruct (metas st !! meta_id pj depName depVersion) as [h|] eqn:Hm.
  - by rewrite (getMeta_hit _ _ _ _ _ _ _ _ _ _ _ Ha Hm).
  - destruct (getMeta_miss CSB_PKG_PROTOCOL join RegExp_replace
                _ _ _ fb _ _ _ Ha Hm)
      as (st' & t & -> & Hms & Hps & Hid).
    simpl. intros id h'. rewrite Hms, Hps.
    destruct (decide (id = meta_id pj depName depVersion)) as [->|Hne].
    + rewrite lookup_insert_eq. intros [= <-]. left. exists t.
      by rewrite list_lookup_middle.
    + rewrite lookup_insert_ne by done. intros Hid'.
      destruct (H _ _ Hid') as [(t' & Ht' & Hk)|(doc & Hdoc)];
        [left; exists t'|right; exists doc];
        rewrite lookup_app_l by (by eapply lookup_lt_Some); done.
Qed.

Lemma metas_live_step ev st : metas_live st -> metas_live (step' ev st).
Proof.
  intros H. destruct ev as [n pj v fb|n v p|h0 r|h0|h0 r|h0 r]; simpl.
  - by apply metas_live_getMeta.
  - eapply metas_live_ext; [apply downloadDependency_metas | done].
  - eapply metas_live_ext; [apply settle_file_metas | done].
  - unfold resume_meta.
    destruct (meta_promises st !! h0) as [[t| |]|] eqn:Hh; try done.
    destruct (mt_stage t) as [[d|e]| |]; try done;
      [|by apply metas_live_fail].
    destruct (package_promises st !! d) as [[?|m|?]|]; try done;
      [|by apply metas_live_fail].
    destruct (json_version (m_code m)); [|by apply metas_live_fail].
    apply metas_live_advance; [done|]. by eapply metas_live_ext.
  - unfold settle_sha.
    destruct (meta_promises st !! h0) as [[t| |]|] eqn:Hh; try done.
    destruct (mt_stage t), r; try done; [|by apply metas_live_fail].
    apply metas_live_advance; [done|]. by eapply metas_live_ext.
  - unfold settle_meta.
    destruct (meta_promises st !! h0) as [[t| |]|] eqn:Hh; try done.
    destruct (mt_stage t), r; try done; [|by apply metas_live_fail].
    by eapply metas_live_fulfil.
Qed.

Lemma metas_live_run evs st : metas_live st -> metas_live (run' evs st).
Proof.
  revert st. induction evs as [|ev evs IH]; intros st H; [done|].
  simpl. apply IH. by apply metas_live_step.
Qed.

(** X10 — the metadata cache never serves a failure: after any sequence
    of calls and settlements, the promise that [metas] holds for a key is
    the chain of that key, still running, or a fulfilled promise; so a
    call of [getMeta] that finds its key in the cache never returns a
    rejected promise. *)
Theorem cached_metadata_is_never_rejected (evs : list event)
  (name : string) (pj : option string) (version : string) (fb : bool)
  (depName depVersion : string) (h : handle) :
  let st := run' evs empty_store in
  resolveNPMAlias name version = Ok (depName, depVersion) ->
  metas st !! meta_id pj depName depVersion = Some h ->
  getMeta' name pj version fb st = (Ok h, st) /\
  ((exists t, meta_promises st !! h = Some (Pending t) /\
              mt_id t = meta_id pj depName depVersion) \/
   (exists doc, meta_promises st !! h = Some (Fulfilled doc))) /\
  (forall e, meta_promises st !! h <> Some (Rejected e)).
Proof.
  intros st Ha Hm.
  assert (Hlive : metas_live st).
  { apply metas_live_run. intros id h'. simpl. by rewrite lookup_empty. }
  pose proof (Hlive _ _ Hm) as Hh.
  split_and!; [by eapply getMeta_hit|done|].
  intros e He. destruct Hh as [(t & Ht & _)|(doc & Hdoc)]; congruence.
Qed.

(** *** Aliases *)


(** *** The outcome of a download *)






Lemma settle_file_pending h r st t :
  package_promises st !! h = Some (Pending t) ->
  package_promises (settle_file CSB_PKG_PROTOCOL h r st) !! h
  = Some (match r, ft_stage t with
          | Ok x, _ => Fulfilled (mkModule (ft_path t) x None None (Some true))
          | Throw _, Primary =>
              Pending (mkFileTask (ft_name t) (ft_version t)
                                  (ft_relativePath t) (ft_path t) Fallback)
          | Throw e, Fallback => Rejected e
          end).
Proof.
  intros H. assert (Hlt : h < length (package_promises st))
    by (by eapply lookup_lt_Some).
  unfold settle_file. rewrite H.
  destruct r, (ft_stage t); simpl; by rewrite list_lookup_insert_eq.
Qed.



End CacheMore.

Lemma cached_metadata_is_never_rejected_witness :
  let st := run draft_pattern sample_json_version Posix.join
                sample_RegExp_replace
                [CallGetMeta "react" None "16.8.0" false;
                 MetaSettled 0 (Throw (NetworkError "Could not fetch"));
                 CallGetMeta "react" None "16.8.0" true] empty_store in
  metas st !! "react@16.8.0" = Some 1%nat /\
  forall e, meta_promises st !! 1%nat <> Some (Rejected e).
Proof.
  intros st. split; [reflexivity|].
  apply (cached_metadata_is_never_rejected draft_pattern sample_json_version
           Posix.join sample_RegExp_replace
           [CallGetMeta "react" None "16.8.0" false;
            MetaSettled 0 (Throw (NetworkError "Could not fetch"));
            CallGetMeta "react" None "16.8.0" true]
           "react" None "16.8.0" false "react" "16.8.0" 1%nat);
    reflexivity.
Defined.




(** ** The metadata of a tag *)

Section TagVersions.

Variable CSB_PKG_PROTOCOL : string -> bool.
Variable json_version : string -> result (option string).
Variable join : list string -> string.
Variable RegExp_replace : string -> string -> result string.

#[local] Abbreviation run' :=
  (run CSB_PKG_PROTOCOL json_version join RegExp_replace).

(** [getMeta] for a version of the registry that does not start with a
    digit: the chain waits for [downloadDependency] of the manifest of the
    package. *)
Lemma getMeta_tag name pj version st depName depVersion :
  resolveNPMAlias name version = Ok (depName, depVersion) ->
  metas st !! meta_id pj depName depVersion = None ->
  CSB_PKG_PROTOCOL depVersion = false ->
  Regex.occurs "/" depVersion = false ->
  Regex.starts_with_digit depVersion = false ->
  let name' := Regex.strip_alias_version depName in
  let manifest :=
    downloadDependency CSB_PKG_PROTOCOL join RegExp_replace
      name' depVersion "/package.json" st in
  getMeta CSB_PKG_PROTOCOL join RegExp_replace name pj version false st
  = (Ok (length (meta_promises st)),
     set_metas <[meta_id pj depName depVersion := length (meta_promises st)]>
       (set_meta_promises
          (fun l => (l ++ [Pending (mkMetaTask (meta_id pj depName depVersion)
                                      jsDelivrNPM name' depVersion
                                      (AwaitPackageJson (fst manifest)))])%list)
          (snd manifest))).
Proof.
  intros Ha Hm Hcsb Hslash Hdigit name' manifest.
  pose proof (downloadDependency_metas CSB_PKG_PROTOCOL join RegExp_replace
                name' depVersion "/package.json" st) as [_ Hmp].
  fold manifest in Hmp.
  unfold getMeta; cbv zeta. rewrite Ha, Hm.
  unfold getFetchProtocol. rewrite Hcsb, Hslash.
  unfold start_meta. rewrite Hdigit. fold name' manifest.
  destruct manifest as [r st0]. simpl in *. by rewrite Hmp.
Qed.

(** X14 — for a version of the registry that is a tag (it does not
    start with a digit), the metadata request waits for the manifest of
    the package: [getMeta] first calls [downloadDependency] for
    [/package.json].  When that starts a download (the manifest is not in
    [packages] and [new RegExp] accepts the pattern built from the name),
    the metadata is asked for the [version] the manifest declares, with
    [undefined] in the URL when it declares none; when the manifest does
    not parse, the chain fails with the error of the parser and its entry
    leaves [metas], without a metadata request.  When [new RegExp] throws,
    nothing is requested at all, and the chain fails with that error. *)
Theorem tag_version_is_read_from_manifest
  (name version depName depVersion code : string) (pj : option string)
  (st : Store) :
  resolveNPMAlias name version = Ok (depName, depVersion) ->
  metas st !! meta_id pj depName depVersion = None ->
  CSB_PKG_PROTOCOL depVersion = false ->
  Regex.occurs "/" depVersion = false ->
  Regex.starts_with_digit depVersion = false ->
  Regex.starts_with "npm:" depVersion = false ->
  let name' := Regex.strip_alias_version depName in
  packages st !! package_id name' depVersion "/package.json" = None ->
  let h := length (meta_promises st) in
  let d := length (package_promises st) in
  let st1 := run' [CallGetMeta name pj version false] st in
  match relativePath join RegExp_replace name' "/package.json" with
  | Ok relative =>
      let st3 := run' [FileSettled d (Ok code); ManifestAwaited h] st1 in
      let manifest :=
        FileRequest jsDelivrNPM (Regex.strip_alias_version name') depVersion
                    relative in
      requests st1 = (requests st ++ [manifest])%list /\
      match json_version code with
      | Ok latestVersion =>
          let asked := MetaRequest jsDelivrNPM name' depVersion
                         (Some (default "undefined" latestVersion)) in
          requests st3 = (requests st ++ [manifest; asked])%list /\
          Url.of_request asked
          = Some ("https://data.jsdelivr.com/v1/package/npm/" ++ name' ++ "@"
                  ++ default "undefined" latestVersion ++ "/flat") /\
          metas st3 !! meta_id pj depName depVersion = Some h
      | Throw e =>
          requests st3 = (requests st ++ [manifest])%list /\
          meta_promises st3 !! h = Some (Rejected e) /\
          metas st3 !! meta_id pj depName depVersion = None
      end
  | Throw e =>
      let st2 := run' [ManifestAwaited h] st1 in
      requests st1 = requests st /\
      packages st1 = packages st /\
      requests st2 = requests st /\
      meta_promises st2 !! h = Some (Rejected e) /\
      metas st2 !! meta_id pj depName depVersion = None
  end.
Proof.
  intros Ha Hm Hcsb Hslash Hdigit Hnpm name' Hp h d st1.
  assert (Ha' : resolveNPMAlias name' depVersion = Ok (name', depVersion))
    by (unfold resolveNPMAlias; by rewrite Hnpm).
  pose proof (downloadDependency_outcome CSB_PKG_PROTOCOL join RegExp_replace
                name' depVersion "/package.json" st _ _ Ha') as Hout.
  rewrite Hp in Hout.
  assert (Hst1 : st1 = snd (getMeta CSB_PKG_PROTOCOL join RegExp_replace
                              name pj version false st)) by done.
  rewrite (getMeta_tag _ _ _ _ _ _ Ha Hm Hcsb Hslash Hdigit) in Hst1.
  fold name' h in Hst1. cbn [snd] in Hst1.
  destruct (relativePath join RegExp_replace name' "/package.json")
    as [relative|e].
  - destruct Hout as (s0 & Hcall & Hpk & Hpp & Hrq & Hms & Hmp).
    rewrite Hcall in Hst1. cbn [fst snd] in Hst1. fold d in Hst1.
    assert (Hd : package_promises st1 !! d
                 = Some (Pending (mkFileTask (Regex.strip_alias_version name')
                                    depVersion relative "/package.json"
                                    Primary)))
      by (rewrite Hst1; simpl; rewrite Hpp; by apply list_lookup_middle).
    assert (Hh : meta_promises st1 !! h
                 = Some (Pending (mkMetaTask (meta_id pj depName depVersion)
                                    jsDelivrNPM name' depVersion
                                    (AwaitPackageJson (Ok d)))))
      by (rewrite Hst1; simpl; rewrite Hmp; by apply list_lookup_middle).
    assert (Hdlt : d < length (package_promises st1))
      by (by eapply lookup_lt_Some).
    assert (Hhlt : h < length (meta_promises st1))
      by (by eapply lookup_lt_Some).
    assert (Hrq1 : requests st1
                   = (requests st
                      ++ [FileRequest jsDelivrNPM
                            (Regex.strip_alias_version name') depVersion
                            relative])%list).
    { rewrite Hst1. simpl. rewrite Hrq. unfold getFetchProtocol.
      by rewrite Hcsb, Hslash. }
    assert (Hms1 : metas st1
                   = <[meta_id pj depName depVersion := h]> (metas st))
      by (rewrite Hst1; simpl; by rewrite Hms).
    split; [done|]. simpl.
    unfold settle_file. rewrite Hd. simpl.
    unfold resume_meta. simpl. rewrite Hh. simpl.
    rewrite list_lookup_insert_eq by done. simpl.
    destruct (json_version code) as [latestVersion|e]; simpl.
    + rewrite Hrq1, Hms1, <- app_assoc. split_and!; [done|done|].
      apply lookup_insert_eq.
    + rewrite Hrq1, Hms1. split_and!; [done| |].
      * by rewrite list_lookup_insert_eq.
      * apply lookup_delete_eq.
  - rewrite Hout in Hst1. cbn [fst snd] in Hst1.
    assert (Hh : meta_promises st1 !! h
                 = Some (Pending (mkMetaTask (meta_id pj depName depVersion)
                                    jsDelivrNPM name' depVersion
                                    (AwaitPackageJson (Throw e)))))
      by (rewrite Hst1; simpl; by apply list_lookup_middle).
    assert (Hhlt : h < length (meta_promises st1))
      by (by eapply lookup_lt_Some).
    split; [by rewrite Hst1|]. split; [by rewrite Hst1|].
    simpl. unfold resume_meta. rewrite Hh. simpl.
    split_and!.
    + by rewrite Hst1.
    + by rewrite list_lookup_insert_eq.
    + apply lookup_delete_eq.
Qed.

End TagVersions.

Lemma tag_version_is_read_from_manifest_witness :
  let st3 := run draft_pattern sample_json_version Posix.join
               sample_RegExp_replace
               [CallGetMeta "react" None "latest" false;
                FileSettled 0 (Ok manifest_16); ManifestAwaited 0]
               empty_store in
  requests st3
  = [FileRequest jsDelivrNPM "react" "latest" "/package.json";
     MetaRequest jsDelivrNPM "react" "latest" (Some "16.8.0")].
Proof.
  exact (proj1 (proj2
           (tag_version_is_read_from_manifest draft_pattern
              sample_json_version Posix.join sample_RegExp_replace
              "react" "latest" "react" "latest"
              manifest_16 None empty_store
              eq_refl eq_refl eq_refl eq_refl eq_refl eq_refl eq_refl))).
Defined.

(** ** What the normalisers add *)

Lemma add_paths_union (prefix : string -> string) (l : list string)
  (acc : Meta) :
  fold_left (add_path prefix) l acc = fold_left (add_path prefix) l ∅ ∪ acc.
Proof.
  apply map_eq. intros k. rewrite lookup_union, !add_paths_lookup.
  destruct (decide (k ∈ map prefix l)).
  - by destruct (acc !! k).
  - rewrite lookup_empty. by destruct (acc !! k).
Qed.

(** X15 — both normalisers only add to the object they are given: the
    result is the listing of the files merged over that object, so every
    path that was in it stays.  The paths [normalize] adds are exactly the
    root path followed by the path of an entry of type [file], at any
    depth of the listing, each with the value [true]; a directory is no
    entry of the result, and neither the order of the listing nor its
    nesting matters. *)
Theorem normalize_adds_the_files (join : list string -> string)
  (files files' : list MetaFile) (flat : list FlatFile) (acc : Meta)
  (rootPath k : string) :
  normalize files acc rootPath = normalize files ∅ rootPath ∪ acc /\
  normalizeJSDelivr join flat acc rootPath
  = normalizeJSDelivr join flat ∅ rootPath ∪ acc /\
  (normalize files ∅ rootPath !! k
   = if decide (k ∈ map (String.append rootPath) (file_paths files))
     then Some true else None) /\
  (normalizeJSDelivr join flat ∅ rootPath !! k
   = if decide (k ∈ map (fun p => join [rootPath; p]) (flat_names flat))
     then Some true else None) /\
  ((forall p, p ∈ file_paths files <-> p ∈ file_paths files') ->
   normalize files acc rootPath = normalize files' acc rootPath).
Proof.
  split_and!.
  - rewrite !normalize_fold. apply add_paths_union.
  - rewrite !normalizeJSDelivr_fold. apply add_paths_union.
  - by rewrite normalize_fold, add_paths_lookup, lookup_empty.
  - by rewrite normalizeJSDelivr_fold, add_paths_lookup, lookup_empty.
  - intros Hsame. apply map_eq. intros k'.
    rewrite !normalize_fold, !add_paths_lookup.
    assert (Hiff : k' ∈ map (String.append rootPath) (file_paths files)
                   <-> k' ∈ map (String.append rootPath) (file_paths files')).
    { rewrite !list_elem_of_fmap.
      split; intros (p & -> & Hp); exists p; (split; [done|by apply Hsame]). }
    destruct (decide (k' ∈ map (String.append rootPath) (file_paths files)));
      [rewrite decide_True | rewrite decide_False]; tauto.
Qed.

Lemma normalize_adds_the_files_witness :
  normalize [mkMetaFile "/lib" directory
               (Some [mkMetaFile "/lib/x.js" file None]);
             mkMetaFile "/index.js" file None] ∅ "/node_modules/pkg"
  = normalize [mkMetaFile "/index.js" file None;
               mkMetaFile "/lib/x.js" file None] ∅ "/node_modules/pkg".
Proof.
  apply (proj2 (proj2 (proj2 (proj2
           (normalize_adds_the_files Posix.join
              [mkMetaFile "/lib" directory
                 (Some [mkMetaFile "/lib/x.js" file None]);
               mkMetaFile "/index.js" file None]
              [mkMetaFile "/index.js" file None;
               mkMetaFile "/lib/x.js" file None] [] ∅
              "/node_modules/pkg" ""))))).
  intros p. unfold file_paths. simpl. rewrite !elem_of_cons. tauto.
Defined.

Lemma starts_with_app_l (p a s : string) :
  Regex.starts_with p a = true -> Regex.starts_with p (a ++ s) = true.
Proof.
  revert a. induction p as [|c p IH]; intros a; [done|].
  destruct a as [|d a]; [done|].
  change (String d a ++ s) with (String d (a ++ s)).
  cbn [Regex.starts_with]. intros [-> H]%andb_true_iff. by rewrite (IH _ H).
Qed.

Lemma occurs_app_l (p a s : string) :
  Regex.occurs p a = true -> Regex.occurs p (a ++ s) = true.
Proof.
  induction a as [|c a IH].
  - destruct p; [by destruct s|done].
  - change (String c a ++ s) with (String c (a ++ s)).
    cbn [Regex.occurs]. intros [H|H]%orb_true_iff.
    + pose proof (starts_with_app_l _ _ s H) as H'.
      change (String c a ++ s) with (String c (a ++ s)) in H'.
      by rewrite H'.
    + rewrite (IH H). apply orb_true_r.
Qed.

(** ** More on the orchestrator *)

Section ResolutionMore.

Variable CSB_PKG_PROTOCOL : string -> bool.
Variable json_version : string -> result (option string).
Variable join : list string -> string.
Variable dirname : string -> string.
Variable RegExp_replace : string -> string -> result string.
Variable getDependencyName : string -> string.
Variable resolve :
  string -> string -> list string -> list string -> resolution.
Variable network : Network.
Variable normalizeJSDelivr_of_tree :
  list MetaFile -> string -> result Meta.

#[local] Abbreviation resolvePath' :=
  (resolvePath CSB_PKG_PROTOCOL json_version join RegExp_replace
    getDependencyName resolve
               network).
#[local] Abbreviation getDependencyVersion' :=
  (getDependencyVersion CSB_PKG_PROTOCOL json_version join RegExp_replace
    getDependencyName
                        resolve network).
#[local] Abbreviation fetchModule' :=
  (fetchModule CSB_PKG_PROTOCOL json_version join dirname RegExp_replace
    getDependencyName
               resolve network normalizeJSDelivr_of_tree).
#[local] Abbreviation fetch_meta' :=
  (fetch_meta CSB_PKG_PROTOCOL json_version join RegExp_replace network).
#[local] Abbreviation fetch_meta_with_fallback' :=
  (fetch_meta_with_fallback CSB_PKG_PROTOCOL json_version join RegExp_replace
    network).

(** [await getMeta(...)] for a key that is absent, when the chain asks for
    the document at once: on the fallback backend, or for a version of the
    registry that starts with a digit. *)
Lemma fetch_meta_direct (name : string) (pj : option string) (v : string)
  (fb : bool) (w : World) (depName depVersion : string) :
  resolveNPMAlias name v = Ok (depName, depVersion) ->
  metas (store w) !! meta_id pj depName depVersion = None ->
  CSB_PKG_PROTOCOL depVersion = false ->
  Regex.occurs "/" depVersion = false ->
  fb = true \/ Regex.starts_with_digit depVersion = true ->
  let h := length (meta_promises (store w)) in
  let asked :=
    MetaRequest (if fb then unpkg else jsDelivrNPM)
      (Regex.strip_alias_version depName) depVersion
      (if fb then None else Some depVersion) in
  exists w',
    fetch_meta' name pj (Some v) fb w = Some (meta_response network h, w') /\
    manager w' = manager w /\
    requests (store w') = (requests (store w) ++ [asked])%list /\
    length (meta_promises (store w')) = S h /\
    metas (store w')
    = match meta_response network h with
      | Ok _ => <[meta_id pj depName depVersion := h]> (metas (store w))
      | Throw _ => metas (store w)
      end.
Proof.
  intros Ha Hm Hcsb Hslash Hfb h asked.
  assert (Hstart :
    start_meta CSB_PKG_PROTOCOL join RegExp_replace
      (getFetchProtocol CSB_PKG_PROTOCOL depVersion fb)
      (Regex.strip_alias_version depName) depVersion (store w)
    = (AwaitDocument, log_request asked (store w))).
  { unfold getFetchProtocol. rewrite Hcsb, Hslash. subst asked.
    destruct fb; [done|]. destruct Hfb as [?|Hd]; [done|].
    unfold start_meta. by rewrite Hd. }
  unfold fetch_meta, with_store, with_version, getMeta; cbv zeta.
  rewrite Ha, Hm, Hstart.
  set (t := mkMetaTask (meta_id pj depName depVersion)
              (getFetchProtocol CSB_PKG_PROTOCOL depVersion fb)
              (Regex.strip_alias_version depName) depVersion AwaitDocument).
  set (st1 := set_metas _ _).
  assert (H1 : meta_promises st1 !! h = Some (Pending t))
    by (subst st1; simpl; by apply list_lookup_middle).
  assert (Hlen : length (meta_promises st1) = S h)
    by (subst st1; simpl; rewrite length_app; simpl; lia).
  change (length (meta_promises (log_request asked (store w)))) with h.
  unfold await_meta, await_manifest_of. rewrite H1. simpl.
  unfold settle_meta. rewrite H1. simpl.
  destruct (meta_response network h) as [doc|e] eqn:Hr; simpl.
  - rewrite list_lookup_insert_eq by (rewrite length_app; simpl; lia).
    eexists. split; [done|]. simpl.
    split_and!; try done. by rewrite length_insert.
  - rewrite list_lookup_insert_eq by (rewrite length_app; simpl; lia).
    eexists. split; [done|]. simpl.
    split_and!; try done; [by rewrite length_insert|].
    by rewrite delete_insert_eq, delete_id.
Qed.

(** The [try] and [catch] around [getMeta] for a version of the registry
    that starts with a digit: the normaliser is chosen from the version as
    it is written, the backend from the version an alias resolves to. *)
Lemma fetch_meta_with_fallback_registry (name : string) (pj : option string)
  (v : string) (w : World) (depName depVersion : string) :
  resolveNPMAlias name v = Ok (depName, depVersion) ->
  metas (store w) !! meta_id pj depName depVersion = None ->
  CSB_PKG_PROTOCOL depVersion = false ->
  Regex.occurs "/" depVersion = false ->
  Regex.starts_with_digit depVersion = true ->
  String.eqb name "d3-interpolate" = false ->
  let h := length (meta_promises (store w)) in
  let name' := Regex.strip_alias_version depName in
  let first := MetaRequest jsDelivrNPM name' depVersion (Some depVersion) in
  let second := MetaRequest unpkg name' depVersion None in
  let normaliser fb := normalizeMeta (getFetchProtocol CSB_PKG_PROTOCOL v fb) in
  exists w',
    manager w' = manager w /\
    match meta_response network h with
    | Ok doc =>
        fetch_meta_with_fallback' name pj (Some v) w
        = Some (Ok (doc, normaliser false), w') /\
        requests (store w') = (requests (store w) ++ [first])%list /\
        metas (store w') !! meta_id pj depName depVersion = Some h
    | Throw _ =>
        requests (store w') = (requests (store w) ++ [first; second])%list /\
        match meta_response network (S h) with
        | Ok doc =>
            fetch_meta_with_fallback' name pj (Some v) w
            = Some (Ok (doc, normaliser true), w') /\
            metas (store w') !! meta_id pj depName depVersion = Some (S h)
        | Throw e =>
            fetch_meta_with_fallback' name pj (Some v) w
            = Some (Throw e, w') /\
            metas (store w') !! meta_id pj depName depVersion = None
        end
    end.
Proof.
  intros Ha Hm Hcsb Hslash Hdigit Hd3 h name' first second normaliser.
  destruct (fetch_meta_direct name pj v false w _ _ Ha Hm Hcsb Hslash
              (or_intror Hdigit)) as (w1 & Hf1 & Hm1 & Hr1 & Hl1 & Hk1).
  fold h in Hf1, Hl1, Hk1.
  unfold fetch_meta_with_fallback, bind. rewrite Hd3, Hf1.
  revert Hk1. destruct (meta_response network h) as [doc|e]; intros Hk1.
  - exists w1. split_and!; try done. rewrite Hk1. apply lookup_insert_eq.
  - rewrite <- Hk1 in Hm.
    destruct (fetch_meta_direct name pj v true w1 _ _ Ha Hm Hcsb Hslash
                (or_introl eq_refl)) as (w2 & Hf2 & Hm2 & Hr2 & Hl2 & Hk2).
    rewrite Hl1 in Hf2, Hk2. rewrite Hf2. exists w2.
    split; [congruence|]. split; [by rewrite Hr2, Hr1, <- app_assoc|].
    revert Hk2. destruct (meta_response network (S h)) as [doc|e'];
      intros Hk2.
    + split; [done|]. rewrite Hk2. apply lookup_insert_eq.
    + split; [done|]. by rewrite Hk2.
Qed.

(** X16 — when the primary metadata request fails, [fetchModule] asks
    the fallback backend and takes the normaliser of that backend: for a
    version of the registry, the listing of jsDelivr is asked first; after
    its failure the entry has left [metas], the listing of unpkg is asked
    under a new promise and goes with [normalize].  A listing that jsDelivr
    delivers goes with [normalizeJSDelivr], and unpkg is not asked. *)
Theorem metadata_falls_back_to_unpkg (name : string) (pj : option string)
  (v : string) (w : World) :
  Regex.starts_with "npm:" v = false ->
  metas (store w) !! meta_id pj name v = None ->
  CSB_PKG_PROTOCOL v = false -> Regex.occurs "/" v = false ->
  Regex.starts_with_digit v = true ->
  String.eqb name "d3-interpolate" = false ->
  let h := length (meta_promises (store w)) in
  let name' := Regex.strip_alias_version name in
  let first := MetaRequest jsDelivrNPM name' v (Some v) in
  let second := MetaRequest unpkg name' v None in
  exists w',
    manager w' = manager w /\
    match meta_response network h with
    | Ok doc =>
        fetch_meta_with_fallback' name pj (Some v) w
        = Some (Ok (doc, UseNormalizeJSDelivr), w') /\
        requests (store w') = (requests (store w) ++ [first])%list /\
        metas (store w') !! meta_id pj name v = Some h
    | Throw _ =>
        requests (store w') = (requests (store w) ++ [first; second])%list /\
        match meta_response network (S h) with
        | Ok doc =>
            fetch_meta_with_fallback' name pj (Some v) w
            = Some (Ok (doc, UseNormalize), w') /\
            metas (store w') !! meta_id pj name v = Some (S h)
        | Throw e =>
            fetch_meta_with_fallback' name pj (Some v) w
            = Some (Throw e, w') /\
            metas (store w') !! meta_id pj name v = None
        end
    end.
Proof.
  intros Hnpm Hm Hcsb Hslash Hdigit Hd3 h name' first second.
  assert (Ha : resolveNPMAlias name v = Ok (name, v))
    by (unfold resolveNPMAlias; by rewrite Hnpm).
  pose proof (fetch_meta_with_fallback_registry name pj v w _ _ Ha Hm Hcsb
                Hslash Hdigit Hd3) as H.
  unfold getFetchProtocol in H. rewrite Hcsb, Hslash in H. exact H.
Qed.

(** X17 — the normaliser is chosen from the version as it is written,
    the backend from the version an alias resolves to.  For the alias of a
    scoped package, [npm:@scope/name@version], the written version holds a
    slash: when the listing of jsDelivr fails and unpkg delivers its
    listing, that listing goes with [normalizeJSDelivr], the normaliser of
    the GitHub backend, not with the [normalize] of unpkg. *)
Theorem scoped_alias_takes_the_github_normaliser
  (name a b : string) (pj : option string) (w : World) (e : error)
  (doc : MetaDocument) :
  a <> "" -> b <> "" ->
  Url.no_line_terminator a = true -> Url.no_line_terminator b = true ->
  Regex.occurs "@" b = false -> Regex.occurs "/" a = true ->
  let v := "npm:" ++ a ++ "@" ++ b in
  CSB_PKG_PROTOCOL v = false ->
  metas (store w) !! meta_id pj a b = None ->
  CSB_PKG_PROTOCOL b = false -> Regex.occurs "/" b = false ->
  Regex.starts_with_digit b = true ->
  String.eqb name "d3-interpolate" = false ->
  let h := length (meta_promises (store w)) in
  meta_response network h = Throw e ->
  meta_response network (S h) = Ok doc ->
  exists w',
    fetch_meta_with_fallback' name pj (Some v) w
    = Some (Ok (doc, UseNormalizeJSDelivr), w') /\
    requests (store w')
    = (requests (store w)
       ++ [MetaRequest jsDelivrNPM (Regex.strip_alias_version a) b (Some b);
           MetaRequest unpkg (Regex.strip_alias_version a) b None])%list /\
    normalizeMeta unpkg = UseNormalize.
Proof.
  intros Hna Hnb Ha Hb Hat Hscope v Hcv Hm Hcsb Hslash Hdigit Hd3 h Hr1 Hr2.
  assert (Halias : resolveNPMAlias name v = Ok (a, b)).
  { unfold resolveNPMAlias, Regex.match_alias. subst v.
    rewrite (starts_with_app "npm:" (a ++ "@" ++ b)).
    change (Regex.drop 4 ("npm:" ++ a ++ "@" ++ b)) with (a ++ "@" ++ b).
    rewrite (split_last_at_alias a b Ha Hb Hnb Hat). by destruct a. }
  destruct (fetch_meta_with_fallback_registry name pj v w _ _ Halias Hm Hcsb
              Hslash Hdigit Hd3) as (w' & _ & H).
  fold h in H. rewrite Hr1, Hr2 in H. destruct H as (Hrq & Hf & _).
  exists w'. split_and!; [|done|done].
  rewrite Hf. unfold getFetchProtocol. rewrite Hcv.
  assert (Hsl : Regex.occurs "/" v = true).
  { subst v. apply (occurs_app_r "/" "npm:"). by apply occurs_app_l. }
  by rewrite Hsl.
Qed.

(** X18 — for the package [d3-interpolate] jsDelivr is never asked for
    the listing: [fetchModule] goes to the fallback backend at once, which
    for a version of the registry is unpkg, with [normalize]. *)
Theorem d3_interpolate_is_listed_by_unpkg (pj : option string) (v : string)
  (w : World) :
  Regex.starts_with "npm:" v = false ->
  metas (store w) !! meta_id pj "d3-interpolate" v = None ->
  CSB_PKG_PROTOCOL v = false -> Regex.occurs "/" v = false ->
  let h := length (meta_promises (store w)) in
  exists w',
    fetch_meta_with_fallback' "d3-interpolate" pj (Some v) w
    = Some (match meta_response network h with
            | Ok doc => Ok (doc, UseNormalize)
            | Throw e => Throw e
            end, w') /\
    manager w' = manager w /\
    requests (store w')
    = (requests (store w) ++ [MetaRequest unpkg "d3-interpolate" v None])%list.
Proof.
  intros Hnpm Hm Hcsb Hslash h.
  assert (Ha : resolveNPMAlias "d3-interpolate" v = Ok ("d3-interpolate", v))
    by (unfold resolveNPMAlias; by rewrite Hnpm).
  destruct (fetch_meta_direct "d3-interpolate" pj v true w _ _ Ha Hm Hcsb
              Hslash (or_introl eq_refl)) as (w1 & Hf1 & Hm1 & Hr1 & _ & _).
  fold h in Hf1.
  unfold fetch_meta_with_fallback, bind.
  change (String.eqb "d3-interpolate" "d3-interpolate") with true.
  cbv iota. unfold ret at 1. rewrite Hf1. exists w1.
  split_and!; try done.
  destruct (meta_response network h); [|done].
  unfold ret. simpl. unfold getFetchProtocol. by rewrite Hcsb, Hslash.
Qed.

(** *** Versions that cannot be used *)

Lemma getDependencyVersion_unresolved (fuel : nat) (currentPath : string)
  (extensions : list string) (dependencyName : string) (w w' : World)
  (e : error) :
  resolvePath' fuel (join [dependencyName; "package.json"]) currentPath
               extensions ∅ w = Some (Throw e, w') ->
  getDependencyVersion' fuel currentPath extensions dependencyName w
  = Some (version_from_manifest (manifest (manager w)) dependencyName, w').
Proof.
  intros H. unfold getDependencyVersion, getDependencyVersion_with, bind,
    get_manager. by rewrite H.
Qed.

Lemma get_property_own {A : Type} (object : gmap string A) (name : string)
  (a : A) :
  object !! name = Some a -> get_property object name = Own a.
Proof. intros H. unfold get_property. by rewrite H. Qed.

(** X19 — a dependency that is not known is reported as such: when the
    manifest file of the dependency cannot be resolved, the lock records
    have no property of that name, of their own or inherited from
    [Object.prototype], and the root manifest gives no version for it,
    [fetchModule] is rejected with [DependencyNotFoundError] for the path
    as it was requested, and asks for no metadata. *)
Theorem unknown_dependency_is_not_found (fuel : nat)
  (path currentPath : string) (extensions : list string) (w w' : World)
  (e : error) :
  let dependencyName := getDependencyName (Regex.strip_node_modules path) in
  let manifest := manifest (manager w) in
  resolvePath' fuel (join [dependencyName; "package.json"]) currentPath
               extensions ∅ w = Some (Throw e, w') ->
  get_property (dependencyDependencies manifest) dependencyName
  = Undefined ->
  (forall dep, dep ∈ dependencies manifest ->
               dep_name dep = dependencyName -> dep_version dep = "") ->
  getDependencyVersion' fuel currentPath extensions dependencyName w
  = Some (Ok None, w') /\
  fetchModule' fuel path currentPath extensions w
  = Some (Throw (DependencyNotFoundError path), w').
Proof.
  intros dependencyName manifest Hres Hlock Hroot.
  assert (Hv : getDependencyVersion' fuel currentPath extensions
                 dependencyName w = Some (Ok None, w')).
  { rewrite (getDependencyVersion_unresolved _ _ _ _ _ _ _ Hres).
    fold manifest. unfold version_from_manifest. rewrite Hlock.
    destruct (find _ (dependencies manifest)) as [dep|] eqn:Hfind; [|done].
    apply find_some in Hfind as [Hin Heq].
    apply String.eqb_eq in Heq.
    by rewrite (Hroot dep (proj2 (list_elem_of_In _ _) Hin) Heq). }
  split; [done|].
  unfold fetchModule, fetchModule_resolve, bind.
  fold dependencyName. by rewrite Hv.
Qed.

(** X20 — without a manifest file the lock record decides, not the root
    manifest: when the manifest file of the dependency cannot be resolved
    and there is a lock record for it, the version is the [semver] of that
    record if it starts with [https://] and its [resolved] version
    otherwise, whatever the root manifest declares, and the result names
    no manifest path. *)
Theorem lock_record_decides_without_manifest_file (fuel : nat)
  (currentPath : string) (extensions : list string)
  (dependencyName : string) (w w' : World) (e : error) (lock : LockRecord) :
  resolvePath' fuel (join [dependencyName; "package.json"]) currentPath
               extensions ∅ w = Some (Throw e, w') ->
  dependencyDependencies (manifest (manager w)) !! dependencyName
  = Some lock ->
  let chosen := if Regex.starts_with "https://" (semver lock)
                then semver lock else resolved lock in
  getDependencyVersion' fuel currentPath extensions dependencyName w
  = Some (Ok (if String.eqb chosen "" then None
              else Some (mkVersionResult (Some chosen) None)), w').
Proof.
  intros Hres Hlock chosen.
  rewrite (getDependencyVersion_unresolved _ _ _ _ _ _ _ Hres).
  unfold version_from_manifest. rewrite (get_property_own _ _ _ Hlock).
  fold chosen.
  replace (if Regex.starts_with "https://" (semver lock)
           then Ok (Some (semver lock)) else Ok (Some (resolved lock)))
    with (@Ok (option string) (Some chosen))
    by (subst chosen; by destruct (Regex.starts_with _ _)).
  by destruct chosen.
Qed.

(** X21 — a manifest file without a [version] cannot be fetched: when
    the manifest file the resolver finds for the dependency declares no
    version, the root manifest does not name the dependency and the lock
    records inherit no property of its name from [Object.prototype], the
    version of the result is undefined, and [fetchModule] is rejected with
    the TypeError of [version.match], from the primary and from the
    fallback call of [getMeta] alike, without a request. *)
Theorem manifest_without_version_rejects (fuel : nat)
  (path currentPath : string) (extensions : list string) (w w' : World)
  (found : string) (node : TranspiledModule) :
  let dependencyName := getDependencyName (Regex.strip_node_modules path) in
  resolvePath' fuel (join [dependencyName; "package.json"]) currentPath
               extensions ∅ w = Some (Ok found, w') ->
  (forall dep, dep ∈ dependencies (manifest (manager w)) ->
               dep_name dep <> dependencyName) ->
  get_property (dependencyDependencies (manifest (manager w))) dependencyName
  <> Inherited ->
  transpiledModules (manager w') !! found = Some node ->
  json_version (m_code (tm_module node)) = Ok None ->
  m_code (tm_module node) <> "//empty.js" ->
  getDependencyVersion' fuel currentPath extensions dependencyName w
  = Some (Ok (Some (mkVersionResult None (Some found))), w') /\
  fetchModule' fuel path currentPath extensions w
  = Some (Throw (TypeError "Cannot read property 'match' of undefined"), w').
Proof.
  intros dependencyName Hres Hroot Hlock Hnode Hjson Hcode.
  assert (Hfind : find (fun dep => String.eqb (dep_name dep) dependencyName)
                       (dependencies (manifest (manager w))) = None).
  { destruct (find _ _) as [dep|] eqn:Hfind; [|done].
    apply find_some in Hfind as [Hin Heq]. apply String.eqb_eq in Heq.
    by destruct (Hroot dep (proj2 (list_elem_of_In _ _) Hin)). }
  assert (Hv : getDependencyVersion' fuel currentPath extensions
                 dependencyName w
               = Some (Ok (Some (mkVersionResult None (Some found))), w')).
  { unfold getDependencyVersion, getDependencyVersion_with, bind, get_manager.
    rewrite Hres. unfold version_from_found. rewrite Hfind, Hnode, Hjson.
    apply String.eqb_neq in Hcode. rewrite Hcode.
    destruct (String.eqb found _);
      by destruct (get_property _ _). }
  split; [done|].
  unfold fetchModule, fetchModule_resolve, bind.
  fold dependencyName. rewrite Hv. simpl.
  unfold fetch_meta_with_fallback, fetch_meta, bind, with_store, with_version,
    ret.
  destruct w' as [st' m']. simpl.
  by destruct (String.eqb dependencyName "d3-interpolate").
Qed.

(** X26 — a dependency named like a property of [Object.prototype]
    ([constructor], [toString], ...) that has no lock record of its own
    makes the version resolver throw: the lock records are read with
    [object[name]], the inherited value is truthy and has no [semver], so
    when the manifest file of the dependency cannot be resolved
    [getDependencyVersion] is rejected with the TypeError of
    [.semver.startsWith], whatever the root manifest declares, and
    [fetchModule] is rejected with it and asks for no metadata. *)
Theorem inherited_name_makes_version_resolver_throw (fuel : nat)
  (path currentPath : string) (extensions : list string) (w w' : World)
  (e : error) :
  let dependencyName := getDependencyName (Regex.strip_node_modules path) in
  let manifest := manifest (manager w) in
  let failure :=
    TypeError "Cannot read property 'startsWith' of undefined" in
  resolvePath' fuel (join [dependencyName; "package.json"]) currentPath
               extensions ∅ w = Some (Throw e, w') ->
  dependencyName ∈ Object_prototype ->
  dependencyDependencies manifest !! dependencyName = None ->
  getDependencyVersion' fuel currentPath extensions dependencyName w
  = Some (Throw failure, w') /\
  fetchModule' fuel path currentPath extensions w = Some (Throw failure, w').
Proof.
  intros dependencyName manifest failure Hres Hin Hown.
  assert (Hget : get_property (dependencyDependencies manifest) dependencyName
                 = Inherited).
  { unfold get_property. rewrite Hown.
    replace (existsb (String.eqb dependencyName) Object_prototype) with true;
      [done|].
    symmetry. apply existsb_exists. exists dependencyName.
    split; [by apply list_elem_of_In | apply String.eqb_refl]. }
  assert (Hv : getDependencyVersion' fuel currentPath extensions
                 dependencyName w = Some (Throw failure, w')).
  { rewrite (getDependencyVersion_unresolved _ _ _ _ _ _ _ Hres).
    fold manifest. unfold version_from_manifest. by rewrite Hget. }
  split; [done|].
  unfold fetchModule, fetchModule_resolve, bind.
  fold dependencyName. by rewrite Hv.
Qed.

(** *** The normalised listing *)

(** X22 — the normalised listing of a package root is computed once:
    after [fetchModule] has stored the listing for a dependency and a root
    path, the same listing is served for them whatever metadata and
    normaliser go with the later call, also metadata without [files] that
    would make the normaliser throw; the store stays as it is.  Every path
    of the listing is in [combinedMetas], and the other paths of
    [combinedMetas] are as before. *)
Theorem normalised_listing_is_computed_once
  (dependencyName rootPath : string) (meta meta' : MetaDocument)
  (normalizeFunction normalizeFunction' : normalizer) (st st1 : Store)
  (listing : Meta) :
  normalized_meta join normalizeJSDelivr_of_tree dependencyName rootPath
                  meta normalizeFunction st = (Ok listing, st1) ->
  normalized_meta join normalizeJSDelivr_of_tree dependencyName rootPath
                  meta' normalizeFunction' st1 = (Ok listing, st1) /\
  normalizedMetas st1 !! (dependencyName ++ rootPath) = Some listing /\
  (forall k, combinedMetas st1 !! k
             = match listing !! k with
               | Some b => Some b
               | None => combinedMetas st !! k
               end).
Proof.
  unfold normalized_meta; cbv zeta. intros H.
  assert (Hst1 : st1 = mkStore (metas st) (packages st)
                   (<[dependencyName ++ rootPath := listing]>
                      (normalizedMetas st))
                   (listing ∪ combinedMetas st)
                   (meta_promises st) (package_promises st) (requests st)).
  { destruct (normalizedMetas st !! _) as [cached|]; simpl in H.
    - by injection H as <- <-.
    - destruct (apply_normalizer _ _ _ _ _) as [m|e]; [|done].
      by injection H as <- <-. }
  subst st1. simpl. rewrite lookup_insert_eq. simpl.
  split_and!.
  - rewrite insert_insert_eq, (assoc_L (∪)), (idemp_L (∪)). done.
  - done.
  - intros k. rewrite lookup_union. by destruct (listing !! k), (combinedMetas st !! k).
Qed.

End ResolutionMore.

Lemma metadata_falls_back_to_unpkg_witness :
  let w := scenario_world [] [mkDependency "react" "16.8.0"] empty_store in
  exists w' : World,
    fetch_meta_with_fallback draft_pattern sample_json_version Posix.join
      sample_RegExp_replace
      first_listing_fails "react" None (Some "16.8.0") w
    = Some (Ok (TreeMeta [mkMetaFile "/index.js" file None], UseNormalize),
            w') /\
    requests (store w')
    = [MetaRequest jsDelivrNPM "react" "16.8.0" (Some "16.8.0");
       MetaRequest unpkg "react" "16.8.0" None].
Proof.
  intros w.
  destruct (metadata_falls_back_to_unpkg draft_pattern sample_json_version
    Posix.join sample_RegExp_replace
              first_listing_fails "react" None "16.8.0" w
              eq_refl eq_refl eq_refl eq_refl eq_refl eq_refl)
    as (w' & _ & Hrq & Hf & _).
  exists w'. split; [exact Hf | exact Hrq].
Defined.

Lemma d3_interpolate_is_listed_by_unpkg_witness :
  let w := scenario_world [] [mkDependency "d3-interpolate" "1.3.2"]
                          empty_store in
  exists w' : World,
    fetch_meta_with_fallback draft_pattern sample_json_version Posix.join
      sample_RegExp_replace listing_only
      "d3-interpolate" None (Some "1.3.2") w
    = Some (Ok (FlatMeta [mkFlatFile "/index.js"], UseNormalize), w') /\
    requests (store w') = [MetaRequest unpkg "d3-interpolate" "1.3.2" None].
Proof.
  intros w.
  destruct (d3_interpolate_is_listed_by_unpkg draft_pattern
              sample_json_version Posix.join sample_RegExp_replace listing_only
                None "1.3.2" w
              eq_refl eq_refl eq_refl eq_refl)
    as (w' & Hf & _ & Hrq).
  exists w'. split; [exact Hf | exact Hrq].
Defined.

Lemma scoped_alias_takes_the_github_normaliser_witness :
  let w := scenario_world [] [mkDependency "ui" "npm:@scope/ui@1.0.0"]
                          empty_store in
  exists w' : World,
    fetch_meta_with_fallback draft_pattern sample_json_version Posix.join
      sample_RegExp_replace
      first_listing_fails "ui" None (Some "npm:@scope/ui@1.0.0") w
    = Some (Ok (TreeMeta [mkMetaFile "/index.js" file None],
                UseNormalizeJSDelivr), w') /\
    requests (store w')
    = [MetaRequest jsDelivrNPM "@scope/ui" "1.0.0" (Some "1.0.0");
       MetaRequest unpkg "@scope/ui" "1.0.0" None].
Proof.
  intros w.
  destruct (scoped_alias_takes_the_github_normaliser draft_pattern
              sample_json_version Posix.join sample_RegExp_replace
                first_listing_fails "ui" "@scope/ui"
              "1.0.0" None w (NetworkError "Could not fetch")
              (TreeMeta [mkMetaFile "/index.js" file None])
              ltac:(done) ltac:(done) eq_refl eq_refl eq_refl eq_refl
              eq_refl eq_refl eq_refl eq_refl eq_refl eq_refl eq_refl eq_refl)
    as (w' & Hf & Hrq & _).
  exists w'. split; [exact Hf | exact Hrq].
Defined.

Lemma unknown_dependency_is_not_found_witness :
  let w := scenario_world [] [mkDependency "react" "16.8.0"] empty_store in
  fetchModule draft_pattern sample_json_version Posix.join Posix.dirname
    sample_RegExp_replace
    sample_getDependencyName
    (NodeResolve.resolve no_entry_point sample_browser_ignores) offline
    no_foreign_listing 1 "lodash/sum.js" "/src/index.js" defaultExtensions w
  = Some (Throw (DependencyNotFoundError "lodash/sum.js"), w).
Proof.
  intros w.
  apply (proj2 (unknown_dependency_is_not_found draft_pattern
           sample_json_version Posix.join Posix.dirname sample_RegExp_replace
           sample_getDependencyName
           (NodeResolve.resolve no_entry_point sample_browser_ignores)
           offline no_foreign_listing 1 "lodash/sum.js" "/src/index.js"
           defaultExtensions w w (ModuleNotFound "lodash/package.json")
           ltac:(vm_compute; reflexivity) ltac:(vm_compute; reflexivity)
           ltac:(intros dep [->|[]%elem_of_nil]%elem_of_cons; done))).
Defined.

Lemma lock_record_decides_without_manifest_file_witness :
  let w := locked_world [] [mkDependency "lodash" "3.0.0"]
             [("lodash", mkLockRecord "^4.17.0" "4.17.15")] in
  getDependencyVersion draft_pattern sample_json_version Posix.join
    sample_RegExp_replace
    sample_getDependencyName
    (NodeResolve.resolve no_entry_point sample_browser_ignores) offline
    1 "/src/index.js" defaultExtensions "lodash" w
  = Some (Ok (Some (mkVersionResult (Some "4.17.15") None)), w).
Proof.
  intros w.
  apply (lock_record_decides_without_manifest_file draft_pattern
           sample_json_version Posix.join sample_RegExp_replace
             sample_getDependencyName
           (NodeResolve.resolve no_entry_point sample_browser_ignores)
           offline 1 "/src/index.js" defaultExtensions "lodash" w w
           (ModuleNotFound "lodash/package.json")
           (mkLockRecord "^4.17.0" "4.17.15")
           ltac:(vm_compute; reflexivity) ltac:(vm_compute; reflexivity)).
Defined.

Lemma manifest_without_version_rejects_witness :
  let w := scenario_world [("/node_modules/pkg/package.json", "{}")]
                          [mkDependency "react" "16.8.0"] empty_store in
  fetchModule draft_pattern json_version_or_none Posix.join Posix.dirname
    sample_RegExp_replace
    sample_getDependencyName
    (NodeResolve.resolve no_entry_point sample_browser_ignores) offline
    no_foreign_listing 1 "pkg" "/src/index.js" defaultExtensions w
  = Some (Throw (TypeError "Cannot read property 'match' of undefined"), w).
Proof.
  intros w.
  apply (proj2 (manifest_without_version_rejects draft_pattern
           json_version_or_none Posix.join Posix.dirname sample_RegExp_replace
           sample_getDependencyName
           (NodeResolve.resolve no_entry_point sample_browser_ignores)
           offline no_foreign_listing 1 "pkg" "/src/index.js"
           defaultExtensions w w "/node_modules/pkg/package.json"
           (plain_module "/node_modules/pkg/package.json" "{}")
           ltac:(vm_compute; reflexivity)
           ltac:(intros dep [->|[]%elem_of_nil]%elem_of_cons; done)
           ltac:(vm_compute; discriminate)
           ltac:(vm_compute; reflexivity) eq_refl ltac:(done))).
Defined.

Lemma inherited_name_makes_version_resolver_throw_witness :
  let w := scenario_world [] [mkDependency "constructor" "1.0.0"]
                          empty_store in
  fetchModule draft_pattern sample_json_version Posix.join Posix.dirname
    sample_RegExp_replace sample_getDependencyName
    (NodeResolve.resolve no_entry_point sample_browser_ignores) offline
    no_foreign_listing 1 "constructor" "/src/index.js" defaultExtensions w
  = Some (Throw (TypeError "Cannot read property 'startsWith' of undefined"),
          w).
Proof.
  intros w.
  apply (proj2 (inherited_name_makes_version_resolver_throw draft_pattern
           sample_json_version Posix.join Posix.dirname sample_RegExp_replace
           sample_getDependencyName
           (NodeResolve.resolve no_entry_point sample_browser_ignores)
           offline no_foreign_listing 1 "constructor" "/src/index.js"
           defaultExtensions w w (ModuleNotFound "constructor/package.json")
           ltac:(vm_compute; reflexivity) ltac:(apply list_elem_of_here)
           ltac:(vm_compute; reflexivity))).
Defined.

Lemma normalised_listing_is_computed_once_witness :
  let first := normalized_meta Posix.join no_foreign_listing "pkg"
                 "/node_modules/pkg" (FlatMeta [mkFlatFile "/index.js"])
                 UseNormalizeJSDelivr empty_store in
  normalized_meta Posix.join no_foreign_listing "pkg" "/node_modules/pkg"
                  NoFiles UseNormalize (snd first)
  = (Ok ({["/node_modules/pkg/index.js" := true]} : Meta), snd first).
Proof.
  intros first.
  assert (H : normalized_meta Posix.join no_foreign_listing "pkg"
                "/node_modules/pkg" (FlatMeta [mkFlatFile "/index.js"])
                UseNormalizeJSDelivr empty_store
              = (Ok ({["/node_modules/pkg/index.js" := true]} : Meta),
                 snd first))
    by (vm_compute; reflexivity).
  exact (proj1 (normalised_listing_is_computed_once Posix.join
                  no_foreign_listing "pkg" "/node_modules/pkg"
                  (FlatMeta [mkFlatFile "/index.js"]) NoFiles
                  UseNormalizeJSDelivr UseNormalize empty_store (snd first)
                  _ H)).
Defined.

(** ** The metadata of a GitHub version *)

Section GitHubVersions.

Variable CSB_PKG_PROTOCOL : string -> bool.
Variable json_version : string -> result (option string).
Variable join : list string -> string.
Variable RegExp_replace : string -> string -> result string.

#[local] Abbreviation run' :=
  (run CSB_PKG_PROTOCOL json_version join RegExp_replace).

(** X23 — for a GitHub version the metadata request waits for the
    latest commit: [getMeta] first asks the GitHub API for the head of
    [master] of the repository, with or without the fallback flag, and the
    listing is asked for the [sha] of the answer, with [undefined] in the
    URL when the answer has none.  When the API request fails the chain
    fails with its error and the entry leaves [metas], without a metadata
    request. *)
Theorem github_version_is_read_from_latest_commit
  (name version depName depVersion : string) (pj : option string) (fb : bool)
  (st : Store) :
  resolveNPMAlias name version = Ok (depName, depVersion) ->
  metas st !! meta_id pj depName depVersion = None ->
  CSB_PKG_PROTOCOL depVersion = false ->
  Regex.occurs "/" depVersion = true ->
  let name' := Regex.strip_alias_version depName in
  let repo := Url.convertGitHubURLToVersion depVersion in
  let h := length (meta_promises st) in
  let st1 := run' [CallGetMeta name pj version fb] st in
  let commit := ShaRequest depVersion in
  requests st1 = (requests st ++ [commit])%list /\
  Url.of_request commit
  = Some ("https://api.github.com/repos/" ++ repo ++ "/commits/master") /\
  (forall sha,
     let asked := MetaRequest jsDelivrGH name' depVersion
                    (Some (default "undefined" sha)) in
     requests (run' [ShaSettled h (Ok sha)] st1)
     = (requests st ++ [commit; asked])%list /\
     Url.of_request asked
     = Some ("https://data.jsdelivr.com/v1/package/gh/" ++ repo ++ "@"
             ++ default "undefined" sha ++ "/flat")) /\
  (forall e,
     let st2 := run' [ShaSettled h (Throw e)] st1 in
     requests st2 = (requests st ++ [commit])%list /\
     meta_promises st2 !! h = Some (Rejected e) /\
     metas st2 !! meta_id pj depName depVersion = None).
Proof.
  intros Ha Hm Hcsb Hslash name' repo h st1 commit.
  assert (Hst1 : st1
            = set_metas <[meta_id pj depName depVersion := h]>
                (set_meta_promises
                   (fun l => (l ++ [Pending (mkMetaTask
                                      (meta_id pj depName depVersion)
                                      jsDelivrGH name' depVersion
                                      AwaitSha)])%list)
                   (log_request commit st))).
  { subst st1. simpl. unfold getMeta; cbv zeta. rewrite Ha, Hm.
    unfold getFetchProtocol. by rewrite Hcsb, Hslash. }
  assert (Hh : meta_promises st1 !! h
               = Some (Pending (mkMetaTask (meta_id pj depName depVersion)
                                  jsDelivrGH name' depVersion AwaitSha)))
    by (rewrite Hst1; simpl; by apply list_lookup_middle).
  assert (Hlt : h < length (meta_promises st1))
    by (by eapply lookup_lt_Some).
  split_and!; [by rewrite Hst1|done|..].
  - intros sha asked. split; [|done]. simpl. unfold settle_sha.
    rewrite Hh. simpl. rewrite Hst1. simpl. by rewrite <- app_assoc.
  - intros e st2. subst st2. simpl. unfold settle_sha. rewrite Hh. simpl.
    split_and!.
    + by rewrite Hst1.
    + by rewrite list_lookup_insert_eq.
    + apply lookup_delete_eq.
Qed.

End GitHubVersions.

Lemma github_version_is_read_from_latest_commit_witness :
  requests (run draft_pattern sample_json_version Posix.join
    sample_RegExp_replace
              [CallGetMeta "repo" None "https://github.com/user/repo.git"
                 true;
               ShaSettled 0 (Ok (Some "0a1b2c3d"))] empty_store)
  = [ShaRequest "https://github.com/user/repo.git";
     MetaRequest jsDelivrGH "repo" "https://github.com/user/repo.git"
       (Some "0a1b2c3d")] /\
  Url.of_request
    (MetaRequest jsDelivrGH "repo" "https://github.com/user/repo.git"
       (Some "0a1b2c3d"))
  = Some "https://data.jsdelivr.com/v1/package/gh/user/repo@0a1b2c3d/flat".
Proof.
  exact (proj1 (proj2 (proj2
           (github_version_is_read_from_latest_commit draft_pattern
              sample_json_version Posix.join sample_RegExp_replace "repo"
                "https://github.com/user/repo.git"
              "repo" "https://github.com/user/repo.git" None true
              empty_store eq_refl eq_refl eq_refl eq_refl)))
           (Some "0a1b2c3d")).
Defined.

(** ** The module that is fetched *)

Section FetchedModule.

Variable CSB_PKG_PROTOCOL : string -> bool.
Variable json_version : string -> result (option string).
Variable join : list string -> string.
Variable dirname : string -> string.
Variable RegExp_replace : string -> string -> result string.
Variable getDependencyName : string -> string.
Variable resolve :
  string -> string -> list string -> list string -> resolution.
Variable network : Network.
Variable normalizeJSDelivr_of_tree :
  list MetaFile -> string -> result Meta.

#[local] Abbreviation resolvePath' :=
  (resolvePath CSB_PKG_PROTOCOL json_version join RegExp_replace
    getDependencyName resolve
               network).
#[local] Abbreviation getDependencyVersion' :=
  (getDependencyVersion CSB_PKG_PROTOCOL json_version join RegExp_replace
    getDependencyName
                        resolve network).
#[local] Abbreviation fetchModule' :=
  (fetchModule CSB_PKG_PROTOCOL json_version join dirname RegExp_replace
    getDependencyName
               resolve network normalizeJSDelivr_of_tree).
#[local] Abbreviation fetchModule_resolve' :=
  (fetchModule_resolve CSB_PKG_PROTOCOL json_version join dirname RegExp_replace
     getDependencyName resolve network normalizeJSDelivr_of_tree).

Lemma settle_file_keeps_packages (h : handle) (r : result string)
  (st : Store) :
  packages (settle_file CSB_PKG_PROTOCOL h r st) = packages st.
Proof.
  unfold settle_file. destruct (package_promises st !! h) as [[t| |]|]; try done.
  by destruct r, (ft_stage t).
Qed.

(** [await] on the promise of a download that has just been started. *)
Lemma await_package_pending (h : handle) (st : Store) (t : file_task) :
  package_promises st !! h = Some (Pending t) ->
  ft_stage t = Primary ->
  let module code := mkModule (ft_path t) code None None (Some true) in
  exists st',
    await_package CSB_PKG_PROTOCOL network h st
    = (match file_response network h Primary,
             file_response network h Fallback with
       | Ok code, _ => Ok (module code)
       | Throw _, Ok code => Ok (module code)
       | Throw _, Throw e => Throw e
       end, st') /\
    packages st' = packages st.
Proof.
  intros H Hs module. unfold await_package.
  assert (Ha : settle_file_from_network CSB_PKG_PROTOCOL network h st
               = settle_file CSB_PKG_PROTOCOL h
                   (file_response network h Primary) st).
  { unfold settle_file_from_network. by rewrite H, Hs. }
  rewrite Ha.
  pose proof (settle_file_pending CSB_PKG_PROTOCOL h
                (file_response network h Primary) st t H) as H1.
  rewrite Hs in H1.
  destruct (file_response network h Primary) as [code|e1].
  - assert (Hb : settle_file_from_network CSB_PKG_PROTOCOL network h
                   (settle_file CSB_PKG_PROTOCOL h (Ok code) st)
                 = settle_file CSB_PKG_PROTOCOL h (Ok code) st).
    { unfold settle_file_from_network. by rewrite H1. }
    rewrite Hb, H1. eexists. split; [done|].
    apply settle_file_keeps_packages.
  - set (st2 := settle_file CSB_PKG_PROTOCOL h (Throw e1) st) in *.
    assert (Hb : settle_file_from_network CSB_PKG_PROTOCOL network h st2
                 = settle_file CSB_PKG_PROTOCOL h
                     (file_response network h Fallback) st2).
    { unfold settle_file_from_network. by rewrite H1. }
    rewrite Hb.
    pose proof (settle_file_pending CSB_PKG_PROTOCOL h
                  (file_response network h Fallback) st2 _ H1) as H2.
    simpl in H2. rewrite H2.
    destruct (file_response network h Fallback); eexists;
      (split; [done|]); subst st2; by rewrite !settle_file_keeps_packages.
Qed.

(** X24 — the module [fetchModule] returns is the file the resolver has
    found: for a resolved path other than [//empty.js] that is not cached
    and a dependency name from which [new RegExp] can build its pattern,
    it is the download of that path for the dependency and its version, a
    module with the resolved path (not the requested one),
    [downloaded: true], and the text of the first request or, when that
    fails, of the fallback request; when both fail [fetchModule] is
    rejected with the error of the fallback request.  The download is
    entered in [packages].  When [new RegExp] throws, [fetchModule] is
    rejected with its error and nothing is entered. *)
Theorem fetchModule_downloads_the_resolved_path (fuel : nat)
  (path currentPath : string) (extensions : list string) (w w' : World)
  (dependencyName v found depName depVersion : string) :
  fetchModule_resolve' fuel path currentPath extensions w
  = Some (Ok (dependencyName, Some v, found), w') ->
  found <> "//empty.js" ->
  resolveNPMAlias dependencyName v = Ok (depName, depVersion) ->
  packages (store w') !! package_id depName depVersion found = None ->
  let h := length (package_promises (store w')) in
  let module code := mkModule found code None None (Some true) in
  match relativePath join RegExp_replace depName found with
  | Ok relative =>
      exists w'',
        fetchModule' fuel path currentPath extensions w
        = Some (match file_response network h Primary,
                      file_response network h Fallback with
                | Ok code, _ => Ok (module code)
                | Throw _, Ok code => Ok (module code)
                | Throw _, Throw e => Throw e
                end, w'') /\
        manager w'' = manager w' /\
        packages (store w'') !! package_id depName depVersion found = Some h
  | Throw e =>
      fetchModule' fuel path currentPath extensions w = Some (Throw e, w')
  end.
Proof.
  intros Hres Hfound Ha Hp h module.
  unfold fetchModule, bind. rewrite Hres.
  unfold fetchModule_found. apply String.eqb_neq in Hfound. rewrite Hfound.
  unfold download, with_store, with_version.
  pose proof (downloadDependency_outcome CSB_PKG_PROTOCOL join RegExp_replace
                dependencyName v found (store w') _ _ Ha) as Hout.
  rewrite Hp in Hout.
  destruct (relativePath join RegExp_replace depName found) as [relative|e].
  - destruct Hout as (st1 & Hcall & Hpk & Hps & _).
    rewrite Hcall.
    assert (H0 : package_promises st1 !! h
                 = Some (Pending (mkFileTask
                                    (Regex.strip_alias_version depName)
                                    depVersion relative found Primary)))
      by (rewrite Hps; by apply list_lookup_middle).
    destruct (await_package_pending h st1 _ H0 eq_refl)
      as (st2 & Hawait & Hpk2).
    fold h. rewrite Hawait. exists (mkWorld st2 (manager w')).
    split; [done|]. split; [done|]. cbn [store]. rewrite Hpk2, Hpk.
    apply lookup_insert_eq.
  - rewrite Hout. by destruct w'.
Qed.

(** X25 — the version of a dependency that is not declared in the root
    manifest comes from its manifest file, unless the lock record knows
    better: when the lock record of the dependency has resolved to the
    version the manifest file declares and its [semver] starts with
    [https://], the result is that URL; otherwise it is the version of the
    manifest file.  Either way the result names the manifest path that the
    resolver has found. *)
Theorem getDependencyVersion_reads_the_manifest_file (fuel : nat)
  (currentPath : string) (extensions : list string)
  (dependencyName : string) (w w' : World) (found declared : string)
  (node : TranspiledModule) :
  resolvePath' fuel (join [dependencyName; "package.json"]) currentPath
               extensions ∅ w = Some (Ok found, w') ->
  (forall dep, dep ∈ dependencies (manifest (manager w)) ->
               dep_name dep <> dependencyName) ->
  transpiledModules (manager w') !! found = Some node ->
  json_version (m_code (tm_module node)) = Ok (Some declared) ->
  m_code (tm_module node) <> "//empty.js" ->
  let chosen :=
    match dependencyDependencies (manifest (manager w)) !! dependencyName with
    | Some lock =>
        if String.eqb (resolved lock) declared
           && Regex.starts_with "https://" (semver lock)
        then semver lock else declared
    | None => declared
    end in
  getDependencyVersion' fuel currentPath extensions dependencyName w
  = Some (Ok (Some (mkVersionResult (Some chosen) (Some found))), w').
Proof.
  intros Hres Hroot Hnode Hjson Hcode chosen.
  assert (Hfind : find (fun dep => String.eqb (dep_name dep) dependencyName)
                       (dependencies (manifest (manager w))) = None).
  { destruct (find _ _) as [dep|] eqn:Hfind; [|done].
    apply find_some in Hfind as [Hin Heq]. apply String.eqb_eq in Heq.
    by destruct (Hroot dep (proj2 (list_elem_of_In _ _) Hin)). }
  unfold getDependencyVersion, getDependencyVersion_with, bind, get_manager.
  rewrite Hres. unfold version_from_found. rewrite Hfind, Hnode, Hjson.
  apply String.eqb_neq in Hcode. rewrite Hcode. subst chosen.
  assert (Hroot' : (if String.eqb found
                         (join ["/node_modules"; dependencyName;
                                "package.json"])
                    then @None Dependency else None) = None)
    by (by destruct (String.eqb found _)).
  rewrite Hroot'. unfold get_property.
  destruct (dependencyDependencies _ !! _) as [lock|];
    [|by destruct (existsb _ _)].
  destruct (Regex.starts_with "https://" (semver lock));
    destruct (String.eqb_spec (resolved lock) declared) as [->|Hne];
    rewrite ?bool_decide_eq_true_2 by done;
    rewrite ?bool_decide_eq_false_2 by congruence; done.
Qed.

End FetchedModule.

Lemma fetchModule_downloads_the_resolved_path_witness :
  let w := scenario_world [] [mkDependency "pkg" "1.0.0"] empty_store in
  exists w'' : World,
    fetchModule draft_pattern sample_json_version Posix.join Posix.dirname
      sample_RegExp_replace
      sample_getDependencyName
      (NodeResolve.resolve no_entry_point sample_browser_ignores) serving
      no_foreign_listing 1 "pkg" "/src/index.js" defaultExtensions w
    = Some (Ok (mkModule "/node_modules/pkg/index.js" "module.exports = 1;"
                         None None (Some true)), w'').
Proof.
  intros w.
  assert (Hres :
    fetchModule_resolve draft_pattern sample_json_version Posix.join
      Posix.dirname sample_RegExp_replace sample_getDependencyName
      (NodeResolve.resolve no_entry_point sample_browser_ignores) serving
      no_foreign_listing 1 "pkg" "/src/index.js" defaultExtensions w
    = Some (Ok ("pkg", Some "1.0.0", "/node_modules/pkg/index.js"), _))
    by (vm_compute; reflexivity).
  destruct (fetchModule_downloads_the_resolved_path draft_pattern
              sample_json_version Posix.join Posix.dirname sample_RegExp_replace
              sample_getDependencyName
              (NodeResolve.resolve no_entry_point sample_browser_ignores)
              serving no_foreign_listing 1 "pkg" "/src/index.js"
              defaultExtensions w _ "pkg" "1.0.0"
              "/node_modules/pkg/index.js" "pkg" "1.0.0" Hres
              ltac:(done) eq_refl ltac:(vm_compute; reflexivity))
    as (w'' & Hf & _).
  exists w''. exact Hf.
Defined.

Lemma getDependencyVersion_reads_the_manifest_file_witness :
  let url := "https://pkg.csb.dev/facebook/react/commit/0a1b2c3d/react" in
  let w := locked_world [("/node_modules/react/package.json", manifest_16)]
             [] [("react", mkLockRecord url "16.8.0")] in
  getDependencyVersion draft_pattern sample_json_version Posix.join
    sample_RegExp_replace
    sample_getDependencyName
    (NodeResolve.resolve no_entry_point sample_browser_ignores) offline
    1 "/src/index.js" defaultExtensions "react" w
  = Some (Ok (Some (mkVersionResult (Some url)
                      (Some "/node_modules/react/package.json"))), w).
Proof.
  intros url w.
  apply (getDependencyVersion_reads_the_manifest_file draft_pattern
           sample_json_version Posix.join sample_RegExp_replace
             sample_getDependencyName
           (NodeResolve.resolve no_entry_point sample_browser_ignores)
           offline 1 "/src/index.js" defaultExtensions "react" w w
           "/node_modules/react/package.json" "16.8.0"
           (plain_module "/node_modules/react/package.json" manifest_16)
           ltac:(vm_compute; reflexivity)
           ltac:(intros dep []%elem_of_nil)
           ltac:(vm_compute; reflexivity) eq_refl ltac:(done)).
Defined.
